(** * simdev_website: the browser-side calculators

    A shallow embedding of the numerical core of the site:

    - [CurveFitting]   public/scripts/curve_fitting/curve_fitting.js
    - [PorousMedia]    the porous-media page script ([fitCurve],
                       [calcDarcyForchheimer])
    - [OilProps]       public/scripts/oil_properties/getOilProperties.js
    - [UnitConverter]  the unit conversion script ([convertUnit])
    - [UnitLists]      the unit lists of the same script
                       ([getAvailableUnits], [isValidUnit])
    - [Calculators], [FlowCalculator], [CircleAreaCalculator]
                       the calculators page script ([toSI], [fromSI],
                       [calculateReynolds], the update functions)
    - [PorousMediaPage] the calculators of the porous-media page
                       ([calculateAll], [calculateFromFlow],
                       [updateOilProps])

    JavaScript numbers are IEEE-754 binary64 values.  The arithmetic the
    programs use is captured by the interface [JSNumber], and the code of
    the curve-fitting scripts is written once over that interface.  It is
    read in two arithmetics:

    - [xreal], exact arithmetic: the real numbers extended with
      [+Infinity], [-Infinity] and [NaN].  The special values follow the
      IEEE rules ([x/0], [Inf - Inf], [0 * Inf], comparisons with [NaN]);
      rounding and overflow are not modelled, and there is a single zero,
      read as [+0] where a sign is needed.  General theorems are stated in
      this arithmetic, which is the one of the specification (samples and
      coefficients are real numbers there).
    - [float], Rocq's primitive binary64 numbers, bit-exact for
      [+ - * /], [Math.abs] and [<].  Concrete runs of the scripts are
      evaluated in it.

    DOM access, plotting and console output are left out.  They are
    taken to complete normally, so no value the functions return depends
    on them. *)

From Stdlib Require Import Reals Lra Lia ZArith Floats Uint63 List String Ascii Bool.
From stdpp Require Import gmap strings.

Set Warnings "-inexact-float".

(* ================================================================== *)
(** * JavaScript values and control *)
(* ================================================================== *)

Module JS.

(** A function body either returns a value or throws [new Error(message)]. *)
Inductive completion (A : Type) : Type :=
| Return (a : A)
| Throw (message : string).
Arguments Return {A} a.
Arguments Throw {A} message.

Definition bind {A B : Type} (c : completion A) (k : A -> completion B) : completion B :=
  match c with
  | Return a => k a
  | Throw m => Throw m
  end.

(** The double-quote character, for messages that quote their arguments. *)
Definition dquote : string := String (ascii_of_nat 34) EmptyString.

Definition quoted (s : string) : string :=
  String.append dquote (String.append s dquote).

(** The arithmetic of the Number type, as far as the scripts use it. *)
Class JSNumber (num : Type) : Type := {
  of_nat : nat -> num;                  (* integer literals, [array.length] *)
  NaN : num;
  lit_1em10 : num;                      (* the literal [1e-10] *)
  add : num -> num -> num;
  sub : num -> num -> num;
  mul : num -> num -> num;
  div : num -> num -> num;
  Math_abs : num -> num;
  lt : num -> num -> bool;              (* [x < y] *)
  Number_isFinite : num -> bool;
}.

End JS.
Export JS.

Declare Scope js_scope.
Delimit Scope js_scope with js.
Infix "+" := add : js_scope.
Infix "-" := sub : js_scope.
Infix "*" := mul : js_scope.
Infix "/" := div : js_scope.
Infix "<" := lt : js_scope.
Notation "'let*' x ':=' c 'in' k" := (bind c (fun x => k))
  (at level 10, x name, c at level 100, k at level 200) : js_scope.

(* ------------------------------------------------------------------ *)
(** ** Exact arithmetic *)

Module XReal.

Inductive xreal : Type :=
| Fin (r : R)
| PInf
| NInf
| XNaN.

(** The infinity with the sign of [r]; [NaN] when [r] is zero. *)
Definition inf_of_sign (r : R) : xreal :=
  if Rlt_dec 0 r then PInf else if Rlt_dec r 0 then NInf else XNaN.

Definition xadd (a b : xreal) : xreal :=
  match a, b with
  | XNaN, _ | _, XNaN => XNaN
  | Fin x, Fin y => Fin (x + y)
  | PInf, NInf | NInf, PInf => XNaN
  | PInf, _ | _, PInf => PInf
  | NInf, _ | _, NInf => NInf
  end.

Definition xsub (a b : xreal) : xreal :=
  match a, b with
  | XNaN, _ | _, XNaN => XNaN
  | Fin x, Fin y => Fin (x - y)
  | PInf, PInf | NInf, NInf => XNaN
  | PInf, _ | _, NInf => PInf
  | NInf, _ | _, PInf => NInf
  end.

Definition xmul (a b : xreal) : xreal :=
  match a, b with
  | XNaN, _ | _, XNaN => XNaN
  | Fin x, Fin y => Fin (x * y)
  | Fin x, PInf | PInf, Fin x => inf_of_sign x
  | Fin x, NInf | NInf, Fin x => inf_of_sign (- x)
  | PInf, PInf | NInf, NInf => PInf
  | PInf, NInf | NInf, PInf => NInf
  end.

(** Division by zero does not fail: a non-zero numerator gives an
    infinity, [0/0] gives [NaN]. *)
Definition xdiv (a b : xreal) : xreal :=
  match a, b with
  | XNaN, _ | _, XNaN => XNaN
  | Fin x, Fin y => if Req_dec_T y 0 then inf_of_sign x else Fin (x / y)
  | Fin _, PInf | Fin _, NInf => Fin 0
  | PInf, Fin y => if Rlt_dec y 0 then NInf else PInf
  | NInf, Fin y => if Rlt_dec y 0 then PInf else NInf
  | PInf, PInf | PInf, NInf | NInf, PInf | NInf, NInf => XNaN
  end.

Definition xabs (a : xreal) : xreal :=
  match a with
  | Fin x => Fin (Rabs x)
  | PInf | NInf => PInf
  | XNaN => XNaN
  end.

(** Every comparison with [NaN] is false. *)
Definition xlt (a b : xreal) : bool :=
  match a, b with
  | XNaN, _ | _, XNaN => false
  | Fin x, Fin y => if Rlt_dec x y then true else false
  | NInf, Fin _ | NInf, PInf | Fin _, PInf => true
  | _, _ => false
  end.

Definition xfinite (a : xreal) : bool :=
  match a with
  | Fin _ => true
  | _ => false
  end.

(** ToBoolean on numbers: [0] and [NaN] are falsy. *)
Definition truthy (a : xreal) : bool :=
  match a with
  | Fin x => if Req_dec_T x 0 then false else true
  | PInf | NInf => true
  | XNaN => false
  end.

(** [Math.log10]: [NaN] below zero, [-Infinity] at zero. *)
Definition Math_log10 (a : xreal) : xreal :=
  match a with
  | Fin x =>
      if Rlt_dec 0 x then Fin (ln x / ln 10)
      else if Req_dec_T x 0 then NInf else XNaN
  | PInf => PInf
  | NInf | XNaN => XNaN
  end.

(** [Math.pow(10, h)]. *)
Definition Math_pow10 (h : xreal) : xreal :=
  match h with
  | Fin x => Fin (Rpower 10 x)
  | PInf => PInf
  | NInf => Fin 0
  | XNaN => XNaN
  end.

#[export] Instance xreal_number : JSNumber xreal := {|
  of_nat := fun n => Fin (INR n);
  NaN := XNaN;
  lit_1em10 := Fin 1e-10;
  add := xadd;
  sub := xsub;
  mul := xmul;
  div := xdiv;
  Math_abs := xabs;
  lt := xlt;
  Number_isFinite := xfinite;
|}.

(** The operations that decide a comparison of reals are rewritten with
    their equations, not unfolded. *)
Arguments inf_of_sign : simpl never.
Arguments xdiv : simpl never.
Arguments xlt : simpl never.
Arguments truthy : simpl never.
Arguments Math_log10 : simpl never.

End XReal.
Export XReal.

(* ------------------------------------------------------------------ *)
(** ** Binary64 arithmetic *)

Module Binary64.

(** Array lengths are below [2^32], so the conversion is exact. *)
Definition float_of_nat (n : nat) : float :=
  PrimFloat.of_uint63 (Uint63.of_Z (Z.of_nat n)).

#[export] Instance float_number : JSNumber float := {|
  of_nat := float_of_nat;
  NaN := PrimFloat.nan;
  lit_1em10 := 1e-10%float;
  add := PrimFloat.add;
  sub := PrimFloat.sub;
  mul := PrimFloat.mul;
  div := PrimFloat.div;
  Math_abs := PrimFloat.abs;
  lt := PrimFloat.ltb;
  Number_isFinite := PrimFloat.is_finite;
|}.

End Binary64.
Export Binary64.

(* ================================================================== *)
(** * curve_fitting.js *)
(* ================================================================== *)

Module CurveFitting.

Section Generic.
Context {num : Type} `{JSNumber num}.
Local Open Scope js_scope.

(** A data point [{x, y}]. *)
Record point : Type := Point { x : num; y : num }.

(** The seven running sums of [leastSquaresFit]. *)
Record sums : Type := Sums {
  sumX : num; sumX2 : num; sumX3 : num; sumX4 : num;
  sumY : num; sumXY : num; sumX2Y : num
}.

Record coefficients : Type := Coefficients { A : num; B : num }.

Definition initial_sums : sums :=
  Sums (of_nat 0) (of_nat 0) (of_nat 0) (of_nat 0) (of_nat 0) (of_nat 0) (of_nat 0).

(** The body of the [forEach] callback. *)
Definition accumulate (s : sums) (p : point) : sums :=
  let x := x p in
  let y := y p in
  Sums (sumX s + x)
       (sumX2 s + x * x)
       (sumX3 s + x * x * x)
       (sumX4 s + x * x * x * x)
       (sumY s + y)
       (sumXY s + x * y)
       (sumX2Y s + x * x * y).

Definition too_few_points : string :=
  "At least 3 data points required for curve fitting".

Definition singular_matrix : string :=
  "Singular matrix - cannot solve for coefficients".

Definition leastSquaresFit (dataPoints : list point) : completion coefficients :=
  if (length dataPoints <? 3)%nat then Throw too_few_points
  else
    let n := of_nat (length dataPoints) in
    let s := fold_left accumulate dataPoints initial_sums in
    let denom := n * sumX4 s - sumX2 s * sumX2 s in
    if Math_abs denom < lit_1em10 then Throw singular_matrix
    else
      let A := (sumY s * sumX4 s - sumX2Y s * sumX2 s) / denom in
      let B := (n * sumX2Y s - sumY s * sumX2 s) / denom in
      Return (Coefficients A B).

(** [Math.pow(v, 2)]. *)
Definition square (v : num) : num := v * v.

Definition calculateR2 (dataPoints : list point) (A B : num) : num :=
  let yMean :=
    fold_left (fun sum p => sum + y p) dataPoints (of_nat 0)
      / of_nat (length dataPoints) in
  let ssTot :=
    fold_left (fun sum p => sum + square (y p - yMean)) dataPoints (of_nat 0) in
  let ssRes :=
    fold_left (fun sum p =>
                 let yPred := A * x p + B * x p * x p in
                 sum + square (y p - yPred)) dataPoints (of_nat 0) in
  of_nat 1 - ssRes / ssTot.

(** The values [performCurveFitting] returns; [null] is [None]. *)
Record analysis : Type := Analysis {
  fit_A : num; fit_B : num; d : num; f : num; R2 : num
}.

Definition too_few_points' : string := "At least 3 data points required".

(** The [try] block, without the chart and the results element. *)
Definition performCurveFitting_try (dataPoints : list point) (L density viscosity : num)
  : completion analysis :=
  if (length dataPoints <? 3)%nat then Throw too_few_points'
  else
    let* c := leastSquaresFit dataPoints in
    let R2 := calculateR2 dataPoints (A c) (B c) in
    let d := A c / (viscosity * L) in
    let f := (of_nat 2 * B c) / (density * L) in
    Return (Analysis (A c) (B c) d f R2).

Definition performCurveFitting (dataPoints : list point) (L density viscosity : num)
  : option analysis :=
  match performCurveFitting_try dataPoints L density viscosity with
  | Return r => Some r
  | Throw _ => None
  end.

(** [generateCurve] with its last argument given; the loop runs over
    [i = 0 .. numPoints] and pushes one point per turn.  [numPoints] is a
    natural number here, as in every call of the script (the default 100). *)
Definition generateCurve (A B xMin xMax : num) (numPoints : nat) : list point :=
  let step := (xMax - xMin) / of_nat numPoints in
  map (fun i =>
         let x := xMin + of_nat i * step in
         let y := A * x + B * x * x in
         Point x y)
      (seq 0 (S numPoints)).

End Generic.

Arguments point num : clear implicits.
Arguments sums num : clear implicits.
Arguments coefficients num : clear implicits.
Arguments analysis num : clear implicits.

End CurveFitting.

(* ================================================================== *)
(** * The porous-media page script *)
(* ================================================================== *)

Module PorousMedia.

Section Generic.
Context {num : Type} `{JSNumber num}.
Local Open Scope js_scope.

Record sums : Type := Sums {
  sumX2 : num; sumX3 : num; sumX4 : num; sumXY : num; sumX2Y : num
}.

Definition initial_sums : sums :=
  Sums (of_nat 0) (of_nat 0) (of_nat 0) (of_nat 0) (of_nat 0).

(** The [for] loop of [fitCurve] over [i < x.length].  [y[i]] past the
    end of [y] is [undefined], which arithmetic converts to [NaN]. *)
Fixpoint fitCurve_loop (x y : list num) (s : sums) : sums :=
  match x with
  | [] => s
  | xi :: x' =>
      let yi := hd NaN y in
      let xi2 := xi * xi in
      let xi3 := xi2 * xi in
      let xi4 := xi3 * xi in
      fitCurve_loop x' (tl y)
        (Sums (sumX2 s + xi2)
              (sumX3 s + xi3)
              (sumX4 s + xi4)
              (sumXY s + xi * yi)
              (sumX2Y s + xi2 * yi))
  end.

(** No length check and no test of [denom]: the function always returns. *)
Definition fitCurve (x y : list num) : CurveFitting.coefficients num :=
  let s := fitCurve_loop x y initial_sums in
  let denom := sumX2 s * sumX4 s - sumX3 s * sumX3 s in
  let A := (sumX4 s * sumXY s - sumX3 s * sumX2Y s) / denom in
  let B := (sumX2 s * sumX2Y s - sumX3 s * sumXY s) / denom in
  CurveFitting.Coefficients A B.

Record porous : Type := Porous { d : num; f : num }.

Definition calcDarcyForchheimer (A B mu rho L : num) : porous :=
  let d := A / (mu * L) in
  let f := (of_nat 2 * B) / (rho * L) in
  Porous d f.

End Generic.

Arguments sums num : clear implicits.
Arguments porous num : clear implicits.

End PorousMedia.

(* ================================================================== *)
(** * getOilProperties.js *)
(* ================================================================== *)

Module OilProps.

Local Open Scope js_scope.

Definition DENSITY_COEFFICIENT : xreal := Fin 0.00065.
Definition REFERENCE_TEMP_K : xreal := Fin 288.15.
Definition WALTHER_CONSTANT : xreal := Fin 0.8.

(** An entry of ["Kinematic Viscosity Limits"]. *)
Record viscosityLimit : Type := ViscosityLimit {
  temperature : xreal;
  kinematicViscosity : xreal
}.

(** An entry of the fluid table; a field the JSON object lacks is [None]. *)
Record fluid : Type := Fluid {
  DensityAt15C : option xreal;
  KinematicViscosityLimits : option (list viscosityLimit)
}.

(** The module variable [fluidData] is passed explicitly.  A name the
    object only inherits ([toString], ...) yields a value without the two
    fields, which the functions below treat like a missing entry. *)
Definition getDensityAtTemp (fluidData : gmap string fluid) (name : string) (tK : xreal)
  : xreal :=
  if negb (Number_isFinite tK) then NaN
  else
    match fluidData !! name with
    | None => NaN
    | Some fluid =>
        match DensityAt15C fluid with
        | None => NaN
        | Some rho15 =>
            if negb (truthy rho15) then NaN
            else rho15 * (Fin 1 - DENSITY_COEFFICIENT * (tK - REFERENCE_TEMP_K))
        end
    end.

Definition calculateWaltherTransform (viscosity : xreal) : xreal :=
  Math_log10 (Math_log10 (viscosity + WALTHER_CONSTANT)).

Definition inverseWaltherTransform (h : xreal) : xreal :=
  Math_pow10 (Math_pow10 h) - WALTHER_CONSTANT.


Definition getKinViscAtTemp (fluidData : gmap string fluid) (name : string) (tK : xreal)
  : xreal :=
  if negb (Number_isFinite tK) then NaN
  else
    match fluidData !! name ≫= KinematicViscosityLimits with
    | Some (p1 :: p2 :: _) =>
        let T1 := temperature p1 in
        let V1 := kinematicViscosity p1 in
        let T2 := temperature p2 in
        let V2 := kinematicViscosity p2 in
        if negb (Number_isFinite T1) || negb (Number_isFinite V1)
           || negb (Number_isFinite T2) || negb (Number_isFinite V2)
        then NaN
        else
          let W1 := calculateWaltherTransform V1 in
          let W2 := calculateWaltherTransform V2 in
          let m := (W2 - W1) / (Math_log10 T2 - Math_log10 T1) in
          let n := W1 - m * Math_log10 T1 in
          let h := m * Math_log10 tK + n in
          inverseWaltherTransform h
    | _ => NaN
    end.

Definition getDynViscAtTemp (fluidData : gmap string fluid) (name : string) (tK : xreal)
  : xreal :=
  let kinVisc := getKinViscAtTemp fluidData name tK in
  let density := getDensityAtTemp fluidData name tK in
  if negb (Number_isFinite kinVisc) || negb (Number_isFinite density) then NaN
  else kinVisc * Fin 1e-6 * density.

End OilProps.

(* ================================================================== *)
(** * The unit conversion script *)
(* ================================================================== *)

Module UnitConverter.

Local Open Scope js_scope.
Local Open Scope string_scope.

(** A factor table is an object literal: its own keys in insertion order. *)
Definition factor_table : Type := list (string * xreal).

Definition lengthFactors : factor_table :=
  [("m", Fin 1); ("cm", Fin 0.01); ("mm", Fin 0.001); ("in", Fin 0.0254);
   ("ft", Fin 0.3048)].

Definition areaFactors : factor_table :=
  [("m^2", Fin 1); ("cm^2", Fin 0.0001); ("mm^2", Fin 1e-6);
   ("in^2", Fin 0.00064516); ("ft^2", Fin 0.092903)].

Definition densityFactors : factor_table :=
  [("kg/m^3", Fin 1); ("g/cm^3", Fin 1000); ("lb/ft^3", Fin 16.0185)].

Definition kinViscFactors : factor_table :=
  [("m^2/s", Fin 1); ("mm^2/s", Fin 1e-6); ("cSt", Fin 1e-6)].

Definition dynViscFactors : factor_table :=
  [("Pa*s", Fin 1); ("mPa*s", Fin 1e-3); ("cP", Fin 1e-3)].

Definition volumeFactors : factor_table :=
  [("m^3", Fin 1); ("L", Fin 0.001); ("mL", Fin 1e-6); ("in^3", Fin 1.6387e-5);
   ("ft^3", Fin 0.0283168); ("gal(US)", Fin 0.00378541);
   ("gal(UK)", Fin 0.00454609)].

Definition flowFactors : factor_table :=
  [("m^3/s", Fin 1); ("L/s", Fin 0.001); ("L/min", Fin 0.001 / Fin 60);
   ("gpm", Fin 0.00378541 / Fin 60); ("gal/h", Fin 0.00378541 / Fin 3600);
   ("ft^3/s", Fin 0.0283168); ("kg/s", Fin 1); ("lb/s", Fin 0.453592)].

Definition pressureFactors : factor_table :=
  [("Pa", Fin 1); ("kPa", Fin 1000); ("MPa", Fin 1e6); ("GPa", Fin 1e9);
   ("bar", Fin 100000); ("psi", Fin 6894.76); ("atm", Fin 101325)].

Definition forceFactors : factor_table :=
  [("N", Fin 1); ("kN", Fin 1000); ("lbf", Fin 4.44822); ("kgf", Fin 9.80665)].

Definition temperatureUnits : list string := ["C"; "F"; "K"].

Definition unitTypeRegistry : list (string * factor_table) :=
  [("length", lengthFactors); ("area", areaFactors); ("density", densityFactors);
   ("kinematicViscosity", kinViscFactors); ("dynamicViscosity", dynViscFactors);
   ("volume", volumeFactors); ("flow", flowFactors);
   ("pressure", pressureFactors); ("force", forceFactors)].

(** The property names every object literal inherits from
    [Object.prototype]. *)
Definition objectPrototypeNames : list string :=
  ["constructor"; "hasOwnProperty"; "isPrototypeOf"; "propertyIsEnumerable";
   "toLocaleString"; "toString"; "valueOf"; "__proto__";
   "__defineGetter__"; "__defineSetter__"; "__lookupGetter__";
   "__lookupSetter__"].

(** [Array.prototype.includes] on an array of strings. *)
Definition includes (l : list string) (s : string) : bool :=
  existsb (String.eqb s) l.

Definition own_factor (table : factor_table) (unit : string) : option xreal :=
  snd <$> find (fun entry => String.eqb unit (fst entry)) table.

(** [unit in table]: own keys and inherited names alike. *)
Definition has_property (unit : string) (table : factor_table) : bool :=
  match own_factor table unit with
  | Some _ => true
  | None => includes objectPrototypeNames unit
  end.

(** [table[unit]] as an operand of [/]: an inherited value is a function
    or an object, which converts to [NaN], like [undefined]. *)
Definition get_factor (table : factor_table) (unit : string) : xreal :=
  match own_factor table unit with
  | Some factor => factor
  | None => NaN
  end.

Definition upper_ascii (c : ascii) : ascii :=
  let n := nat_of_ascii c in
  if (97 <=? n)%nat && (n <=? 122)%nat then ascii_of_nat (n - 32) else c.

(** [String.prototype.toUpperCase] on the ASCII letters.  The letters it
    also changes outside ASCII never yield ["C"], ["F"] or ["K"], the only
    results [normalizeUnit] looks for. *)
Fixpoint toUpperCase (s : string) : string :=
  match s with
  | EmptyString => EmptyString
  | String c s' => String (upper_ascii c) (toUpperCase s')
  end.

Definition unit_not_string : string := "Unit must be a non-empty string".

Definition unsupported_temperature_unit (unit : string) : string :=
  String.append "Unsupported temperature unit: " unit.

Definition unknown_unit (unit : string) : string :=
  String.append "Unknown unit: " (quoted unit).

Definition unsupported_conversion (originalUnit newUnit : string) : string :=
  String.append "Unsupported conversion from "
    (String.append (quoted originalUnit)
       (String.append " to " (quoted newUnit))).

(** The argument is a string here; the empty string is falsy. *)
Definition normalizeUnit (unit : string) : completion string :=
  match unit with
  | EmptyString => Throw unit_not_string
  | _ =>
      let upperUnit := toUpperCase unit in
      if includes ["C"; "F"; "K"] upperUnit then Return upperUnit
      else Return unit
  end.

Definition temperatureToKelvin (unit : string) (value : xreal) : completion xreal :=
  if String.eqb unit "K" then Return value
  else if String.eqb unit "C" then Return (value + Fin 273.15)
  else if String.eqb unit "F" then Return ((value - Fin 32) * Fin 5 / Fin 9 + Fin 273.15)
  else Throw (unsupported_temperature_unit unit).

Definition temperatureFromKelvin (unit : string) (valueK : xreal) : completion xreal :=
  if String.eqb unit "K" then Return valueK
  else if String.eqb unit "C" then Return (valueK - Fin 273.15)
  else if String.eqb unit "F" then Return ((valueK - Fin 273.15) * Fin 9 / Fin 5 + Fin 32)
  else Throw (unsupported_temperature_unit unit).

Definition linearConversion (factorTable : factor_table) (fromUnit toUnit : string)
  (value : xreal) : completion xreal :=
  if negb (has_property fromUnit factorTable) then Throw (unknown_unit fromUnit)
  else if negb (has_property toUnit factorTable) then Throw (unknown_unit toUnit)
  else Return (value * (get_factor factorTable fromUnit / get_factor factorTable toUnit)).

(** [value] is a number here, so the [typeof] test passes.  The [catch]
    blocks log and rethrow the error they caught. *)
Definition convertUnit (originalUnit newUnit : string) (value : xreal) : completion xreal :=
  if negb (Number_isFinite value) then Return NaN
  else
    let* fromUnit := normalizeUnit originalUnit in
    let* toUnit := normalizeUnit newUnit in
    if String.eqb fromUnit toUnit then Return value
    else if includes ["C"; "F"; "K"] fromUnit && includes ["C"; "F"; "K"] toUnit then
      let* valueK := temperatureToKelvin fromUnit value in
      temperatureFromKelvin toUnit valueK
    else
      match find (fun entry => has_property fromUnit (snd entry)
                               && has_property toUnit (snd entry))
                 unitTypeRegistry with
      | Some (_, factorTable) => linearConversion factorTable fromUnit toUnit value
      | None => Throw (unsupported_conversion originalUnit newUnit)
      end.

End UnitConverter.

(* ------------------------------------------------------------------ *)
(** ** Unit lists of the conversion script *)

Module UnitLists.

Import UnitConverter.
Local Open Scope string_scope.

Definition lower_ascii (c : ascii) : ascii :=
  let n := nat_of_ascii c in
  if (65 <=? n)%nat && (n <=? 90)%nat then ascii_of_nat (n + 32) else c.

(** [String.prototype.toLowerCase] on a UTF-8 string, as far as a type
    name can feel it: the ASCII letters, and the Kelvin sign U+212A
    (bytes E2 84 AA), the one other character whose lower case is an
    ASCII letter.  Every other character stays outside ASCII. *)
Fixpoint toLowerCase (s : string) : string :=
  match s with
  | EmptyString => EmptyString
  | String c s' =>
      match s' with
      | String c1 (String c2 rest) =>
          if (nat_of_ascii c =? 226)%nat && (nat_of_ascii c1 =? 132)%nat
             && (nat_of_ascii c2 =? 170)%nat
          then String "k" (toLowerCase rest)
          else String (lower_ascii c) (toLowerCase s')
      | _ => String (lower_ascii c) (toLowerCase s')
      end
  end.

(** The white space of [\s] that takes one byte. *)
Definition ascii_space (n : nat) : bool :=
  ((9 <=? n)%nat && (n <=? 13)%nat) || (n =? 32)%nat.

(** The white space of [\s] that takes three bytes: U+1680,
    U+2000..U+200A, U+2028, U+2029, U+202F, U+205F, U+3000, U+FEFF. *)
Definition space3 (a b c : nat) : bool :=
  ((a =? 225)%nat && (b =? 154)%nat && (c =? 128)%nat)
  || ((a =? 226)%nat && (b =? 128)%nat
      && (((128 <=? c)%nat && (c <=? 138)%nat)
          || (c =? 168)%nat || (c =? 169)%nat || (c =? 175)%nat))
  || ((a =? 226)%nat && (b =? 129)%nat && (c =? 159)%nat)
  || ((a =? 227)%nat && (b =? 128)%nat && (c =? 128)%nat)
  || ((a =? 239)%nat && (b =? 187)%nat && (c =? 191)%nat).

(** [s.replace(/\s+/g, '')]: every white-space character is dropped
    (U+00A0 takes the two bytes C2 A0). *)
Fixpoint remove_spaces (fuel : nat) (s : string) : string :=
  match fuel with
  | O => s
  | S fuel' =>
      match s with
      | EmptyString => EmptyString
      | String a rest =>
          if ascii_space (nat_of_ascii a) then remove_spaces fuel' rest
          else
            match rest with
            | String b rest' =>
                if (nat_of_ascii a =? 194)%nat && (nat_of_ascii b =? 160)%nat
                then remove_spaces fuel' rest'
                else
                  match rest' with
                  | String c rest'' =>
                      if space3 (nat_of_ascii a) (nat_of_ascii b) (nat_of_ascii c)
                      then remove_spaces fuel' rest''
                      else String a (remove_spaces fuel' rest)
                  | EmptyString => String a (remove_spaces fuel' rest)
                  end
            | EmptyString => String a EmptyString
            end
      end
  end.

(** A value of [unitTypeMap]: a factor table or the array of
    temperature units. *)
Inductive unit_list : Type :=
| Factors (table : factor_table)
| Units (units : list string).

Definition unitTypeMap : list (string * unit_list) :=
  [("length", Factors lengthFactors); ("area", Factors areaFactors);
   ("temperature", Units temperatureUnits); ("density", Factors densityFactors);
   ("kinematicviscosity", Factors kinViscFactors);
   ("dynamicviscosity", Factors dynViscFactors);
   ("volume", Factors volumeFactors); ("flow", Factors flowFactors);
   ("flowrate", Factors flowFactors); ("pressure", Factors pressureFactors);
   ("force", Factors forceFactors)].

Definition unit_type_not_string : string := "Unit type must be a non-empty string".

Fixpoint join (separator : string) (l : list string) : string :=
  match l with
  | [] => EmptyString
  | [s] => s
  | s :: l' => String.append s (String.append separator (join separator l'))
  end.

Definition unsupported_unit_type (unitType : string) : string :=
  String.append "Unsupported unit type "
    (String.append (quoted unitType)
       (String.append ". Available types: " (join ", " (map fst unitTypeMap)))).

(** An inherited property of [unitTypeMap] is a function or an object
    without enumerable keys of its own: it is truthy, it is no array, and
    [Object.keys] of it is empty. *)
Definition getAvailableUnits (unitType : string) : completion (list string) :=
  match unitType with
  | EmptyString => Throw unit_type_not_string
  | _ =>
      let normalizedType :=
        remove_spaces (String.length unitType) (toLowerCase unitType) in
      match find (fun entry => String.eqb normalizedType (fst entry)) unitTypeMap with
      | Some (_, Units units) => Return units
      | Some (_, Factors table) => Return (map fst table)
      | None =>
          if includes objectPrototypeNames normalizedType then Return []
          else Throw (unsupported_unit_type unitType)
      end
  end.

(** The [catch] block logs a warning and answers [false]. *)
Definition isValidUnit (unit unitType : string) : bool :=
  match getAvailableUnits unitType with
  | Throw _ => false
  | Return availableUnits =>
      match normalizeUnit unit with
      | Throw _ => false
      | Return normalizedUnit => includes availableUnits normalizedUnit
      end
  end.

End UnitLists.

(* ================================================================== *)
(** * The calculators page script *)
(* ================================================================== *)

Module Calculators.

Import UnitConverter.
Local Open Scope js_scope.
Local Open Scope string_scope.

(** The object [siUnits] of [toSI] and [fromSI]. *)
Definition siUnits : list (string * string) :=
  [("length", "m"); ("flow", "m^3/s"); ("velocity", "m/s")].

Definition si_unit (type : string) : option string :=
  snd <$> find (fun entry => String.eqb type (fst entry)) siUnits.

(** The error of [convertUnit] is swallowed and the value returned as it
    came.  For a [type] that is no own key of [siUnits] the second unit
    is no string: [convertUnit] answers a non-finite value with [NaN]
    before it looks at the units, and otherwise [normalizeUnit] throws. *)
Definition toSI (value : xreal) (fromUnit type : string) : xreal :=
  match si_unit type with
  | Some si =>
      match convertUnit fromUnit si value with
      | Return converted => converted
      | Throw _ => value
      end
  | None => if negb (Number_isFinite value) then NaN else value
  end.

Definition fromSI (value : xreal) (toUnit type : string) : xreal :=
  match si_unit type with
  | Some si =>
      match convertUnit si toUnit value with
      | Return converted => converted
      | Throw _ => value
      end
  | None => if negb (Number_isFinite value) then NaN else value
  end.

(** What [calculateReynolds] writes into the result field. *)
Inductive reynolds_text : Type :=
| Blank                      (* the empty string *)
| InfinitySign               (* the infinity sign *)
| Fixed0 (Re : xreal)        (* [Re.toFixed(0)] *)
| ErrorText.                 (* ["Error"] *)

(** [x === 0] on numbers. *)
Definition is_zero (a : xreal) : bool :=
  match a with
  | Fin x => if Req_dec_T x 0 then true else false
  | _ => false
  end.

(** The four numbers are the [parseFloat] of the input fields, the four
    units the values of the unit selectors. *)
Definition calculateReynolds (rho_val V_val D_val mu_val : xreal)
  (densityUnit velocityUnit diameterUnit dynViscUnit : string) : reynolds_text :=
  if negb (Number_isFinite rho_val) || negb (Number_isFinite V_val)
     || negb (Number_isFinite D_val) || negb (Number_isFinite mu_val)
  then Blank
  else if is_zero mu_val then InfinitySign
  else
    match (let* rho_SI := convertUnit densityUnit "kg/m^3" rho_val in
           let* V_SI := convertUnit velocityUnit "m/s" V_val in
           let* D_SI := convertUnit diameterUnit "m" D_val in
           let* mu_SI := convertUnit dynViscUnit "Pa·s" mu_val in
           Return ((rho_SI * V_SI * D_SI) / mu_SI)) with
    | Return Re => Fixed0 Re
    | Throw _ => ErrorText
    end.

End Calculators.

(** ** The flow calculator *)

(** Each update function is modelled by the number it hands to
    [toFixed(4)] before writing the field, [None] when it leaves the
    field alone.  The arguments are the [parseFloat] of the two input
    fields it reads and the values of the three unit selectors.  The flag
    [isUpdating] is false whenever a handler starts, since no handler
    runs inside another. *)
Module FlowCalculator.

Import UnitConverter Calculators.
Local Open Scope js_scope.
Local Open Scope string_scope.

Definition Math_PI : xreal := Fin PI.

(** [Math.sqrt]: [NaN] below zero. *)
Definition Math_sqrt (a : xreal) : xreal :=
  match a with
  | Fin x => if Rlt_dec x 0 then XNaN else Fin (R_sqrt.sqrt x)
  | PInf => PInf
  | NInf | XNaN => XNaN
  end.

(** [Math.pow(a, 2)]. *)
Definition Math_pow2 (a : xreal) : xreal := a * a.

Definition updateVelocity (D_val Q_val : xreal) (diameterUnit flowUnit velocityUnit : string)
  : option xreal :=
  if Number_isFinite D_val && Number_isFinite Q_val && (Fin 0 < D_val) then
    let D_m := toSI D_val diameterUnit "length" in
    let Q_m3s := toSI Q_val flowUnit "flow" in
    let area_m2 := Math_PI * Math_pow2 (D_m / Fin 2) in
    let V_m_s := Q_m3s / area_m2 in
    Some (fromSI V_m_s velocityUnit "velocity")
  else None.

Definition updateDiameter (V_val Q_val : xreal) (velocityUnit flowUnit diameterUnit : string)
  : option xreal :=
  if Number_isFinite V_val && Number_isFinite Q_val && (Fin 0 < V_val) then
    let V_m_s := toSI V_val velocityUnit "velocity" in
    let Q_m3s := toSI Q_val flowUnit "flow" in
    let area_m2 := Q_m3s / V_m_s in
    let D_m := Fin 2 * Math_sqrt (area_m2 / Math_PI) in
    Some (fromSI D_m diameterUnit "length")
  else None.

Definition updateFlow (D_val V_val : xreal) (diameterUnit velocityUnit flowUnit : string)
  : option xreal :=
  if Number_isFinite D_val && Number_isFinite V_val && (Fin 0 < D_val) then
    let D_m := toSI D_val diameterUnit "length" in
    let V_m_s := toSI V_val velocityUnit "velocity" in
    let area_m2 := Math_PI * Math_pow2 (D_m / Fin 2) in
    let Q_m3s := area_m2 * V_m_s in
    Some (fromSI Q_m3s flowUnit "flow")
  else None.

End FlowCalculator.

(** ** The circle area calculator *)

(** The number handed to [toFixed(6)], [None] when the field is left
    alone: the input is not finite, or [convertUnit] threw and the
    [catch] block only logged the error. *)
Module CircleAreaCalculator.

Import UnitConverter FlowCalculator.
Local Open Scope js_scope.
Local Open Scope string_scope.

Definition written (c : completion xreal) : option xreal :=
  match c with
  | Return value => Some value
  | Throw _ => None
  end.

Definition updateArea (D_val : xreal) (diameterUnit areaUnit : string) : option xreal :=
  if negb (Number_isFinite D_val) then None
  else
    written (let* D_m := convertUnit diameterUnit "m" D_val in
             let A_m2 := Math_PI * Math_pow2 (D_m / Fin 2) in
             convertUnit "m^2" areaUnit A_m2).

Definition updateDiameter (A_val : xreal) (areaUnit diameterUnit : string) : option xreal :=
  if negb (Number_isFinite A_val) then None
  else
    written (let* A_m2 := convertUnit areaUnit "m^2" A_val in
             let D_m := Fin 2 * Math_sqrt (A_m2 / Math_PI) in
             convertUnit "m" diameterUnit D_m).

End CircleAreaCalculator.

(* ================================================================== *)
(** * The porous-media page script: the main calculator *)
(* ================================================================== *)

Module PorousMediaPage.

Import UnitConverter OilProps.
Local Open Scope js_scope.
Local Open Scope string_scope.

(** The numbers [calculateAll] shows. *)
Record report : Type := Report {
  A : xreal; B : xreal; mu : xreal; rho : xreal; d : xreal; f : xreal
}.

(** [x] and [y] are the columns [readTableData] returns, the other
    arguments the values of the form fields ([tempInput] and [L] after
    [parseFloat]).  [None] is the early return after the alert; a thrown
    error rejects the promise of the [async] function. *)
Definition calculateAll (fluidData : gmap string fluid) (x y : list xreal)
  (oilType : string) (tempInput : xreal) (tempUnit : string) (L : xreal)
  : completion (option report) :=
  if (length x <? 3)%nat then Return None
  else
    let c := PorousMedia.fitCurve x y in
    let* tK := convertUnit tempUnit "K" tempInput in
    let dens := getDensityAtTemp fluidData oilType tK in
    let dynVisc := getDynViscAtTemp fluidData oilType tK in
    let p := PorousMedia.calcDarcyForchheimer
               (CurveFitting.A c) (CurveFitting.B c) dynVisc dens L in
    Return (Some (Report (CurveFitting.A c) (CurveFitting.B c) dynVisc dens
                         (PorousMedia.d p) (PorousMedia.f p))).

(** [isNaN] on a number. *)
Definition isNaN (a : xreal) : bool :=
  match a with
  | XNaN => true
  | _ => false
  end.

(** [a <= 0]. *)
Definition le_zero (a : xreal) : bool :=
  match a with
  | Fin x => if Rle_dec x 0 then true else false
  | NInf => true
  | PInf | XNaN => false
  end.

(** A row is the [parseFloat] of its flow-rate cell and of its
    pressure-loss cell. *)
Definition readFlowTableData (area : xreal) (rows : list (xreal * xreal))
  : list xreal * list xreal :=
  let valid := filter (fun r => negb (isNaN (fst r)) && negb (isNaN (snd r))) rows in
  (map (fun r => fst r / area) valid, map snd valid).

(** [densityInput] and [viscosityInput] are the [parseFloat] of the two
    fields that override the fluid table; [a || b] takes [b] when [a] is
    0 or [NaN]. *)
Definition calculateFromFlow (fluidData : gmap string fluid) (area : xreal)
  (rows : list (xreal * xreal)) (oilType : string) (tempInput : xreal)
  (tempUnit : string) (L densityInput viscosityInput : xreal)
  : completion (option report) :=
  if negb (truthy area) || le_zero area then Return None
  else
    let xy := readFlowTableData area rows in
    if (length (fst xy) <? 3)%nat then Return None
    else
      let c := PorousMedia.fitCurve (fst xy) (snd xy) in
      let* tK := convertUnit tempUnit "K" tempInput in
      let dens := if truthy densityInput then densityInput
                  else getDensityAtTemp fluidData oilType tK in
      let dynVisc := if truthy viscosityInput then viscosityInput
                     else getDynViscAtTemp fluidData oilType tK in
      let p := PorousMedia.calcDarcyForchheimer
                 (CurveFitting.A c) (CurveFitting.B c) dynVisc dens L in
      Return (Some (Report (CurveFitting.A c) (CurveFitting.B c) dynVisc dens
                           (PorousMedia.d p) (PorousMedia.f p))).


End PorousMediaPage.

(* ================================================================== *)
(** * Vocabulary of the statements *)
(* ================================================================== *)

Import CurveFitting OilProps UnitConverter.
Open Scope R_scope.

(** ** Real samples and their sums *)

(** A sample of the specification is a pair of reals [(x, y)]. *)
Definition real_point (p : R * R) : point xreal := Point (Fin (fst p)) (Fin (snd p)).

Definition real_points (samples : list (R * R)) : list (point xreal) :=
  map real_point samples.

Definition Rsum (g : R * R -> R) (samples : list (R * R)) : R :=
  fold_right (fun p acc => g p + acc) 0 samples.

(** The quantities of the coefficient of determination, over the reals. *)
Definition y_mean (samples : list (R * R)) : R :=
  Rsum (fun p => snd p) samples / INR (length samples).

Definition SS_tot (samples : list (R * R)) : R :=
  Rsum (fun p => (snd p - y_mean samples) * (snd p - y_mean samples)) samples.

Definition SS_res (samples : list (R * R)) (A B : R) : R :=
  Rsum (fun p => (snd p - (A * fst p + B * fst p * fst p))
                 * (snd p - (A * fst p + B * fst p * fst p))) samples.

(** ** The Walther transform over the reals *)

(** The Walther transform of a viscosity above 0.2, as a real number. *)
Definition walther (v : R) : R := ln (ln (v + 0.8) / ln 10) / ln 10.

(** ** Quantity types of units *)

(** The own keys of a factor table. *)
Definition keys (table : factor_table) : list string := map fst table.

(** Every unit some factor table registers. *)
Definition registered_units : list string :=
  flat_map (fun entry => keys (snd entry)) unitTypeRegistry.

(** The quantity type of a unit: ["temperature"] for the three
    temperature units, else the name of the table that has it as an own
    key; [None] for a unit that no table registers. *)
Definition unit_type (unit : string) : option string :=
  if includes temperatureUnits unit then Some "temperature"%string
  else fst <$> find (fun entry => includes (keys (snd entry)) unit) unitTypeRegistry.

(** The table [convertUnit] picks for a pair of units, if any. *)
Definition common_table (fromUnit toUnit : string) : option (string * factor_table) :=
  find (fun entry => has_property fromUnit (snd entry) && has_property toUnit (snd entry))
       unitTypeRegistry.

Definition same_type (a b : option string) : bool :=
  match a, b with
  | Some s, Some t => String.eqb s t
  | _, _ => false
  end.

(** Two registered units share a table only if they have one type. *)
Definition consistent_pair (a b : string) : bool :=
  match common_table a b with
  | Some _ => same_type (unit_type a) (unit_type b)
  | None => true
  end.

(** ** Sample inputs *)

(** The end-to-end samples of the specification. *)
Definition spec_samples : list (R * R) := [(0.5, 10.2); (1, 25.5); (1.5, 45.8)].



(** Samples on the line [y = x], that is [A0 = 1] and [B0 = 0]. *)
Definition line_samples : list (R * R) := [(1, 1); (2, 2); (3, 3)].

(** Three measurements at the velocity 50.3, as binary64 numbers. *)
Definition identical_x_points : list (point float) :=
  [Point 50.3%float 1%float; Point 50.3%float 2%float; Point 50.3%float 3%float].

(** A table with one hydraulic oil. *)
Definition example_fluids : gmap string fluid :=
  {[ "ISO VG 32"%string :=
       Fluid (Some (Fin 870))
             (Some [ViscosityLimit (Fin 313.15) (Fin 32);
                    ViscosityLimit (Fin 373.15) (Fin 5.4)]) ]}.

(** A table whose entry has a reference density of 0. *)
Definition zero_density_fluids : gmap string fluid :=
  {[ "Test Oil"%string :=
       Fluid (Some (Fin 0))
             (Some [ViscosityLimit (Fin 313.15) (Fin 32);
                    ViscosityLimit (Fin 373.15) (Fin 5.4)]) ]}.


(** ** Further quantities and inputs *)

(** The sum of squared residuals of the curve [y = A + B x^2]. *)
Definition SS_res_intercept (samples : list (R * R)) (A B : R) : R :=
  Rsum (fun p => (snd p - (A + B * (fst p * fst p)))
                 * (snd p - (A + B * (fst p * fst p)))) samples.

(** What holds of every own key [unit] of a registered table [entry]:
    its quantity type is the name of the table, [normalizeUnit] leaves it
    as it is, and it is neither a temperature unit nor an inherited name. *)
Definition registered_unit_ok (entry : string * factor_table) (unit : string) : bool :=
  same_type (unit_type unit) (Some (fst entry))
  && match normalizeUnit unit with
     | Return normalized => String.eqb normalized unit
     | Throw _ => false
     end
  && negb (includes ["C"; "F"; "K"]%string unit)
  && negb (includes objectPrototypeNames unit).

(** A unit name that is no temperature unit, no name inherited from
    [Object.prototype] and the key of no factor table. *)
Definition unregistered (unit : string) : bool :=
  negb (includes ["C"; "F"; "K"]%string unit)
  && negb (includes objectPrototypeNames unit)
  && negb (includes registered_units unit).

(** A conversion factor that is a positive real. *)
Definition positive_factor (factor : xreal) : Prop :=
  exists r : R, factor = Fin r /\ 0 < r.

(** The two [switch] statements of the temperature conversion, over the
    reals, for the three units they know. *)
Definition kelvin_of (unit : string) (v : R) : R :=
  if String.eqb unit "C" then v + 273.15
  else if String.eqb unit "F" then (v - 32) * 5 / 9 + 273.15
  else v.

Definition of_kelvin (unit : string) (k : R) : R :=
  if String.eqb unit "C" then k - 273.15
  else if String.eqb unit "F" then (k - 273.15) * 9 / 5 + 32
  else k.

(** Four noisy measurements. *)
Definition noisy_samples : list (R * R) := [(1, 2); (2, 7); (3, 11); (4, 21)].




(** The temperature at which the linear density model reaches zero. *)
Definition zero_density_temperature : R := 288.15 + 1 / 0.00065.

(** A fluid table with one complete entry. *)
Definition hydraulic_oil : fluid :=
  Fluid (Some (Fin 875))
        (Some [ViscosityLimit (Fin 313.15) (Fin 46);
               ViscosityLimit (Fin 373.15) (Fin 6.8)]).

Definition sample_fluids : gmap string fluid :=
  {[ "HLP 46"%string := hydraulic_oil ]}.

(** Entries with unusable reference points: both at one temperature, and
    none at all. *)
Definition repeated_temperature_oil : fluid :=
  Fluid (Some (Fin 875))
        (Some [ViscosityLimit (Fin 313.15) (Fin 46);
               ViscosityLimit (Fin 313.15) (Fin 6.8)]).

Definition density_only_oil : fluid := Fluid (Some (Fin 900)) None.

Definition incomplete_fluids : gmap string fluid :=
  {[ "Repeated"%string := repeated_temperature_oil;
     "Density only"%string := density_only_oil ]}.

(* ================================================================== *)
(** * Facts of exact arithmetic *)
(* ================================================================== *)

(** Equality of records and options of exact numbers, down to the reals. *)
Ltac fin_eq :=
  lazymatch goal with
  | |- Fin _ = Fin _ => apply (f_equal Fin)
  | |- @eq R _ _ => idtac
  | |- @eq xreal _ _ => idtac
  | |- _ = _ => progress f_equal; fin_eq
  end.

Lemma xdiv_finite (a b : R) : b <> 0 -> xdiv (Fin a) (Fin b) = Fin (a / b).
Proof.
  intros Hb. unfold xdiv. destruct (Req_dec_T b 0) as [E | _]; [contradiction | reflexivity].
Qed.

Lemma xdiv_zero_not_finite (a : xreal) : xfinite (xdiv a (Fin 0)) = false.
Proof.
  destruct a as [r | | |]; unfold xdiv; try reflexivity.
  - destruct (Req_dec_T 0 0) as [_ | N]; [| contradiction N; reflexivity].
    unfold inf_of_sign.
    destruct (Rlt_dec 0 r); [reflexivity |].
    destruct (Rlt_dec r 0); reflexivity.
  - destruct (Rlt_dec 0 0); reflexivity.
  - destruct (Rlt_dec 0 0); reflexivity.
Qed.

Lemma inf_of_sign_pos (r : R) : 0 < r -> inf_of_sign r = PInf.
Proof.
  intros Hr. unfold inf_of_sign. destruct (Rlt_dec 0 r); [reflexivity | contradiction].
Qed.

Lemma xdiv_pos_zero (a b : R) : 0 < a -> b = 0 -> xdiv (Fin a) (Fin b) = PInf.
Proof.
  intros Ha Hb. unfold xdiv.
  destruct (Req_dec_T b 0); [apply inf_of_sign_pos; exact Ha | contradiction].
Qed.

Lemma xdiv_zero_zero : xdiv (Fin 0) (Fin 0) = XNaN.
Proof.
  unfold xdiv, inf_of_sign.
  destruct (Req_dec_T 0 0) as [_ | N]; [| contradiction N; reflexivity].
  destruct (Rlt_dec 0 0) as [H | _]; [lra | reflexivity].
Qed.

Lemma xlt_Fin (a b : R) : xlt (Fin a) (Fin b) = if Rlt_dec a b then true else false.
Proof. reflexivity. Qed.

Lemma truthy_nonzero (r : R) : r <> 0 -> truthy (Fin r) = true.
Proof.
  intros Hr. unfold truthy. destruct (Req_dec_T r 0); [contradiction | reflexivity].
Qed.

Lemma truthy_zero : truthy (Fin 0) = false.
Proof.
  unfold truthy. destruct (Req_dec_T 0 0) as [_ | N]; [reflexivity | contradiction N; reflexivity].
Qed.

Lemma xsub_NaN_r (a : xreal) : xsub a XNaN = XNaN.
Proof. destruct a; reflexivity. Qed.

Lemma xdiv_NaN_l (a : xreal) : xdiv XNaN a = XNaN.
Proof. destruct a; reflexivity. Qed.

Lemma xmul_NaN_l (a : xreal) : xmul XNaN a = XNaN.
Proof. destruct a; reflexivity. Qed.

Lemma xadd_NaN_r (a : xreal) : xadd a XNaN = XNaN.
Proof. destruct a; reflexivity. Qed.

(** ** Logarithms *)

Lemma ln_10_pos : 0 < ln 10.
Proof. rewrite <- ln_1. apply ln_increasing; lra. Qed.

Lemma log10_pos (x : R) : 1 < x -> 0 < ln x / ln 10.
Proof.
  intros Hx. apply Rdiv_lt_0_compat; [| exact ln_10_pos].
  rewrite <- ln_1. apply ln_increasing; lra.
Qed.


Lemma Math_log10_Fin (x : R) : 0 < x -> Math_log10 (Fin x) = Fin (ln x / ln 10).
Proof.
  intros Hx. unfold Math_log10. destruct (Rlt_dec 0 x); [reflexivity | contradiction].
Qed.




(** ** Sums over real samples *)

Lemma Rsum_cons (g : R * R -> R) (p : R * R) (samples : list (R * R)) :
  Rsum g (p :: samples) = g p + Rsum g samples.
Proof. reflexivity. Qed.

Lemma Rsum_nonneg (g : R * R -> R) (samples : list (R * R)) :
  (forall p, 0 <= g p) -> 0 <= Rsum g samples.
Proof.
  intros Hg. induction samples as [| p samples IH]; simpl.
  - lra.
  - specialize (Hg p). lra.
Qed.

Lemma Rsum_ge_one (g : R * R -> R) (samples : list (R * R)) (p : R * R) :
  (forall q, 0 <= g q) -> In p samples -> g p <= Rsum g samples.
Proof.
  intros Hg. induction samples as [| q samples IH]; simpl; intros Hin.
  - contradiction.
  - pose proof (Rsum_nonneg g samples Hg) as Hs.
    destruct Hin as [-> | Hin].
    + lra.
    + specialize (IH Hin). specialize (Hg q). lra.
Qed.

(** Two members that differ are two distinct summands. *)
Lemma Rsum_ge_two (g : R * R -> R) (samples : list (R * R)) (p q : R * R) :
  (forall r, 0 <= g r) -> In p samples -> In q samples -> p <> q ->
  g p + g q <= Rsum g samples.
Proof.
  intros Hg. induction samples as [| r samples IH]; simpl; intros Hp Hq Hne.
  - contradiction.
  - pose proof (Rsum_nonneg g samples Hg) as Hs.
    destruct Hp as [-> | Hp], Hq as [-> | Hq].
    + contradiction Hne; reflexivity.
    + pose proof (Rsum_ge_one g samples q Hg Hq). lra.
    + pose proof (Rsum_ge_one g samples p Hg Hp). lra.
    + specialize (IH Hp Hq Hne). specialize (Hg r). lra.
Qed.


Lemma Rsum_ext (g h : R * R -> R) (samples : list (R * R)) :
  (forall p, In p samples -> g p = h p) -> Rsum g samples = Rsum h samples.
Proof.
  induction samples as [| p samples IH]; simpl; intros Hg.
  - reflexivity.
  - rewrite (Hg p (or_introl eq_refl)), IH; [reflexivity |].
    intros q Hq. apply Hg. right. exact Hq.
Qed.

Lemma Rsum_linear (a b : R) (g h : R * R -> R) (samples : list (R * R)) :
  Rsum (fun p => a * g p + b * h p) samples = a * Rsum g samples + b * Rsum h samples.
Proof.
  induction samples as [| p samples IH]; simpl.
  - lra.
  - rewrite IH. lra.
Qed.

Lemma Rsum_const (c : R) (samples : list (R * R)) :
  Rsum (fun _ => c) samples = INR (length samples) * c.
Proof.
  induction samples as [| p samples IH].
  - simpl. lra.
  - rewrite Rsum_cons, IH. cbn [length]. rewrite S_INR. lra.
Qed.

Lemma INR_length_nonzero (samples : list (R * R)) :
  samples <> [] -> INR (length samples) <> 0.
Proof.
  intros Hne. destruct samples as [| p samples]; [contradiction Hne; reflexivity |].
  cbn [length]. rewrite S_INR. pose proof (pos_INR (length samples)). lra.
Qed.

Lemma fold_left_Fin (g : R * R -> R) (F : xreal -> point xreal -> xreal) :
  (forall a p, F (Fin a) (real_point p) = Fin (a + g p)) ->
  forall samples a,
    fold_left F (real_points samples) (Fin a) = Fin (a + Rsum g samples).
Proof.
  intros HF samples. induction samples as [| p samples IH]; intros a.
  - simpl. f_equal. lra.
  - simpl. rewrite HF, IH. f_equal. lra.
Qed.

Lemma fold_left_accumulate (samples : list (R * R)) :
  forall a1 a2 a3 a4 a5 a6 a7 : R,
    fold_left accumulate (real_points samples)
      (Sums (Fin a1) (Fin a2) (Fin a3) (Fin a4) (Fin a5) (Fin a6) (Fin a7))
    = Sums (Fin (a1 + Rsum (fun p => fst p) samples))
           (Fin (a2 + Rsum (fun p => fst p * fst p) samples))
           (Fin (a3 + Rsum (fun p => fst p * fst p * fst p) samples))
           (Fin (a4 + Rsum (fun p => fst p * fst p * fst p * fst p) samples))
           (Fin (a5 + Rsum (fun p => snd p) samples))
           (Fin (a6 + Rsum (fun p => fst p * snd p) samples))
           (Fin (a7 + Rsum (fun p => fst p * fst p * snd p) samples)).
Proof.
  induction samples as [| p samples IH]; intros a1 a2 a3 a4 a5 a6 a7.
  - simpl. fin_eq; lra.
  - simpl. unfold accumulate at 2. simpl.
    rewrite IH. fin_eq; ring.
Qed.

Lemma fitCurve_loop_Fin (samples : list (R * R)) :
  forall a2 a3 a4 a5 a6 : R,
    PorousMedia.fitCurve_loop
      (map (fun p => Fin (fst p)) samples) (map (fun p => Fin (snd p)) samples)
      (PorousMedia.Sums (Fin a2) (Fin a3) (Fin a4) (Fin a5) (Fin a6))
    = PorousMedia.Sums
        (Fin (a2 + Rsum (fun p => fst p * fst p) samples))
        (Fin (a3 + Rsum (fun p => fst p * fst p * fst p) samples))
        (Fin (a4 + Rsum (fun p => fst p * fst p * fst p * fst p) samples))
        (Fin (a5 + Rsum (fun p => fst p * snd p) samples))
        (Fin (a6 + Rsum (fun p => fst p * fst p * snd p) samples)).
Proof.
  induction samples as [| p samples IH]; intros a2 a3 a4 a5 a6.
  - simpl. fin_eq; lra.
  - simpl. rewrite IH. fin_eq; ring.
Qed.

(** [fitCurve] on real samples, in terms of the real sums. *)
Lemma fitCurve_Fin (samples : list (R * R)) :
  let S2 := Rsum (fun p => fst p * fst p) samples in
  let S3 := Rsum (fun p => fst p * fst p * fst p) samples in
  let S4 := Rsum (fun p => fst p * fst p * fst p * fst p) samples in
  let Sxy := Rsum (fun p => fst p * snd p) samples in
  let S2y := Rsum (fun p => fst p * fst p * snd p) samples in
  let denom := S2 * S4 - S3 * S3 in
  PorousMedia.fitCurve
    (map (fun p => Fin (fst p)) samples) (map (fun p => Fin (snd p)) samples)
  = Coefficients (xdiv (Fin (S4 * Sxy - S3 * S2y)) (Fin denom))
                 (xdiv (Fin (S2 * S2y - S3 * Sxy)) (Fin denom)).
Proof.
  intros S2 S3 S4 Sxy S2y denom. unfold PorousMedia.fitCurve, PorousMedia.initial_sums.
  cbv zeta. cbn [of_nat xreal_number INR]. rewrite fitCurve_loop_Fin.
  cbn [PorousMedia.sumX2 PorousMedia.sumX3 PorousMedia.sumX4 PorousMedia.sumXY
       PorousMedia.sumX2Y sub mul div xreal_number xsub xmul].
  rewrite !Rplus_0_l. reflexivity.
Qed.

(* ================================================================== *)
(** * Curve fitting *)
(* ================================================================== *)

(** ** Insufficient data *)

(** C9: with 0, 1 or 2 data points [leastSquaresFit] throws its
    "at least 3 data points" error, in any arithmetic, and so returns no
    coefficients; [performCurveFitting] then returns [null]. *)
Theorem leastSquaresFit_insufficient_data
  {num : Type} `{JSNumber num} (dataPoints : list (point num)) :
  (length dataPoints < 3)%nat ->
  leastSquaresFit dataPoints = Throw too_few_points
  /\ forall L density viscosity,
       performCurveFitting dataPoints L density viscosity = None.
Proof.
  intros Hlen.
  assert (Hb : (length dataPoints <? 3)%nat = true) by (apply Nat.ltb_lt; exact Hlen).
  split.
  - unfold leastSquaresFit. rewrite Hb. reflexivity.
  - intros L density viscosity.
    unfold performCurveFitting, performCurveFitting_try. rewrite Hb. reflexivity.
Qed.

Lemma leastSquaresFit_insufficient_data_witness :
  let dataPoints := [Point (Fin 0.5) (Fin 10.2); Point (Fin 1) (Fin 25.5)] in
  (length dataPoints < 3)%nat
  /\ leastSquaresFit dataPoints = Throw too_few_points.
Proof.
  split.
  - simpl. lia.
  - apply (leastSquaresFit_insufficient_data
             [Point (Fin 0.5) (Fin 10.2); Point (Fin 1) (Fin 25.5)]).
    simpl. lia.
Defined.

(** [fitCurve] has no guard of its own: without samples it returns
    [NaN] coefficients (0/0). *)
Lemma fitCurve_no_samples :
  PorousMedia.fitCurve (num := xreal) [] [] = Coefficients XNaN XNaN
  /\ PorousMedia.fitCurve (num := float) [] [] = Coefficients nan nan.
Proof.
  split.
  - unfold PorousMedia.fitCurve. cbn. rewrite Rmult_0_l, Rminus_diag.
    rewrite xdiv_zero_zero. reflexivity.
  - vm_compute. reflexivity.
Qed.

(** ** The singular-matrix guard *)

(** [leastSquaresFit] on real samples, in terms of the real sums. *)
Lemma leastSquaresFit_Fin (samples : list (R * R)) :
  (3 <= length samples)%nat ->
  let n := INR (length samples) in
  let S2 := Rsum (fun p => fst p * fst p) samples in
  let S4 := Rsum (fun p => fst p * fst p * fst p * fst p) samples in
  let Sy := Rsum (fun p => snd p) samples in
  let S2y := Rsum (fun p => fst p * fst p * snd p) samples in
  let denom := n * S4 - S2 * S2 in
  leastSquaresFit (real_points samples)
    = if Rlt_dec (Rabs denom) 1e-10 then Throw singular_matrix
      else Return (Coefficients (Fin ((Sy * S4 - S2y * S2) / denom))
                                (Fin ((n * S2y - Sy * S2) / denom))).
Proof.
  intros Hlen n S2 S4 Sy S2y denom. unfold leastSquaresFit.
  assert (Hb : (length (real_points samples) <? 3)%nat = false).
  { apply Nat.ltb_ge. unfold real_points. rewrite length_map. exact Hlen. }
  rewrite Hb. cbv zeta. unfold initial_sums.
  cbn [of_nat xreal_number INR]. rewrite fold_left_accumulate.
  cbn [sumX2 sumX4 sumY sumX2Y add sub mul div Math_abs lt lit_1em10
       xreal_number xadd xsub xmul xabs].
  unfold real_points. rewrite length_map. fold n.
  rewrite !Rplus_0_l. fold S2 S4 Sy S2y. fold denom.
  rewrite xlt_Fin.
  destruct (Rlt_dec (Rabs denom) 1e-10) as [Hsmall | Hbig]; [reflexivity |].
  assert (Hd : denom <> 0).
  { intros Hz. apply Hbig. rewrite Hz, Rabs_R0. lra. }
  rewrite !xdiv_finite by exact Hd. reflexivity.
Qed.

(** In exact arithmetic the determinant of samples that share one [x] is
    zero, so the guard fires. *)
Lemma leastSquaresFit_identical_x_exact (samples : list (R * R)) (x0 : R) :
  (3 <= length samples)%nat ->
  (forall p, In p samples -> fst p = x0) ->
  leastSquaresFit (real_points samples) = Throw singular_matrix.
Proof.
  intros Hlen Hx. rewrite (leastSquaresFit_Fin samples Hlen). cbv zeta.
  rewrite (Rsum_ext (fun p => fst p * fst p) (fun _ => x0 * x0))
    by (intros p Hp; rewrite (Hx p Hp); reflexivity).
  rewrite (Rsum_ext (fun p => fst p * fst p * fst p * fst p) (fun _ => x0 * x0 * x0 * x0))
    by (intros p Hp; rewrite (Hx p Hp); reflexivity).
  rewrite !Rsum_const.
  set (n := INR (length samples)).
  replace (n * (n * (x0 * x0 * x0 * x0)) - n * (x0 * x0) * (n * (x0 * x0))) with 0 by ring.
  rewrite Rabs_R0.
  destruct (Rlt_dec 0 1e-10) as [_ | N]; [reflexivity | exfalso; apply N; lra].
Qed.

(** C2 fails in binary64: for the three samples at [x = 50.3] the
    rounded sums give a determinant of about 1.49e-8, which is not below
    1e-10, and [leastSquaresFit] returns coefficients. *)
Theorem leastSquaresFit_binary64_identical_x :
  let s := fold_left accumulate identical_x_points initial_sums in
  sub (mul (of_nat 3) (sumX4 s)) (mul (sumX2 s) (sumX2 s)) = 1.4901161193847656e-08%float
  /\ lt (Math_abs 1.4901161193847656e-08%float) lit_1em10 = false
  /\ leastSquaresFit identical_x_points = Return (Coefficients 2%float 0%float).
Proof. vm_compute. repeat split; reflexivity. Qed.

(** [fitCurve] has no such guard.  In exact arithmetic both quotients
    are 0/0 for samples that share one [x], and it returns [NaN]
    coefficients; in binary64 the three samples at 50.3 give it
    coefficients computed from rounding noise. *)
Lemma fitCurve_identical_x (samples : list (R * R)) (x0 : R) :
  (forall p, In p samples -> fst p = x0) ->
  PorousMedia.fitCurve
    (map (fun p => Fin (fst p)) samples) (map (fun p => Fin (snd p)) samples)
  = Coefficients XNaN XNaN.
Proof.
  intros Hx. rewrite fitCurve_Fin. cbv zeta.
  set (Sy := Rsum (fun p => snd p) samples).
  set (n := INR (length samples)).
  assert (H2 : Rsum (fun p => fst p * fst p) samples = n * (x0 * x0)).
  { rewrite (Rsum_ext _ (fun _ => x0 * x0)) by (intros p Hp; rewrite (Hx p Hp); reflexivity).
    apply Rsum_const. }
  assert (H3 : Rsum (fun p => fst p * fst p * fst p) samples = n * (x0 * x0 * x0)).
  { rewrite (Rsum_ext _ (fun _ => x0 * x0 * x0))
      by (intros p Hp; rewrite (Hx p Hp); reflexivity).
    apply Rsum_const. }
  assert (H4 : Rsum (fun p => fst p * fst p * fst p * fst p) samples
               = n * (x0 * x0 * x0 * x0)).
  { rewrite (Rsum_ext _ (fun _ => x0 * x0 * x0 * x0))
      by (intros p Hp; rewrite (Hx p Hp); reflexivity).
    apply Rsum_const. }
  assert (Hxy : Rsum (fun p => fst p * snd p) samples = x0 * Sy).
  { rewrite (Rsum_ext _ (fun p => x0 * snd p + 0 * 0))
      by (intros p Hp; rewrite (Hx p Hp); ring).
    rewrite (Rsum_linear x0 0 (fun p => snd p) (fun _ => 0)). fold Sy. ring. }
  assert (Hx2y : Rsum (fun p => fst p * fst p * snd p) samples = x0 * x0 * Sy).
  { rewrite (Rsum_ext _ (fun p => (x0 * x0) * snd p + 0 * 0))
      by (intros p Hp; rewrite (Hx p Hp); ring).
    rewrite (Rsum_linear (x0 * x0) 0 (fun p => snd p) (fun _ => 0)). fold Sy. ring. }
  rewrite H2, H3, H4, Hxy, Hx2y.
  replace (n * (x0 * x0) * (n * (x0 * x0 * x0 * x0))
           - n * (x0 * x0 * x0) * (n * (x0 * x0 * x0))) with 0 by ring.
  replace (n * (x0 * x0 * x0 * x0) * (x0 * Sy)
           - n * (x0 * x0 * x0) * (x0 * x0 * Sy)) with 0 by ring.
  replace (n * (x0 * x0) * (x0 * x0 * Sy) - n * (x0 * x0 * x0) * (x0 * Sy)) with 0 by ring.
  rewrite xdiv_zero_zero. reflexivity.
Qed.

Lemma fitCurve_binary64_identical_x :
  PorousMedia.fitCurve [50.3%float; 50.3%float; 50.3%float] [1%float; 2%float; 3%float]
    = Coefficients 0.03125%float 0%float.
Proof. vm_compute. reflexivity. Qed.

(** ** Goodness of fit *)

Lemma calculateR2_Fin (samples : list (R * R)) (A B : R) :
  samples <> [] ->
  calculateR2 (real_points samples) (Fin A) (Fin B)
    = xsub (Fin 1) (xdiv (Fin (SS_res samples A B)) (Fin (SS_tot samples))).
Proof.
  intros Hne. unfold calculateR2. cbv zeta.
  cbn [of_nat xreal_number INR add sub mul div].
  assert (Hmean :
    xdiv (fold_left (fun sum p => xadd sum (y p)) (real_points samples) (Fin 0))
         (Fin (INR (length (real_points samples))))
    = Fin (y_mean samples)).
  { rewrite (fold_left_Fin (fun p => snd p)) by (intros a p; reflexivity).
    unfold real_points. rewrite length_map.
    rewrite xdiv_finite by (apply INR_length_nonzero; exact Hne).
    unfold y_mean. fin_eq. f_equal. lra. }
  rewrite Hmean.
  assert (Htot :
    fold_left (fun sum p => xadd sum (square (xsub (y p) (Fin (y_mean samples)))))
              (real_points samples) (Fin 0)
    = Fin (SS_tot samples)).
  { rewrite (fold_left_Fin
               (fun p => (snd p - y_mean samples) * (snd p - y_mean samples)))
      by (intros a p; reflexivity).
    unfold SS_tot. fin_eq. apply Rplus_0_l. }
  assert (Hres :
    fold_left (fun sum p =>
                 xadd sum (square (xsub (y p)
                                     (xadd (xmul (Fin A) (x p))
                                           (xmul (xmul (Fin B) (x p)) (x p))))))
              (real_points samples) (Fin 0)
    = Fin (SS_res samples A B)).
  { rewrite (fold_left_Fin
               (fun p => (snd p - (A * fst p + B * fst p * fst p))
                         * (snd p - (A * fst p + B * fst p * fst p))))
      by (intros a p; reflexivity).
    unfold SS_res. fin_eq. apply Rplus_0_l. }
  rewrite Htot, Hres. reflexivity.
Qed.

Lemma SS_res_nonneg (samples : list (R * R)) (A B : R) : 0 <= SS_res samples A B.
Proof. apply Rsum_nonneg. intros p. apply Rle_0_sqr. Qed.

(** Two samples with different [y] keep the total sum of squares positive. *)
Lemma SS_tot_pos (samples : list (R * R)) (p q : R * R) :
  In p samples -> In q samples -> snd p <> snd q -> 0 < SS_tot samples.
Proof.
  intros Hp Hq Hne. unfold SS_tot.
  set (m := y_mean samples).
  assert (Hpq : p <> q) by (intros ->; contradiction Hne; reflexivity).
  pose proof (Rsum_ge_two (fun r => (snd r - m) * (snd r - m)) samples p q
                (fun r => Rle_0_sqr (snd r - m)) Hp Hq Hpq) as Hsum.
  cbv beta in Hsum.
  assert (Hpos : 0 < (snd p - m) * (snd p - m) + (snd q - m) * (snd q - m)).
  { pose proof (Rle_0_sqr (snd p - m)) as Hp0.
    pose proof (Rle_0_sqr (snd q - m)) as Hq0.
    unfold Rsqr in Hp0, Hq0.
    destruct (Req_dec_T (snd p) m) as [E | E].
    - assert (Hq1 : snd q - m <> 0) by (intros Hz; apply Hne; lra).
      pose proof (Rsqr_pos_lt _ Hq1) as Hq2. unfold Rsqr in Hq2. lra.
    - assert (Hp1 : snd p - m <> 0) by (intros Hz; apply E; lra).
      pose proof (Rsqr_pos_lt _ Hp1) as Hp2. unfold Rsqr in Hp2. lra. }
  lra.
Qed.

(** C8: for a non-empty list of real samples whose [y] values are not
    all identical and for real coefficients [A] and [B], [calculateR2]
    returns the real number [1 - SS_res/SS_tot], and it is at most 1. *)
Theorem calculateR2_at_most_one (samples : list (R * R)) (A B : R) :
  samples <> [] ->
  (exists p q, In p samples /\ In q samples /\ snd p <> snd q) ->
  SS_tot samples <> 0
  /\ calculateR2 (real_points samples) (Fin A) (Fin B)
       = Fin (1 - SS_res samples A B / SS_tot samples)
  /\ 1 - SS_res samples A B / SS_tot samples <= 1.
Proof.
  intros Hne (p & q & Hp & Hq & Hpq).
  pose proof (SS_tot_pos samples p q Hp Hq Hpq) as Htot.
  pose proof (SS_res_nonneg samples A B) as Hres.
  split; [lra | split].
  - rewrite (calculateR2_Fin samples A B Hne).
    rewrite xdiv_finite by lra. reflexivity.
  - assert (0 <= SS_res samples A B / SS_tot samples).
    { apply Rmult_le_pos; [exact Hres |]. left. apply Rinv_0_lt_compat. exact Htot. }
    lra.
Qed.

Lemma calculateR2_at_most_one_witness :
  exists r2 : R,
    calculateR2 (real_points spec_samples) (Fin 2.5) (Fin 0.8) = Fin r2 /\ r2 <= 1.
Proof.
  assert (Hne : spec_samples <> []) by discriminate.
  assert (Hy : exists p q, In p spec_samples /\ In q spec_samples /\ snd p <> snd q).
  { exists (0.5, 10.2), (1, 25.5). simpl. repeat split; auto. lra. }
  destruct (calculateR2_at_most_one spec_samples 2.5 0.8 Hne Hy) as (_ & E & Hle).
  eexists. split; [exact E | exact Hle].
Defined.

(** ** Recovering a quadratic through the origin *)

(** The quadratic form of the normal equations of [y = A x + B x^2]. *)
Lemma quadratic_form_sum (s t : R) (samples : list (R * R)) :
  Rsum (fun p => (s * fst p + t * (fst p * fst p)) * (s * fst p + t * (fst p * fst p)))
       samples
  = s * s * Rsum (fun p => fst p * fst p) samples
    + 2 * s * t * Rsum (fun p => fst p * fst p * fst p) samples
    + t * t * Rsum (fun p => fst p * fst p * fst p * fst p) samples.
Proof.
  induction samples as [| p samples IH].
  - simpl. ring.
  - rewrite !Rsum_cons, IH. ring.
Qed.

(** Two distinct non-zero abscissas make the determinant
    [Sx2 * Sx4 - Sx3^2] positive. *)
Lemma determinant_positive (samples : list (R * R)) (u v : R * R) :
  In u samples -> In v samples ->
  fst u <> 0 -> fst v <> 0 -> fst u <> fst v ->
  0 < Rsum (fun p => fst p * fst p) samples
      * Rsum (fun p => fst p * fst p * fst p * fst p) samples
      - Rsum (fun p => fst p * fst p * fst p) samples
        * Rsum (fun p => fst p * fst p * fst p) samples.
Proof.
  intros Hu Hv Hu0 Hv0 Huv.
  set (a := Rsum (fun p => fst p * fst p) samples).
  set (b := Rsum (fun p => fst p * fst p * fst p) samples).
  set (c := Rsum (fun p => fst p * fst p * fst p * fst p) samples).
  assert (Ha : 0 < a).
  { pose proof (Rsum_ge_one (fun p => fst p * fst p) samples u
                  (fun q => Rle_0_sqr (fst q)) Hu) as Hge.
    cbv beta in Hge. fold a in Hge.
    pose proof (Rsqr_pos_lt _ Hu0) as Hpos. unfold Rsqr in Hpos. lra. }
  assert (Hne : u <> v) by (intros ->; contradiction Huv; reflexivity).
  pose proof (Rsum_ge_two
                (fun p => (- b * fst p + a * (fst p * fst p))
                          * (- b * fst p + a * (fst p * fst p)))
                samples u v
                (fun q => Rle_0_sqr (- b * fst q + a * (fst q * fst q)))
                Hu Hv Hne) as Hge.
  cbv beta in Hge. rewrite quadratic_form_sum in Hge. fold a b c in Hge.
  set (xu := fst u) in *. set (xv := fst v) in *.
  assert (Hform : - b * - b * a + 2 * - b * a * b + a * a * c = a * (a * c - b * b)) by ring.
  rewrite Hform in Hge.
  assert (Hsq : 0 < (- b * xu + a * (xu * xu)) * (- b * xu + a * (xu * xu))
                    + (- b * xv + a * (xv * xv)) * (- b * xv + a * (xv * xv))).
  { pose proof (Rle_0_sqr (- b * xu + a * (xu * xu))) as H1.
    pose proof (Rle_0_sqr (- b * xv + a * (xv * xv))) as H2.
    unfold Rsqr in H1, H2.
    destruct (Req_dec_T (a * xu) b) as [E | E].
    - assert (Hv1 : - b * xv + a * (xv * xv) <> 0).
      { replace (- b * xv + a * (xv * xv)) with (xv * (a * (xv - xu))) by (rewrite <- E; ring).
        apply Rmult_integral_contrapositive_currified; [exact Hv0 |].
        apply Rmult_integral_contrapositive_currified; [lra |].
        intros Hz. apply Huv. lra. }
      pose proof (Rsqr_pos_lt _ Hv1) as H3. unfold Rsqr in H3. lra.
    - assert (Hu1 : - b * xu + a * (xu * xu) <> 0).
      { replace (- b * xu + a * (xu * xu)) with (xu * (a * xu - b)) by ring.
        apply Rmult_integral_contrapositive_currified; [exact Hu0 |].
        intros Hz. apply E. lra. }
      pose proof (Rsqr_pos_lt _ Hu1) as H3. unfold Rsqr in H3. lra. }
  assert (Hprod : 0 < a * (a * c - b * b)) by lra.
  destruct (Rlt_dec 0 (a * c - b * b)) as [Hpos | Hneg]; [exact Hpos |].
  exfalso. assert (a * (a * c - b * b) <= 0) by nra. lra.
Qed.







(** The same samples in binary64: [calculateR2] is [NaN] for the
    coefficients of [fitCurve] and [-Infinity] for those of
    [leastSquaresFit]. *)
Lemma goodness_of_fit_binary64_flat_samples :
  let points := [Point 1%float 2%float; Point 2%float 2%float; Point 1%float 2%float] in
  PorousMedia.fitCurve [1%float; 2%float; 1%float] [2%float; 2%float; 2%float]
    = Coefficients 3%float (-1)%float
  /\ PrimFloat.is_nan (calculateR2 points 3%float (-1)%float) = true
  /\ leastSquaresFit points = Return (Coefficients 2%float 0%float)
  /\ calculateR2 points 2%float 0%float = neg_infinity.
Proof. vm_compute. repeat split; reflexivity. Qed.

(** [leastSquaresFit] solves the normal equations of [y = A + B x^2]
    (its system pairs [n] and [sumY] with [A]), not those of
    [y = A x + B x^2]: on the line [y = x] it returns 6/7 and 12/49, where
    [fitCurve] returns 1 and 0. *)
Lemma leastSquaresFit_line_samples :
  leastSquaresFit (real_points line_samples)
    = Return (Coefficients (Fin (6 / 7)) (Fin (12 / 49)))
  /\ PorousMedia.fitCurve [Fin 1; Fin 2; Fin 3] [Fin 1; Fin 2; Fin 3]
       = Coefficients (Fin 1) (Fin 0).
Proof.
  split.
  - assert (Hlen : (3 <= length line_samples)%nat) by (simpl; lia).
    rewrite (leastSquaresFit_Fin _ Hlen). cbv zeta.
    cbn [line_samples length INR fst snd Rsum fold_right].
    destruct (Rlt_dec _ _) as [Hsmall | _].
    + exfalso. revert Hsmall. unfold Rabs. destruct (Rcase_abs _); lra.
    + fin_eq; lra.
  - pose proof (fitCurve_Fin line_samples) as E. cbv zeta in E.
    cbn [map line_samples fst snd Rsum fold_right] in E. rewrite E.
    rewrite !xdiv_finite by lra. fin_eq; lra.
Qed.

(** What [leastSquaresFit] does recover: the coefficients of a curve
    with an intercept and no linear term, [y = A0 + B0 x^2], whenever its
    guard lets the samples through. *)
Lemma leastSquaresFit_fits_intercept_model (samples : list (R * R)) (A0 B0 : R) :
  (3 <= length samples)%nat ->
  (forall p, In p samples -> snd p = A0 * 1 + B0 * (fst p * fst p)) ->
  1e-10 <= Rabs (INR (length samples)
                 * Rsum (fun p => fst p * fst p * fst p * fst p) samples
                 - Rsum (fun p => fst p * fst p) samples
                   * Rsum (fun p => fst p * fst p) samples) ->
  leastSquaresFit (real_points samples) = Return (Coefficients (Fin A0) (Fin B0)).
Proof.
  intros Hlen Hon Hbig. rewrite (leastSquaresFit_Fin samples Hlen). cbv zeta.
  set (n := INR (length samples)) in *.
  set (S2 := Rsum (fun p => fst p * fst p) samples) in *.
  set (S4 := Rsum (fun p => fst p * fst p * fst p * fst p) samples) in *.
  assert (Hy : Rsum (fun p => snd p) samples = A0 * n + B0 * S2).
  { rewrite (Rsum_ext _ (fun p => A0 * 1 + B0 * (fst p * fst p))) by exact Hon.
    rewrite (Rsum_linear A0 B0 (fun _ => 1) (fun p => fst p * fst p)).
    rewrite Rsum_const. fold n S2. ring. }
  assert (H2y : Rsum (fun p => fst p * fst p * snd p) samples = A0 * S2 + B0 * S4).
  { rewrite (Rsum_ext _ (fun p => A0 * (fst p * fst p)
                                  + B0 * (fst p * fst p * fst p * fst p)))
      by (intros p Hp; rewrite (Hon p Hp); ring).
    rewrite (Rsum_linear A0 B0 (fun p => fst p * fst p)
               (fun p => fst p * fst p * fst p * fst p)).
    reflexivity. }
  rewrite Hy, H2y.
  destruct (Rlt_dec (Rabs (n * S4 - S2 * S2)) 1e-10) as [Hsmall | _]; [lra |].
  assert (Hd : n * S4 - S2 * S2 <> 0).
  { intros Hz. rewrite Hz, Rabs_R0 in Hbig. lra. }
  fin_eq; field; exact Hd.
Qed.

(** The same two runs in binary64. *)
Lemma leastSquaresFit_binary64_line_samples :
  leastSquaresFit [Point 1%float 1%float; Point 2%float 2%float; Point 3%float 3%float]
    = Return (Coefficients 0.8571428571428571%float 0.24489795918367346%float)
  /\ PorousMedia.fitCurve [1%float; 2%float; 3%float] [1%float; 2%float; 3%float]
       = Coefficients 1%float 0%float.
Proof. vm_compute. split; reflexivity. Qed.

(* ================================================================== *)
(** * Porous coefficients *)
(* ================================================================== *)

(** C5: in exact arithmetic, when [mu*L] and [rho*L] are not zero
    [calcDarcyForchheimer] returns [d = A/(mu*L)] and [f = 2B/(rho*L)],
    and so do the two lines of [performCurveFitting] that compute them;
    for A=2.5, B=0.8, mu=0.001, rho=998, L=0.1 it returns [d = 25000] and
    [f = 1.6/99.8]. *)
Theorem calcDarcyForchheimer_formula (A B mu rho L : R) :
  mu * L <> 0 -> rho * L <> 0 ->
  PorousMedia.calcDarcyForchheimer (Fin A) (Fin B) (Fin mu) (Fin rho) (Fin L)
    = PorousMedia.Porous (Fin (A / (mu * L))) (Fin (2 * B / (rho * L)))
  /\ (forall dataPoints,
        leastSquaresFit dataPoints = Return (Coefficients (Fin A) (Fin B)) ->
        (3 <= length dataPoints)%nat ->
        performCurveFitting dataPoints (Fin L) (Fin rho) (Fin mu)
          = Some (Analysis (Fin A) (Fin B)
                    (Fin (A / (mu * L))) (Fin (2 * B / (rho * L)))
                    (calculateR2 dataPoints (Fin A) (Fin B))))
  /\ PorousMedia.calcDarcyForchheimer (Fin 2.5) (Fin 0.8) (Fin 0.001) (Fin 998) (Fin 0.1)
       = PorousMedia.Porous (Fin 25000) (Fin (1.6 / 99.8)).
Proof.
  intros Hmu Hrho. split; [| split].
  - unfold PorousMedia.calcDarcyForchheimer. simpl.
    rewrite (xdiv_finite _ _ Hmu), (xdiv_finite _ _ Hrho).
    fin_eq; lra.
  - intros dataPoints Hfit Hlen.
    unfold performCurveFitting, performCurveFitting_try.
    assert (Hb : (length dataPoints <? 3)%nat = false) by (apply Nat.ltb_ge; exact Hlen).
    rewrite Hb, Hfit.
    cbn [bind CurveFitting.A CurveFitting.B mul div of_nat xreal_number xmul].
    rewrite (xdiv_finite _ _ Hmu), (xdiv_finite _ _ Hrho).
    fin_eq; lra.
  - unfold PorousMedia.calcDarcyForchheimer. simpl.
    rewrite !xdiv_finite by lra.
    fin_eq; lra.
Qed.

Lemma calcDarcyForchheimer_formula_witness :
  0.001 * 0.1 <> 0 /\ 998 * 0.1 <> 0
  /\ PorousMedia.calcDarcyForchheimer (Fin 2.5) (Fin 0.8) (Fin 0.001) (Fin 998) (Fin 0.1)
       = PorousMedia.Porous (Fin (2.5 / (0.001 * 0.1))) (Fin (2 * 0.8 / (998 * 0.1))).
Proof.
  split; [lra | split; [lra |]].
  apply (calcDarcyForchheimer_formula 2.5 0.8 0.001 998 0.1); lra.
Defined.

(** The same run in binary64: [d] is exactly 25000. *)
Lemma calcDarcyForchheimer_binary64_example :
  PorousMedia.calcDarcyForchheimer 2.5%float 0.8%float 0.001%float 998%float 0.1%float
    = PorousMedia.Porous 25000%float 0.016032064128256512%float.
Proof. vm_compute. reflexivity. Qed.

(** C3, as the code has it: a zero [mu*L] or [rho*L] is not detected.
    [calcDarcyForchheimer] has no failure path; the quotient by zero is
    computed and the coefficient comes out as an infinity or [NaN].
    [performCurveFitting] likewise returns its result object, not [null],
    whenever the fit itself succeeds. *)
Theorem calcDarcyForchheimer_zero_divisor (A B mu rho L : xreal) :
  xmul mu L = Fin 0 \/ xmul rho L = Fin 0 ->
  let r := PorousMedia.calcDarcyForchheimer A B mu rho L in
  (xmul mu L = Fin 0 -> xfinite (PorousMedia.d r) = false)
  /\ (xmul rho L = Fin 0 -> xfinite (PorousMedia.f r) = false)
  /\ (forall dataPoints c,
        (3 <= length dataPoints)%nat ->
        leastSquaresFit dataPoints = Return c ->
        exists a,
          performCurveFitting dataPoints L rho mu = Some a
          /\ (xmul mu L = Fin 0 -> xfinite (CurveFitting.d a) = false)
          /\ (xmul rho L = Fin 0 -> xfinite (CurveFitting.f a) = false)).
Proof.
  intros _ r. subst r. unfold PorousMedia.calcDarcyForchheimer. split; [| split].
  - intros E. cbn [PorousMedia.d mul div xreal_number]. rewrite E. apply xdiv_zero_not_finite.
  - intros E. cbn [PorousMedia.f mul div xreal_number]. rewrite E. apply xdiv_zero_not_finite.
  - intros dataPoints c Hlen Hfit.
    unfold performCurveFitting, performCurveFitting_try.
    assert (Hb : (length dataPoints <? 3)%nat = false) by (apply Nat.ltb_ge; exact Hlen).
    rewrite Hb, Hfit. cbn [bind]. eexists. split; [reflexivity |].
    cbn [CurveFitting.d CurveFitting.f mul div xreal_number].
    split; intros E; rewrite E; apply xdiv_zero_not_finite.
Qed.

Lemma calcDarcyForchheimer_zero_divisor_witness :
  xmul (Fin 0) (Fin 0.1) = Fin 0
  /\ xfinite (PorousMedia.d (PorousMedia.calcDarcyForchheimer (Fin 2.5) (Fin 0.8) (Fin 0) (Fin 998) (Fin 0.1)))
     = false.
Proof.
  assert (E : xmul (Fin 0) (Fin 0.1) = Fin 0) by (simpl; f_equal; lra).
  split; [exact E |].
  apply (calcDarcyForchheimer_zero_divisor
           (Fin 2.5) (Fin 0.8) (Fin 0) (Fin 998) (Fin 0.1) (or_introl E)).
  exact E.
Defined.

(** C3 fails as stated: with a zero viscosity the derivation returns
    normally, and its Darcy coefficient is [+Infinity]. *)
Lemma calcDarcyForchheimer_zero_viscosity_returns_infinity :
  xmul (Fin 0) (Fin 0.1) = Fin (0 * 0.1)
  /\ 0 * 0.1 = 0
  /\ PorousMedia.calcDarcyForchheimer (Fin 2.5) (Fin 0.8) (Fin 0) (Fin 998) (Fin 0.1)
       = PorousMedia.Porous PInf (Fin (1.6 / 99.8)).
Proof.
  split; [reflexivity | split; [lra |]].
  unfold PorousMedia.calcDarcyForchheimer. simpl.
  rewrite xdiv_pos_zero by lra.
  rewrite xdiv_finite by lra.
  fin_eq; lra.
Qed.

(** Binary64 agrees: [2.5 / (0 * 0.1)] is [Infinity]. *)
Lemma calcDarcyForchheimer_binary64_zero_viscosity :
  PorousMedia.calcDarcyForchheimer 2.5%float 0.8%float 0%float 998%float 0.1%float
    = PorousMedia.Porous infinity 0.016032064128256512%float.
Proof. vm_compute. reflexivity. Qed.

(* ================================================================== *)
(** * Fluid properties *)
(* ================================================================== *)

(** ** Density *)

(** The density of a fluid whose reference density is a non-zero real. *)
Lemma getDensityAtTemp_finite
  (fluidData : gmap string fluid) (name : string) (entry : fluid) (rho15 T : R) :
  fluidData !! name = Some entry ->
  DensityAt15C entry = Some (Fin rho15) ->
  rho15 <> 0 ->
  getDensityAtTemp fluidData name (Fin T)
    = Fin (rho15 * (1 - 0.00065 * (T - 288.15))).
Proof.
  intros Hlook Hrho Hnz. unfold getDensityAtTemp.
  cbn [Number_isFinite xreal_number xfinite negb].
  rewrite Hlook, Hrho, (truthy_nonzero _ Hnz). reflexivity.
Qed.

(** C7: for a fluid of the table with a non-zero reference density,
    [getDensityAtTemp] at 288.15 K returns [DensityAt15C] itself, and at
    a finite temperature [T] it returns
    [DensityAt15C * (1 - 0.00065 * (T - 288.15))]. *)
Theorem getDensityAtTemp_reference
  (fluidData : gmap string fluid) (name : string) (entry : fluid) (rho15 : R) :
  fluidData !! name = Some entry ->
  DensityAt15C entry = Some (Fin rho15) ->
  rho15 <> 0 ->
  getDensityAtTemp fluidData name (Fin 288.15) = Fin rho15
  /\ forall T : R,
       getDensityAtTemp fluidData name (Fin T)
         = Fin (rho15 * (1 - 0.00065 * (T - 288.15))).
Proof.
  intros Hlook Hrho Hnz. split.
  - rewrite (getDensityAtTemp_finite _ _ _ _ _ Hlook Hrho Hnz). f_equal. lra.
  - intros T. exact (getDensityAtTemp_finite _ _ _ _ _ Hlook Hrho Hnz).
Qed.

Lemma getDensityAtTemp_reference_witness :
  getDensityAtTemp example_fluids "ISO VG 32" (Fin 288.15) = Fin 870.
Proof.
  apply (getDensityAtTemp_reference example_fluids "ISO VG 32"
           (Fluid (Some (Fin 870))
                  (Some [ViscosityLimit (Fin 313.15) (Fin 32);
                         ViscosityLimit (Fin 373.15) (Fin 5.4)]))
           870).
  - reflexivity.
  - reflexivity.
  - lra.
Defined.

(** C10: a fluid that is in the table but whose [DensityAt15C] is 0 or
    missing gets [NaN] from [getDensityAtTemp] at every temperature, the
    answer an unknown fluid gets, and [NaN] from [getDynViscAtTemp]. *)
Theorem getDensityAtTemp_falsy_density
  (fluidData : gmap string fluid) (name : string) (entry : fluid) :
  fluidData !! name = Some entry ->
  DensityAt15C entry = Some (Fin 0) \/ DensityAt15C entry = None ->
  forall tK : xreal,
    getDensityAtTemp fluidData name tK = XNaN
    /\ getDynViscAtTemp fluidData name tK = XNaN
    /\ (forall unknown : string,
          fluidData !! unknown = None ->
          getDensityAtTemp fluidData unknown tK = getDensityAtTemp fluidData name tK).
Proof.
  intros Hlook Hrho tK.
  assert (Hd : getDensityAtTemp fluidData name tK = XNaN).
  { unfold getDensityAtTemp.
    destruct (negb (Number_isFinite tK)); [reflexivity |].
    rewrite Hlook. destruct Hrho as [E | E]; rewrite E; [| reflexivity].
    rewrite truthy_zero. reflexivity. }
  split; [exact Hd | split].
  - unfold getDynViscAtTemp. rewrite Hd.
    cbn [Number_isFinite xreal_number xfinite negb]. rewrite orb_true_r. reflexivity.
  - intros unknown Hnone. rewrite Hd. unfold getDensityAtTemp.
    destruct (negb (Number_isFinite tK)); [reflexivity |].
    rewrite Hnone. reflexivity.
Qed.

Lemma getDensityAtTemp_falsy_density_witness :
  getDensityAtTemp zero_density_fluids "Test Oil" (Fin 313.15) = XNaN
  /\ getDynViscAtTemp zero_density_fluids "Test Oil" (Fin 313.15) = XNaN.
Proof.
  pose proof (getDensityAtTemp_falsy_density zero_density_fluids "Test Oil"
                (Fluid (Some (Fin 0))
                       (Some [ViscosityLimit (Fin 313.15) (Fin 32);
                              ViscosityLimit (Fin 373.15) (Fin 5.4)]))
                eq_refl (or_introl eq_refl) (Fin 313.15)) as [Hd [Hv _]].
  split; [exact Hd | exact Hv].
Defined.

(** ** The Walther interpolation *)

Lemma calculateWaltherTransform_Fin (v : R) :
  0.2 < v -> calculateWaltherTransform (Fin v) = Fin (walther v).
Proof.
  intros Hv. unfold calculateWaltherTransform, WALTHER_CONSTANT.
  cbn [add xreal_number xadd].
  rewrite Math_log10_Fin by lra.
  rewrite Math_log10_Fin by (apply log10_pos; lra).
  reflexivity.
Qed.







(* ================================================================== *)
(** * Unit conversion *)
(* ================================================================== *)

(** Two conversions the specification lists. *)
Example convertUnit_C_F_0 : convertUnit "C" "F" (Fin 0) = Return (Fin 32).
Proof.
  unfold convertUnit. cbn [Number_isFinite xreal_number xfinite negb].
  change (normalizeUnit "C") with (Return (A := string) "C").
  change (normalizeUnit "F") with (Return (A := string) "F").
  cbn [bind]. change (String.eqb "C" "F") with false.
  change (includes ["C"; "F"; "K"] "C" && includes ["C"; "F"; "K"] "F") with true.
  cbv iota. unfold temperatureToKelvin, temperatureFromKelvin.
  change (String.eqb "C" "K") with false. change (String.eqb "C" "C") with true.
  cbv iota. cbn [bind].
  change (String.eqb "F" "K") with false. change (String.eqb "F" "C") with false.
  change (String.eqb "F" "F") with true. cbv iota.
  cbn [add sub mul div xreal_number xadd xsub xmul].
  rewrite xdiv_finite by lra. cbn [xadd]. fin_eq. lra.
Qed.

Example convertUnit_K_C_273 : convertUnit "K" "C" (Fin 273.15) = Return (Fin 0).
Proof.
  unfold convertUnit. cbn [Number_isFinite xreal_number xfinite negb].
  change (normalizeUnit "K") with (Return (A := string) "K").
  change (normalizeUnit "C") with (Return (A := string) "C").
  cbn [bind]. change (String.eqb "K" "C") with false.
  change (includes ["C"; "F"; "K"] "K" && includes ["C"; "F"; "K"] "C") with true.
  cbv iota. unfold temperatureToKelvin, temperatureFromKelvin.
  change (String.eqb "K" "K") with true. cbv iota. cbn [bind].
  change (String.eqb "C" "K") with false. change (String.eqb "C" "C") with true.
  cbv iota. cbn [sub xreal_number xsub]. fin_eq. lra.
Qed.

Lemma registered_units_consistent :
  forallb (fun a => forallb (consistent_pair a) registered_units) registered_units = true.
Proof. vm_compute. reflexivity. Qed.

Lemma includes_In (l : list string) (s : string) : includes l s = true -> In s l.
Proof.
  unfold includes. intros H. apply existsb_exists in H as (t & Ht & E).
  apply String.eqb_eq in E. subst t. exact Ht.
Qed.

Lemma own_factor_keys (table : factor_table) (unit : string) :
  own_factor table unit <> None -> In unit (keys table).
Proof.
  unfold own_factor, keys. intros H.
  destruct (find _ table) as [entry |] eqn:E; [| contradiction H; reflexivity].
  apply find_some in E as [Hin Heq]. apply String.eqb_eq in Heq. subst unit.
  apply in_map. exact Hin.
Qed.

(** For a name that is not inherited, [in] looks at the own keys only. *)
Lemma has_property_own (table : factor_table) (unit : string) :
  includes objectPrototypeNames unit = false ->
  has_property unit table = true -> In unit (keys table).
Proof.
  intros Hproto. unfold has_property.
  destruct (own_factor table unit) eqn:E.
  - intros _. apply own_factor_keys. rewrite E. discriminate.
  - rewrite Hproto. discriminate.
Qed.

Lemma same_type_eq (a b : option string) : same_type a b = true -> a = b /\ a <> None.
Proof.
  destruct a as [s |], b as [t |]; simpl; try discriminate.
  intros E. apply String.eqb_eq in E. subst t. split; [reflexivity | discriminate].
Qed.

(** Units of unknown or different types have no table in common. *)
Lemma common_table_none (fromUnit toUnit : string) :
  includes objectPrototypeNames fromUnit = false ->
  includes objectPrototypeNames toUnit = false ->
  unit_type fromUnit = None \/ unit_type toUnit = None
    \/ unit_type fromUnit <> unit_type toUnit ->
  common_table fromUnit toUnit = None.
Proof.
  intros Hpf Hpt Htypes.
  destruct (common_table fromUnit toUnit) as [entry |] eqn:E; [| reflexivity].
  exfalso.
  pose proof E as E'. unfold common_table in E'.
  apply find_some in E' as [Hin Hboth]. apply andb_prop in Hboth as [Hf Ht].
  apply (has_property_own _ _ Hpf) in Hf. apply (has_property_own _ _ Hpt) in Ht.
  assert (Hrf : In fromUnit registered_units).
  { unfold registered_units. apply in_flat_map. exists entry. split; assumption. }
  assert (Hrt : In toUnit registered_units).
  { unfold registered_units. apply in_flat_map. exists entry. split; assumption. }
  pose proof registered_units_consistent as Hall.
  rewrite forallb_forall in Hall. specialize (Hall fromUnit Hrf).
  rewrite forallb_forall in Hall. specialize (Hall toUnit Hrt).
  unfold consistent_pair in Hall. rewrite E in Hall.
  apply same_type_eq in Hall as [Heq Hsome].
  destruct Htypes as [H | [H | H]].
  - contradiction.
  - rewrite Heq in Hsome. contradiction.
  - contradiction.
Qed.

(** C4, as the code has it.  Take two non-empty unit strings that
    differ after normalisation and are not names inherited from
    [Object.prototype], and a finite value.  If either unit is in no
    factor table and is no temperature unit, or the two units have
    different quantity types, [convertUnit] throws, and in both cases it
    is the one error "Unsupported conversion from ... to ...". *)
Theorem convertUnit_unsupported
  (originalUnit newUnit fromUnit toUnit : string) (value : R) :
  normalizeUnit originalUnit = Return fromUnit ->
  normalizeUnit newUnit = Return toUnit ->
  fromUnit <> toUnit ->
  includes objectPrototypeNames fromUnit = false ->
  includes objectPrototypeNames toUnit = false ->
  unit_type fromUnit = None \/ unit_type toUnit = None
    \/ unit_type fromUnit <> unit_type toUnit ->
  convertUnit originalUnit newUnit (Fin value)
    = Throw (unsupported_conversion originalUnit newUnit).
Proof.
  intros Hfrom Hto Hne Hpf Hpt Htypes. unfold convertUnit.
  cbn [Number_isFinite xreal_number xfinite negb].
  rewrite Hfrom, Hto. cbn [bind].
  assert (Heqb : String.eqb fromUnit toUnit = false).
  { apply String.eqb_neq. exact Hne. }
  rewrite Heqb.
  assert (Htemp : includes ["C"; "F"; "K"] fromUnit && includes ["C"; "F"; "K"] toUnit = false).
  { destruct (includes ["C"; "F"; "K"] fromUnit) eqn:Ef;
      destruct (includes ["C"; "F"; "K"] toUnit) eqn:Et; try reflexivity.
    exfalso. unfold unit_type, temperatureUnits in Htypes. rewrite Ef, Et in Htypes.
    destruct Htypes as [H | [H | H]]; [discriminate | discriminate | apply H; reflexivity]. }
  rewrite Htemp.
  fold (common_table fromUnit toUnit).
  rewrite (common_table_none _ _ Hpf Hpt Htypes). reflexivity.
Qed.

Lemma convertUnit_unsupported_witness :
  convertUnit "m" "kg" (Fin 1) = Throw (unsupported_conversion "m" "kg")
  /\ convertUnit "m" "Pa" (Fin 1) = Throw (unsupported_conversion "m" "Pa").
Proof.
  split.
  - apply (convertUnit_unsupported "m" "kg" "m" "kg" 1).
    + reflexivity.
    + reflexivity.
    + discriminate.
    + reflexivity.
    + reflexivity.
    + right. left. reflexivity.
  - apply (convertUnit_unsupported "m" "Pa" "m" "Pa" 1).
    + reflexivity.
    + reflexivity.
    + discriminate.
    + reflexivity.
    + reflexivity.
    + right. right. vm_compute. discriminate.
Defined.

(** C4 fails as stated: ["foo"] is in no factor table and is no
    temperature unit, yet converting from ["foo"] to ["foo"] returns the
    value, since equal units are answered before any table is consulted. *)
Lemma convertUnit_same_unregistered_unit :
  unit_type "foo" = None
  /\ existsb (fun entry => has_property "foo" (snd entry)) unitTypeRegistry = false
  /\ convertUnit "foo" "foo" (Fin 1) = Return (Fin 1).
Proof. repeat split; reflexivity. Qed.

(** A name inherited from [Object.prototype] passes the [in] tests of
    every table, and the quotient of the two inherited values is [NaN]. *)
Lemma convertUnit_inherited_names :
  unit_type "toString" = None
  /\ unit_type "valueOf" = None
  /\ convertUnit "toString" "valueOf" (Fin 1) = Return XNaN.
Proof. repeat split; reflexivity. Qed.

(** The flow table holds mass-flow units beside the volume-flow units,
    so kilograms per second convert to cubic metres per second. *)
Lemma convertUnit_mass_flow_to_volume_flow (value : R) :
  convertUnit "kg/s" "m^3/s" (Fin value) = Return (Fin (value * (1 / 1))).
Proof.
  unfold convertUnit. cbn [Number_isFinite xreal_number xfinite negb].
  change (normalizeUnit "kg/s") with (Return (A := string) "kg/s").
  change (normalizeUnit "m^3/s") with (Return (A := string) "m^3/s").
  cbn [bind].
  change (String.eqb "kg/s" "m^3/s") with false.
  change (includes ["C"; "F"; "K"] "kg/s") with false.
  cbn [andb].
  change (find _ unitTypeRegistry) with (Some ("flow", flowFactors)).
  unfold linearConversion.
  change (has_property "kg/s" flowFactors) with true.
  change (has_property "m^3/s" flowFactors) with true.
  cbn [negb].
  change (get_factor flowFactors "kg/s") with (Fin 1).
  change (get_factor flowFactors "m^3/s") with (Fin 1).
  cbn [mul div xreal_number xmul].
  rewrite xdiv_finite by lra. reflexivity.
Qed.

(* ================================================================== *)
(** * Further properties of the curve fitting *)
(* ================================================================== *)

(** ** The order of the samples *)

Lemma Rsum_Permutation (g : R * R -> R) (l l' : list (R * R)) :
  Permutation l l' -> Rsum g l = Rsum g l'.
Proof.
  induction 1 as [| p l l' _ IH | p q l | l l' l'' _ IH1 _ IH2].
  - reflexivity.
  - rewrite !Rsum_cons, IH. reflexivity.
  - rewrite !Rsum_cons. ring.
  - rewrite IH1. exact IH2.
Qed.

Lemma y_mean_Permutation (l l' : list (R * R)) :
  Permutation l l' -> y_mean l = y_mean l'.
Proof.
  intros Hp. unfold y_mean.
  rewrite (Rsum_Permutation _ _ _ Hp), (Permutation_length Hp). reflexivity.
Qed.

(** X1: in exact arithmetic the order of the samples does not matter:
    [leastSquaresFit], [fitCurve] and [calculateR2] give the same result
    on a list of real samples and on any permutation of it. *)
Theorem fits_ignore_sample_order (samples samples' : list (R * R)) :
  Permutation samples samples' ->
  leastSquaresFit (real_points samples) = leastSquaresFit (real_points samples')
  /\ PorousMedia.fitCurve
       (map (fun p => Fin (fst p)) samples) (map (fun p => Fin (snd p)) samples)
     = PorousMedia.fitCurve
         (map (fun p => Fin (fst p)) samples') (map (fun p => Fin (snd p)) samples')
  /\ forall A B : R,
       calculateR2 (real_points samples) (Fin A) (Fin B)
       = calculateR2 (real_points samples') (Fin A) (Fin B).
Proof.
  intros Hp. pose proof (Permutation_length Hp) as Hlen.
  split; [| split].
  - destruct (Nat.lt_ge_cases (length samples) 3) as [Hlt | Hge].
    + unfold leastSquaresFit, real_points. rewrite !length_map, <- Hlen.
      assert (Hb : (length samples <? 3)%nat = true) by (apply Nat.ltb_lt; exact Hlt).
      rewrite Hb. reflexivity.
    + rewrite (leastSquaresFit_Fin samples Hge).
      rewrite (leastSquaresFit_Fin samples') by (rewrite <- Hlen; exact Hge).
      cbv zeta. rewrite <- Hlen.
      rewrite !(Rsum_Permutation _ _ _ Hp). reflexivity.
  - rewrite !fitCurve_Fin. cbv zeta. rewrite !(Rsum_Permutation _ _ _ Hp). reflexivity.
  - intros A B. destruct samples as [| p samples].
    + apply Permutation_nil in Hp. subst samples'. reflexivity.
    + assert (Hne : p :: samples <> []) by discriminate.
      assert (Hne' : samples' <> []).
      { intros ->. apply Permutation_sym, Permutation_nil in Hp. discriminate. }
      rewrite (calculateR2_Fin _ A B Hne), (calculateR2_Fin _ A B Hne').
      unfold SS_res, SS_tot.
      rewrite (y_mean_Permutation _ _ Hp), !(Rsum_Permutation _ _ _ Hp). reflexivity.
Qed.

Lemma fits_ignore_sample_order_witness :
  leastSquaresFit (real_points [(1, 2); (2, 7); (3, 11)])
  = leastSquaresFit (real_points [(3, 11); (1, 2); (2, 7)]).
Proof.
  apply (fits_ignore_sample_order [(1, 2); (2, 7); (3, 11)] [(3, 11); (1, 2); (2, 7)]).
  apply Permutation_sym.
  apply (Permutation_cons_app [(1, 2); (2, 7)] [] (3, 11)).
  apply Permutation_refl.
Defined.

(** ** Least squares *)


Lemma SS_res_intercept_expand (samples : list (R * R)) (A B : R) :
  SS_res_intercept samples A B
  = Rsum (fun p => snd p * snd p) samples
    - 2 * A * Rsum (fun p => snd p) samples
    - 2 * B * Rsum (fun p => fst p * fst p * snd p) samples
    + A * A * INR (length samples)
    + 2 * A * B * Rsum (fun p => fst p * fst p) samples
    + B * B * Rsum (fun p => fst p * fst p * fst p * fst p) samples.
Proof.
  unfold SS_res_intercept. induction samples as [| p samples IH].
  - simpl. ring.
  - rewrite !Rsum_cons, IH. cbn [length]. rewrite S_INR. ring.
Qed.

Lemma intercept_form_sum (s t : R) (samples : list (R * R)) :
  Rsum (fun p => (s + t * (fst p * fst p)) * (s + t * (fst p * fst p))) samples
  = s * s * INR (length samples)
    + 2 * s * t * Rsum (fun p => fst p * fst p) samples
    + t * t * Rsum (fun p => fst p * fst p * fst p * fst p) samples.
Proof.
  induction samples as [| p samples IH].
  - simpl. ring.
  - rewrite !Rsum_cons, IH. cbn [length]. rewrite S_INR. ring.
Qed.



(** X3: whenever [leastSquaresFit] returns, its coefficients are real
    and minimise the sum of squared residuals of the curve
    [y = A + B x^2], an intercept and a quadratic term, not of
    [y = A x + B x^2]. *)
Theorem leastSquaresFit_least_squares_intercept
  (samples : list (R * R)) (c : coefficients xreal) :
  leastSquaresFit (real_points samples) = Return c ->
  exists A B : R,
    c = Coefficients (Fin A) (Fin B)
    /\ forall A' B' : R,
         SS_res_intercept samples A B <= SS_res_intercept samples A' B'.
Proof.
  intros Hfit.
  destruct (Nat.lt_ge_cases (length samples) 3) as [Hlt | Hge].
  { exfalso. revert Hfit. unfold leastSquaresFit, real_points. rewrite length_map.
    assert (Hb : (length samples <? 3)%nat = true) by (apply Nat.ltb_lt; exact Hlt).
    rewrite Hb. discriminate. }
  rewrite (leastSquaresFit_Fin samples Hge) in Hfit. cbv zeta in Hfit.
  set (n := INR (length samples)) in *.
  set (S2 := Rsum (fun p => fst p * fst p) samples) in *.
  set (S4 := Rsum (fun p => fst p * fst p * fst p * fst p) samples) in *.
  set (Sy := Rsum (fun p => snd p) samples) in *.
  set (S2y := Rsum (fun p => fst p * fst p * snd p) samples) in *.
  destruct (Rlt_dec (Rabs (n * S4 - S2 * S2)) 1e-10) as [Hsmall | Hbig];
    [discriminate |].
  assert (Hd : n * S4 - S2 * S2 <> 0).
  { intros Hz. apply Hbig. rewrite Hz, Rabs_R0. lra. }
  injection Hfit as <-.
  set (A := (Sy * S4 - S2y * S2) / (n * S4 - S2 * S2)).
  set (B := (n * S2y - Sy * S2) / (n * S4 - S2 * S2)).
  exists A, B. split; [reflexivity |].
  assert (N1 : n * A + S2 * B = Sy) by (unfold A, B; field; exact Hd).
  assert (N2 : S2 * A + S4 * B = S2y) by (unfold A, B; field; exact Hd).
  intros A' B'.
  rewrite (SS_res_intercept_expand samples A' B'), (SS_res_intercept_expand samples A B).
  fold n S2 S4 Sy S2y.
  pose proof (Rsum_nonneg
                (fun p => ((A' - A) + (B' - B) * (fst p * fst p))
                          * ((A' - A) + (B' - B) * (fst p * fst p)))
                samples
                (fun p => Rle_0_sqr ((A' - A) + (B' - B) * (fst p * fst p)))) as Hq.
  rewrite intercept_form_sum in Hq. fold n S2 S4 in Hq.
  rewrite <- N1, <- N2. nra.
Qed.

Lemma leastSquaresFit_least_squares_intercept_witness :
  exists A B : R,
    leastSquaresFit (real_points [(1, 1); (2, 2); (3, 3)])
    = Return (Coefficients (Fin A) (Fin B))
    /\ SS_res_intercept [(1, 1); (2, 2); (3, 3)] A B
       <= SS_res_intercept [(1, 1); (2, 2); (3, 3)] 0 1.
Proof.
  assert (Hfit : leastSquaresFit (real_points [(1, 1); (2, 2); (3, 3)])
                 = Return (Coefficients (Fin (6 / 7)) (Fin (12 / 49)))).
  { assert (Hlen : le 3 (length [(1, 1); (2, 2); (3, 3)])) by (simpl; lia).
    rewrite (leastSquaresFit_Fin _ Hlen). cbv zeta.
    cbn [length INR fst snd Rsum fold_right].
    destruct (Rlt_dec _ _) as [Hsmall | _].
    - exfalso. revert Hsmall. unfold Rabs. destruct (Rcase_abs _); lra.
    - fin_eq; lra. }
  destruct (leastSquaresFit_least_squares_intercept _ _ Hfit) as (A & B & E & Hmin).
  exists A, B. split; [rewrite Hfit, E; reflexivity | apply (Hmin 0 1)].
Defined.

(** ** More on the goodness of fit *)








(** ** The plotted curve *)

Lemma generateCurve_Fin (A B xMin xMax : R) (numPoints : nat) :
  (1 <= numPoints)%nat ->
  generateCurve (Fin A) (Fin B) (Fin xMin) (Fin xMax) numPoints
  = map (fun i =>
           let x := xMin + INR i * ((xMax - xMin) / INR numPoints) in
           real_point (x, A * x + B * x * x))
        (seq 0 (S numPoints)).
Proof.
  intros Hn. unfold generateCurve. cbv zeta.
  cbn [sub of_nat div xreal_number xsub].
  assert (Hnz : INR numPoints <> 0) by (apply not_0_INR; lia).
  rewrite xdiv_finite by exact Hnz.
  apply map_ext. intros i. reflexivity.
Qed.

(** X6: in exact arithmetic [generateCurve] with [numPoints >= 1]
    returns [numPoints + 1] points; the first has abscissa [xMin], the
    last [xMax]; every point lies on [y = A x + B x^2], and its abscissa
    is between [xMin] and [xMax] when [xMin <= xMax].  With
    [numPoints = 0] the step is a quotient by zero and the single point
    returned has [NaN] coordinates. *)
Theorem generateCurve_points (A B xMin xMax : R) (numPoints : nat) :
  generateCurve (Fin A) (Fin B) (Fin xMin) (Fin xMax) 0 = [Point XNaN XNaN]
  /\ ((1 <= numPoints)%nat ->
      let curve := generateCurve (Fin A) (Fin B) (Fin xMin) (Fin xMax) numPoints in
      length curve = S numPoints
      /\ nth_error curve 0 = Some (real_point (xMin, A * xMin + B * xMin * xMin))
      /\ nth_error curve numPoints
         = Some (real_point (xMax, A * xMax + B * xMax * xMax))
      /\ forall p, In p curve ->
           exists x : R,
             p = real_point (x, A * x + B * x * x)
             /\ (xMin <= xMax -> xMin <= x <= xMax)).
Proof.
  split.
  - unfold generateCurve. cbn [seq map of_nat xreal_number INR sub div xsub].
    assert (Hstep : exists s, xdiv (Fin (xMax - xMin)) (Fin 0) = s
                              /\ xmul (Fin 0) s = XNaN).
    { unfold xdiv. destruct (Req_dec_T 0 0) as [_ | N]; [| contradiction N; reflexivity].
      unfold inf_of_sign.
      assert (Hz : inf_of_sign 0 = XNaN).
      { unfold inf_of_sign. destruct (Rlt_dec 0 0) as [H | _]; [lra | reflexivity]. }
      assert (Hz' : inf_of_sign (- 0) = XNaN).
      { unfold inf_of_sign.
        destruct (Rlt_dec 0 (- 0)) as [H | _]; [lra |].
        destruct (Rlt_dec (- 0) 0) as [H | _]; [lra | reflexivity]. }
      destruct (Rlt_dec 0 (xMax - xMin)); [eexists; split; [reflexivity | exact Hz] |].
      destruct (Rlt_dec (xMax - xMin) 0); [eexists; split; [reflexivity | exact Hz'] |].
      eexists; split; reflexivity. }
    destruct Hstep as (s & -> & Hs).
    cbn [add mul xreal_number]. rewrite Hs. reflexivity.
  - intros Hn curve. subst curve. rewrite (generateCurve_Fin A B xMin xMax numPoints Hn).
    assert (Hnz : INR numPoints <> 0) by (apply not_0_INR; lia).
    assert (Hpos : 0 < INR numPoints) by (apply lt_0_INR; lia).
    split; [| split; [| split]].
    + rewrite length_map, length_seq. reflexivity.
    + cbn [seq map nth_error INR]. f_equal. unfold real_point. cbn [fst snd].
      fin_eq; ring.
    + rewrite nth_error_map, nth_error_seq.
      assert (Hb : (numPoints <? S numPoints)%nat = true) by (apply Nat.ltb_lt; lia).
      rewrite Hb. cbn [option_map Nat.add]. f_equal. unfold real_point. cbn [fst snd].
      assert (Hx : xMin + INR numPoints * ((xMax - xMin) / INR numPoints) = xMax)
        by (field; exact Hnz).
      rewrite Hx. reflexivity.
    + intros p Hp. apply in_map_iff in Hp as (i & <- & Hi).
      apply in_seq in Hi as [_ Hi]. cbv zeta.
      eexists. split; [reflexivity |].
      intros Hle.
      assert (Hi0 : 0 <= INR i) by apply pos_INR.
      assert (Hin : INR i <= INR numPoints) by (apply le_INR; lia).
      assert (Hr : INR i / INR numPoints * INR numPoints = INR i) by (field; exact Hnz).
      assert (Hfrac : 0 <= INR i / INR numPoints <= 1).
      { split.
        - unfold Rdiv. apply Rmult_le_pos; [exact Hi0 |].
          left. apply Rinv_0_lt_compat. exact Hpos.
        - destruct (Rle_dec (INR i / INR numPoints) 1) as [H | H]; [exact H |].
          exfalso. nra. }
      replace (xMin + INR i * ((xMax - xMin) / INR numPoints))
        with (xMin + INR i / INR numPoints * (xMax - xMin)) by (field; exact Hnz).
      nra.
Qed.

Lemma generateCurve_points_witness :
  length (generateCurve (Fin 2.5) (Fin 0.8) (Fin 0) (Fin 3) 2) = 3%nat
  /\ nth_error (generateCurve (Fin 2.5) (Fin 0.8) (Fin 0) (Fin 3) 2) 2
     = Some (real_point (3, 2.5 * 3 + 0.8 * 3 * 3)).
Proof.
  destruct (generateCurve_points 2.5 0.8 0 3 2) as [_ Hcurve].
  destruct Hcurve as (Hlen & _ & Hlast & _); [lia |].
  split; [exact Hlen | exact Hlast].
Defined.

(** ** The two arrays of [fitCurve] *)

Lemma fitCurve_loop_firstn {num : Type} `{JSNumber num} (x y : list num) :
  forall s, PorousMedia.fitCurve_loop x (firstn (length x) y) s
            = PorousMedia.fitCurve_loop x y s.
Proof.
  revert y. induction x as [| xi x IH]; intros y s.
  - reflexivity.
  - destruct y as [| yi y].
    + reflexivity.
    + cbn [length firstn PorousMedia.fitCurve_loop hd tl]. apply IH.
Qed.

Lemma xmul_NaN_r (a : xreal) : xmul a XNaN = XNaN.
Proof. destruct a; reflexivity. Qed.

(** Once the two sums that involve [y] are [NaN] they stay [NaN]. *)
Lemma fitCurve_loop_NaN (x y : list xreal) :
  forall s,
    PorousMedia.sumXY s = XNaN -> PorousMedia.sumX2Y s = XNaN ->
    PorousMedia.sumXY (PorousMedia.fitCurve_loop x y s) = XNaN
    /\ PorousMedia.sumX2Y (PorousMedia.fitCurve_loop x y s) = XNaN.
Proof.
  revert y. induction x as [| xi x IH]; intros y s H1 H2.
  - split; assumption.
  - cbn [PorousMedia.fitCurve_loop]. apply IH.
    + cbn [PorousMedia.sumXY add xreal_number]. rewrite H1. reflexivity.
    + cbn [PorousMedia.sumX2Y add xreal_number]. rewrite H2. reflexivity.
Qed.

Lemma fitCurve_loop_short (x y : list xreal) :
  (length y < length x)%nat ->
  forall s,
    PorousMedia.sumXY (PorousMedia.fitCurve_loop x y s) = XNaN
    /\ PorousMedia.sumX2Y (PorousMedia.fitCurve_loop x y s) = XNaN.
Proof.
  revert y. induction x as [| xi x IH]; intros y Hlen s.
  - simpl in Hlen. lia.
  - destruct y as [| yi y].
    + cbn [PorousMedia.fitCurve_loop hd tl]. apply fitCurve_loop_NaN.
      * cbn [PorousMedia.sumXY add mul NaN xreal_number].
        rewrite xmul_NaN_r, xadd_NaN_r. reflexivity.
      * cbn [PorousMedia.sumX2Y add mul NaN xreal_number].
        rewrite xmul_NaN_r, xadd_NaN_r. reflexivity.
    + cbn [PorousMedia.fitCurve_loop hd tl]. apply IH. simpl in Hlen. lia.
Qed.

(** X7: [fitCurve] reads [y] only at the indices of [x].  Entries of
    [y] beyond the length of [x] are ignored, in any arithmetic; and when
    [y] is shorter than [x], the missing entries are [undefined] and both
    coefficients come out as [NaN]. *)
Theorem fitCurve_array_lengths :
  (forall (num : Type) (N : JSNumber num) (x y : list num),
      PorousMedia.fitCurve x (firstn (length x) y) = PorousMedia.fitCurve x y)
  /\ (forall x y : list xreal,
         (length y < length x)%nat ->
         PorousMedia.fitCurve x y = Coefficients XNaN XNaN).
Proof.
  split.
  - intros num N x y. unfold PorousMedia.fitCurve.
    rewrite fitCurve_loop_firstn. reflexivity.
  - intros x y Hlen. unfold PorousMedia.fitCurve. cbv zeta.
    destruct (fitCurve_loop_short x y Hlen PorousMedia.initial_sums) as [H1 H2].
    rewrite H1, H2. cbn [sub mul div xreal_number].
    rewrite !xmul_NaN_r. cbn [xsub]. rewrite ?xsub_NaN_r, ?xdiv_NaN_l. reflexivity.
Qed.

Lemma fitCurve_array_lengths_witness :
  PorousMedia.fitCurve [Fin 1; Fin 2; Fin 3] [Fin 3; Fin 8] = Coefficients XNaN XNaN.
Proof.
  apply (proj2 fitCurve_array_lengths). simpl. lia.
Defined.

(** ** The two analysis functions *)

(** X8: [performCurveFitting] returns [null] exactly when
    [leastSquaresFit] throws.  Otherwise its result carries the fitted
    [A] and [B], the [R2] that [calculateR2] gives for them, and the same
    [d] and [f] that [calcDarcyForchheimer] computes from them.  This
    holds in any arithmetic. *)
Theorem performCurveFitting_result
  {num : Type} `{JSNumber num} (dataPoints : list (point num)) (L density viscosity : num) :
  (forall message, leastSquaresFit dataPoints = Throw message ->
                   performCurveFitting dataPoints L density viscosity = None)
  /\ (forall c, leastSquaresFit dataPoints = Return c ->
        exists a,
          performCurveFitting dataPoints L density viscosity = Some a
          /\ fit_A a = A c /\ fit_B a = B c
          /\ R2 a = calculateR2 dataPoints (A c) (B c)
          /\ PorousMedia.Porous (d a) (f a)
             = PorousMedia.calcDarcyForchheimer (A c) (B c) viscosity density L).
Proof.
  unfold performCurveFitting, performCurveFitting_try.
  destruct (length dataPoints <? 3)%nat eqn:Hb.
  - split.
    + intros _ _. reflexivity.
    + intros c Hfit. exfalso. revert Hfit. unfold leastSquaresFit. rewrite Hb. discriminate.
  - split.
    + intros message Hfit. rewrite Hfit. reflexivity.
    + intros c Hfit. rewrite Hfit. cbn [bind]. eexists. split; [reflexivity |].
      cbn [fit_A fit_B R2 d f]. repeat split; reflexivity.
Qed.

Lemma performCurveFitting_result_witness :
  performCurveFitting [Point (Fin 1) (Fin 3); Point (Fin 2) (Fin 8)]
    (Fin 0.1) (Fin 870) (Fin 0.03) = None.
Proof.
  apply (proj1 (performCurveFitting_result
                  [Point (Fin 1) (Fin 3); Point (Fin 2) (Fin 8)]
                  (Fin 0.1) (Fin 870) (Fin 0.03)))
    with (message := too_few_points).
  reflexivity.
Defined.

(* ================================================================== *)
(** * Further properties of the unit conversion *)
(* ================================================================== *)

(** ** The registered tables *)

Lemma registry_units_ok :
  forallb (fun entry => forallb (registered_unit_ok entry) (keys (snd entry)))
          unitTypeRegistry = true.
Proof. vm_compute. reflexivity. Qed.

Lemma registered_unit_facts (entry : string * factor_table) (unit : string) :
  In entry unitTypeRegistry -> In unit (keys (snd entry)) ->
  unit_type unit = Some (fst entry)
  /\ normalizeUnit unit = Return unit
  /\ includes ["C"; "F"; "K"]%string unit = false
  /\ includes objectPrototypeNames unit = false.
Proof.
  intros He Hu. pose proof registry_units_ok as Hall.
  rewrite forallb_forall in Hall. specialize (Hall entry He).
  rewrite forallb_forall in Hall. specialize (Hall unit Hu).
  unfold registered_unit_ok in Hall.
  apply andb_prop in Hall as [Hall H4]. apply andb_prop in Hall as [Hall H3].
  apply andb_prop in Hall as [H1 H2].
  apply same_type_eq in H1 as [H1 _].
  split; [exact H1 | split; [| split]].
  - destruct (normalizeUnit unit) as [normalized | message]; [| discriminate].
    apply String.eqb_eq in H2. subst normalized. reflexivity.
  - apply negb_true_iff in H3. exact H3.
  - apply negb_true_iff in H4. exact H4.
Qed.

Lemma registry_names_distinct : List.NoDup (map fst unitTypeRegistry).
Proof.
  unfold unitTypeRegistry. cbn [map fst].
  repeat (constructor; [simpl; intuition discriminate |]).
  constructor.
Qed.

Lemma NoDup_fst_injective {V : Type} (l : list (string * V)) (e e' : string * V) :
  List.NoDup (map fst l) -> In e l -> In e' l -> fst e = fst e' -> e = e'.
Proof.
  induction l as [| h l IH]; intros Hnd He He' Hfst; [contradiction |].
  cbn [map] in Hnd. inversion Hnd as [| ? ? Hnotin Hnd']; subst.
  destruct He as [-> | He], He' as [-> | He'].
  - reflexivity.
  - exfalso. apply Hnotin. rewrite Hfst. apply in_map. exact He'.
  - exfalso. apply Hnotin. rewrite <- Hfst. apply in_map. exact He.
  - apply IH; assumption.
Qed.

(** A unit is an own key of at most one registered table. *)
Lemma unique_owner (entry entry' : string * factor_table) (unit : string) :
  In entry unitTypeRegistry -> In entry' unitTypeRegistry ->
  In unit (keys (snd entry)) -> In unit (keys (snd entry')) ->
  entry = entry'.
Proof.
  intros He He' Hu Hu'.
  destruct (registered_unit_facts entry unit He Hu) as [H1 _].
  destruct (registered_unit_facts entry' unit He' Hu') as [H1' _].
  apply (NoDup_fst_injective unitTypeRegistry);
    [exact registry_names_distinct | exact He | exact He' | congruence].
Qed.

Lemma all_factors_positive (entry : string * factor_table) (pair : string * xreal) :
  In entry unitTypeRegistry -> In pair (snd entry) -> positive_factor (snd pair).
Proof.
  intros He Hp. unfold unitTypeRegistry in He. cbn [In] in He.
  repeat (destruct He as [<- | He];
          [ cbn [snd lengthFactors areaFactors densityFactors kinViscFactors
                 dynViscFactors volumeFactors flowFactors pressureFactors
                 forceFactors In] in Hp;
            repeat (destruct Hp as [<- | Hp];
                    [ cbn [snd div xreal_number]; rewrite ?xdiv_finite by lra;
                      eexists; split; [reflexivity | lra] |]);
            contradiction |]).
  contradiction.
Qed.

Lemma own_factor_In (table : factor_table) (unit : string) :
  In unit (keys table) ->
  exists factor, own_factor table unit = Some factor /\ In (unit, factor) table.
Proof.
  intros Hu. unfold own_factor.
  destruct (find (fun entry => String.eqb unit (fst entry)) table) as [[k factor] |] eqn:E.
  - apply find_some in E as [Hin Heq]. cbn [fst] in Heq.
    apply String.eqb_eq in Heq. subst k.
    exists factor. split; [reflexivity | exact Hin].
  - exfalso. unfold keys in Hu. apply in_map_iff in Hu as (pair & <- & Hin).
    pose proof (find_none _ _ E pair Hin) as Hnone. cbv beta in Hnone.
    rewrite String.eqb_refl in Hnone. discriminate.
Qed.

Lemma registered_factor (entry : string * factor_table) (unit : string) :
  In entry unitTypeRegistry -> In unit (keys (snd entry)) ->
  has_property unit (snd entry) = true
  /\ exists r : R, get_factor (snd entry) unit = Fin r /\ 0 < r.
Proof.
  intros He Hu. destruct (own_factor_In _ _ Hu) as (factor & Hown & Hin).
  unfold has_property, get_factor. rewrite Hown. split; [reflexivity |].
  destruct (all_factors_positive entry (unit, factor) He Hin) as (r & Hr & Hpos).
  cbn [snd] in Hr. exists r. split; assumption.
Qed.

(** Two own keys of a registered table make [convertUnit] pick it. *)
Lemma common_table_owner (entry : string * factor_table) (a b : string) :
  In entry unitTypeRegistry ->
  In a (keys (snd entry)) -> In b (keys (snd entry)) ->
  common_table a b = Some entry.
Proof.
  intros He Ha Hb.
  destruct (registered_factor entry a He Ha) as [Hpa _].
  destruct (registered_factor entry b He Hb) as [Hpb _].
  destruct (common_table a b) as [entry' |] eqn:E.
  - pose proof E as E'. unfold common_table in E'.
    apply find_some in E' as [He' Hboth]. apply andb_prop in Hboth as [Hfa _].
    destruct (registered_unit_facts entry a He Ha) as (_ & _ & _ & Hproto).
    apply (has_property_own _ _ Hproto) in Hfa.
    f_equal. apply (unique_owner entry' entry a); assumption.
  - exfalso. unfold common_table in E.
    pose proof (find_none _ _ E entry He) as Hnone. cbv beta in Hnone.
    rewrite Hpa, Hpb in Hnone. discriminate.
Qed.

(** The conversion between two units of one registered table. *)
Lemma convertUnit_same_table
  (entry : string * factor_table) (a b a' b' : string) (v : R) :
  In entry unitTypeRegistry ->
  In a' (keys (snd entry)) -> In b' (keys (snd entry)) ->
  normalizeUnit a = Return a' -> normalizeUnit b = Return b' ->
  exists fa fb : R,
    get_factor (snd entry) a' = Fin fa /\ get_factor (snd entry) b' = Fin fb
    /\ 0 < fa /\ 0 < fb
    /\ convertUnit a b (Fin v) = Return (Fin (v * (fa / fb))).
Proof.
  intros He Ha Hb Hna Hnb.
  destruct (registered_factor entry a' He Ha) as (Hpa & fa & Hfa & Hfa0).
  destruct (registered_factor entry b' He Hb) as (Hpb & fb & Hfb & Hfb0).
  exists fa, fb. repeat (split; [assumption |]).
  unfold convertUnit. cbn [Number_isFinite xreal_number xfinite negb].
  rewrite Hna, Hnb. cbn [bind].
  destruct (String.eqb a' b') eqn:Heq.
  - apply String.eqb_eq in Heq. subst b'.
    assert (fa = fb) by congruence. subst fb.
    fin_eq. field. lra.
  - destruct (registered_unit_facts entry a' He Ha) as (_ & _ & Htemp & _).
    rewrite Htemp. cbn [andb].
    fold (common_table a' b'). rewrite (common_table_owner entry a' b' He Ha Hb).
    destruct entry as [name table]. cbn [snd] in *.
    unfold linearConversion. rewrite Hpa, Hpb. cbn [negb].
    rewrite Hfa, Hfb. cbn [mul div xreal_number].
    rewrite xdiv_finite by lra. reflexivity.
Qed.

(** ** Linear conversions *)

(** X9: between two units of one registered factor table [convertUnit]
    multiplies by the ratio of their two (positive) factors, and
    converting the result back returns the original value, in exact
    arithmetic. *)
Theorem convertUnit_linear_round_trip
  (entry : string * factor_table) (a b : string) (v : R) :
  In entry unitTypeRegistry ->
  In a (keys (snd entry)) -> In b (keys (snd entry)) ->
  exists fa fb : R,
    get_factor (snd entry) a = Fin fa /\ get_factor (snd entry) b = Fin fb
    /\ 0 < fa /\ 0 < fb
    /\ convertUnit a b (Fin v) = Return (Fin (v * (fa / fb)))
    /\ convertUnit b a (Fin (v * (fa / fb))) = Return (Fin v).
Proof.
  intros He Ha Hb.
  destruct (registered_unit_facts entry a He Ha) as (_ & Hna & _).
  destruct (registered_unit_facts entry b He Hb) as (_ & Hnb & _).
  destruct (convertUnit_same_table entry a b a b v He Ha Hb Hna Hnb)
    as (fa & fb & Hfa & Hfb & Hfa0 & Hfb0 & Hab).
  destruct (convertUnit_same_table entry b a b a (v * (fa / fb)) He Hb Ha Hnb Hna)
    as (fb' & fa' & Hfb' & Hfa' & _ & _ & Hba).
  assert (fa' = fa) by congruence. assert (fb' = fb) by congruence. subst fa' fb'.
  exists fa, fb. repeat (split; [assumption |]).
  rewrite Hba. fin_eq. field. lra.
Qed.

Lemma convertUnit_linear_round_trip_witness :
  exists fa fb : R,
    convertUnit "psi" "bar" (Fin 30) = Return (Fin (30 * (fa / fb)))
    /\ convertUnit "bar" "psi" (Fin (30 * (fa / fb))) = Return (Fin 30).
Proof.
  destruct (convertUnit_linear_round_trip ("pressure"%string, pressureFactors)
              "psi" "bar" 30) as (fa & fb & _ & _ & _ & _ & Hab & Hba).
  - unfold unitTypeRegistry. cbn [In]. tauto.
  - cbn. tauto.
  - cbn. tauto.
  - exists fa, fb. split; assumption.
Defined.

(** X10: conversions within one registered factor table compose: going
    from [a] to [b] and then from [b] to [c] gives what the direct
    conversion from [a] to [c] gives, in exact arithmetic. *)
Theorem convertUnit_linear_compose
  (entry : string * factor_table) (a b c : string) (v : R) :
  In entry unitTypeRegistry ->
  In a (keys (snd entry)) -> In b (keys (snd entry)) -> In c (keys (snd entry)) ->
  exists w : R,
    convertUnit a b (Fin v) = Return (Fin w)
    /\ convertUnit b c (Fin w) = convertUnit a c (Fin v).
Proof.
  intros He Ha Hb Hc.
  destruct (registered_unit_facts entry a He Ha) as (_ & Hna & _).
  destruct (registered_unit_facts entry b He Hb) as (_ & Hnb & _).
  destruct (registered_unit_facts entry c He Hc) as (_ & Hnc & _).
  destruct (convertUnit_same_table entry a b a b v He Ha Hb Hna Hnb)
    as (fa & fb & Hfa & Hfb & Hfa0 & Hfb0 & Hab).
  exists (v * (fa / fb)). split; [exact Hab |].
  destruct (convertUnit_same_table entry b c b c (v * (fa / fb)) He Hb Hc Hnb Hnc)
    as (fb' & fc & Hfb' & Hfc & _ & Hfc0 & Hbc).
  destruct (convertUnit_same_table entry a c a c v He Ha Hc Hna Hnc)
    as (fa' & fc' & Hfa' & Hfc' & _ & _ & Hac).
  assert (fa' = fa) by congruence. assert (fb' = fb) by congruence.
  assert (fc' = fc) by congruence. subst fa' fb' fc'.
  rewrite Hbc, Hac. fin_eq. field. lra.
Qed.

Lemma convertUnit_linear_compose_witness :
  exists w : R,
    convertUnit "in" "ft" (Fin 12) = Return (Fin w)
    /\ convertUnit "ft" "mm" (Fin w) = convertUnit "in" "mm" (Fin 12).
Proof.
  apply (convertUnit_linear_compose ("length"%string, lengthFactors) "in" "ft" "mm" 12).
  - unfold unitTypeRegistry. cbn [In]. tauto.
  - cbn. tauto.
  - cbn. tauto.
  - cbn. tauto.
Defined.

(** ** Temperatures *)

(** Decide the string tests of closed unit names. *)
Ltac eval_string_tests :=
  repeat match goal with
         | |- context [String.eqb ?x ?y] =>
             let r := eval vm_compute in (String.eqb x y) in
             lazymatch r with
             | true => change (String.eqb x y) with true
             | false => change (String.eqb x y) with false
             end
         | |- context [includes ?l ?x] =>
             let r := eval vm_compute in (includes l x) in
             lazymatch r with
             | true => change (includes l x) with true
             | false => change (includes l x) with false
             end
         end;
  cbv iota.

Lemma temperature_kelvin (t : string) (v : R) :
  In t temperatureUnits ->
  temperatureToKelvin t (Fin v) = Return (Fin (kelvin_of t v))
  /\ temperatureFromKelvin t (Fin v) = Return (Fin (of_kelvin t v))
  /\ of_kelvin t (kelvin_of t v) = v.
Proof.
  unfold temperatureUnits. cbn [In].
  intros [<- | [<- | [<- | []]]];
    unfold temperatureToKelvin, temperatureFromKelvin, kelvin_of, of_kelvin;
    eval_string_tests; cbn [add sub mul div xreal_number xadd xsub xmul];
    rewrite ?xdiv_finite by lra; cbn [xadd];
    (split; [fin_eq; lra | split; [fin_eq; lra | lra]]).
Qed.

(** The conversion between two temperature units, by way of kelvins. *)
Lemma convertUnit_temperature (a b ta tb : string) (v : R) :
  normalizeUnit a = Return ta -> normalizeUnit b = Return tb ->
  In ta temperatureUnits -> In tb temperatureUnits ->
  convertUnit a b (Fin v)
  = Return (Fin (if String.eqb ta tb then v else of_kelvin tb (kelvin_of ta v))).
Proof.
  intros Hna Hnb Hta Htb. unfold convertUnit.
  cbn [Number_isFinite xreal_number xfinite negb]. rewrite Hna, Hnb. cbn [bind].
  destruct (String.eqb ta tb) eqn:Heq; [reflexivity |].
  assert (Hia : includes ["C"; "F"; "K"]%string ta = true).
  { unfold temperatureUnits in Hta. cbn [In] in Hta.
    destruct Hta as [<- | [<- | [<- | []]]]; reflexivity. }
  assert (Hib : includes ["C"; "F"; "K"]%string tb = true).
  { unfold temperatureUnits in Htb. cbn [In] in Htb.
    destruct Htb as [<- | [<- | [<- | []]]]; reflexivity. }
  rewrite Hia, Hib. cbn [andb].
  destruct (temperature_kelvin ta v Hta) as (Hk & _ & _). rewrite Hk. cbn [bind].
  destruct (temperature_kelvin tb (kelvin_of ta v) Htb) as (_ & Hw & _). exact Hw.
Qed.

(** X11: between any two of the temperature units C, F and K, written
    in either letter case, [convertUnit] returns a number, and converting
    that number back returns the original value, in exact arithmetic.
    Celsius to Fahrenheit is [v * 9 / 5 + 32] and kelvin to Celsius is
    [v - 273.15]. *)
Theorem convertUnit_temperature_round_trip (a b ta tb : string) (v : R) :
  normalizeUnit a = Return ta -> normalizeUnit b = Return tb ->
  In ta temperatureUnits -> In tb temperatureUnits ->
  (exists w : R,
     convertUnit a b (Fin v) = Return (Fin w)
     /\ convertUnit b a (Fin w) = Return (Fin v))
  /\ convertUnit "C" "F" (Fin v) = Return (Fin (v * 9 / 5 + 32))
  /\ convertUnit "K" "C" (Fin v) = Return (Fin (v - 273.15)).
Proof.
  intros Hna Hnb Hta Htb. split; [| split].
  - eexists. split; [apply (convertUnit_temperature a b ta tb v); assumption |].
    rewrite (convertUnit_temperature b a tb ta _ Hnb Hna Htb Hta).
    fin_eq. rewrite (String.eqb_sym tb ta).
    destruct (String.eqb ta tb) eqn:Heq; [reflexivity |].
    unfold temperatureUnits in Hta, Htb. cbn [In] in Hta, Htb.
    destruct Hta as [<- | [<- | [<- | []]]]; destruct Htb as [<- | [<- | [<- | []]]];
      try discriminate Heq; unfold kelvin_of, of_kelvin; eval_string_tests; lra.
  - rewrite (convertUnit_temperature "C" "F" "C" "F" v);
      [| reflexivity | reflexivity | cbn; tauto | cbn; tauto].
    unfold kelvin_of, of_kelvin. eval_string_tests. fin_eq. lra.
  - rewrite (convertUnit_temperature "K" "C" "K" "C" v);
      [| reflexivity | reflexivity | cbn; tauto | cbn; tauto].
    unfold kelvin_of, of_kelvin. eval_string_tests. reflexivity.
Qed.

Lemma convertUnit_temperature_round_trip_witness :
  exists w : R,
    convertUnit "f" "C" (Fin 98.6) = Return (Fin w)
    /\ convertUnit "C" "f" (Fin w) = Return (Fin 98.6).
Proof.
  apply (convertUnit_temperature_round_trip "f" "C" "F" "C" 98.6).
  - reflexivity.
  - reflexivity.
  - cbn. tauto.
  - cbn. tauto.
Defined.

(** ** Errors and shortcuts of [convertUnit] *)

Lemma normalizeUnit_nonempty (c : ascii) (s : string) :
  exists normalized, normalizeUnit (String c s) = Return normalized.
Proof.
  unfold normalizeUnit.
  destruct (includes ["C"; "F"; "K"]%string (toUpperCase (String c s)));
    eexists; reflexivity.
Qed.

(** X12: the only errors [convertUnit] throws are "Unit must be a
    non-empty string", exactly when the value is finite and one of the two
    units is the empty string, and "Unsupported conversion from ... to
    ...".  The errors of [linearConversion] ("Unknown unit") and of the
    two temperature functions never come out of it. *)
Theorem convertUnit_errors (originalUnit newUnit : string) (value : xreal) :
  (forall message,
      convertUnit originalUnit newUnit value = Throw message ->
      xfinite value = true
      /\ ((message = unit_not_string
           /\ (originalUnit = EmptyString \/ newUnit = EmptyString))
          \/ (message = unsupported_conversion originalUnit newUnit
              /\ originalUnit <> EmptyString /\ newUnit <> EmptyString))
      /\ forall unit, message <> unknown_unit unit
                      /\ message <> unsupported_temperature_unit unit)
  /\ (xfinite value = true ->
      originalUnit = EmptyString \/ newUnit = EmptyString ->
      convertUnit originalUnit newUnit value = Throw unit_not_string).
Proof.
  split.
  - intros message Hthrow.
    assert (Hcases :
      xfinite value = true
      /\ ((message = unit_not_string
           /\ (originalUnit = EmptyString \/ newUnit = EmptyString))
          \/ (message = unsupported_conversion originalUnit newUnit
              /\ originalUnit <> EmptyString /\ newUnit <> EmptyString))).
    { revert Hthrow. unfold convertUnit.
      cbn [Number_isFinite xreal_number].
      destruct value as [r | | |]; cbn [xfinite negb]; try discriminate.
      destruct originalUnit as [| c s].
      { cbn [normalizeUnit bind]. intros [= <-]. split; [reflexivity |].
        left. split; [reflexivity | left; reflexivity]. }
      destruct (normalizeUnit_nonempty c s) as (fromUnit & ->). cbn [bind].
      destruct newUnit as [| c' s'].
      { cbn [normalizeUnit bind]. intros [= <-]. split; [reflexivity |].
        left. split; [reflexivity | right; reflexivity]. }
      destruct (normalizeUnit_nonempty c' s') as (toUnit & ->). cbn [bind].
      destruct (String.eqb fromUnit toUnit); [discriminate |].
      destruct (includes ["C"; "F"; "K"]%string fromUnit) eqn:Hf;
        destruct (includes ["C"; "F"; "K"]%string toUnit) eqn:Ht; cbn [andb].
      { apply includes_In in Hf. apply includes_In in Ht.
        destruct (temperature_kelvin fromUnit r Hf) as (Hk & _ & _). rewrite Hk.
        cbn [bind].
        destruct (temperature_kelvin toUnit (kelvin_of fromUnit r) Ht) as (_ & Hw & _).
        rewrite Hw. discriminate. }
      all: destruct (find _ unitTypeRegistry) as [[name table] |] eqn:E;
        [ apply find_some in E as [_ Hboth]; cbn [snd] in Hboth;
          apply andb_prop in Hboth as [Hpf Hpt];
          unfold linearConversion; rewrite Hpf, Hpt; cbn [negb]; discriminate
        | intros [= <-]; split; [reflexivity |];
          right; split; [reflexivity | split; discriminate] ]. }
    destruct Hcases as [Hfin Hmsg]. split; [exact Hfin | split; [exact Hmsg |]].
    intros unit.
    destruct Hmsg as [[-> _] | [-> _]]; split; discriminate.
  - intros Hfin Hempty. unfold convertUnit.
    cbn [Number_isFinite xreal_number]. rewrite Hfin. cbn [negb].
    destruct Hempty as [-> | ->].
    + reflexivity.
    + destruct originalUnit as [| c s]; [reflexivity |].
      destruct (normalizeUnit_nonempty c s) as (fromUnit & ->). reflexivity.
Qed.

Lemma convertUnit_errors_witness :
  convertUnit "m" "" (Fin 1) = Throw unit_not_string.
Proof.
  apply (convertUnit_errors "m" "" (Fin 1)).
  - reflexivity.
  - right. reflexivity.
Defined.

(** ** The unit lists *)

Import UnitLists.

Lemma In_includes (l : list string) (s : string) : In s l -> includes l s = true.
Proof.
  intros Hin. unfold includes. apply existsb_exists.
  exists s. split; [exact Hin | apply String.eqb_refl].
Qed.

Lemma getAvailableUnits_lists (unitType : string) (units : list string) :
  getAvailableUnits unitType = Return units ->
  units = [] \/ units = temperatureUnits
  \/ exists entry, In entry unitTypeRegistry /\ units = keys (snd entry).
Proof.
  unfold getAvailableUnits. destruct unitType as [| c s]; [discriminate |].
  destruct (find _ unitTypeMap) as [[name [table | l]] |] eqn:E.
  - intros [= <-]. right. right.
    apply find_some in E as [Hin _]. unfold unitTypeMap in Hin. cbn [In] in Hin.
    repeat (destruct Hin as [Hin | Hin];
            [ first
                [ discriminate Hin
                | injection Hin as _ <-; eexists (_, _); split; [| reflexivity];
                  unfold unitTypeRegistry; cbn [In];
                  repeat (first [left; reflexivity | right]) ]
            | ]);
      contradiction.
  - intros [= <-]. right. left.
    apply find_some in E as [Hin _]. unfold unitTypeMap in Hin. cbn [In] in Hin.
    repeat (destruct Hin as [Hin | Hin];
            [ first [discriminate Hin | injection Hin as _ <-; reflexivity] |]).
    contradiction.
  - destruct (includes objectPrototypeNames _); [| discriminate].
    intros [= <-]. left. reflexivity.
Qed.

(** X13: the unit lists agree with the conversions.  Every unit that
    [getAvailableUnits] lists for a unit type is accepted by
    [isValidUnit] for that type, and two units that [isValidUnit] accepts
    for one type can be converted into each other: [convertUnit] returns
    a number for every real value and does not throw. *)
Theorem isValidUnit_convertible (unitType : string) (units : list string) :
  getAvailableUnits unitType = Return units ->
  (forall unit : string, In unit units -> isValidUnit unit unitType = true)
  /\ (forall (a b : string) (v : R),
        isValidUnit a unitType = true -> isValidUnit b unitType = true ->
        exists w : R, convertUnit a b (Fin v) = Return (Fin w)).
Proof.
  intros Hunits. split.
  - intros unit Hin. unfold isValidUnit. rewrite Hunits.
    assert (Hn : normalizeUnit unit = Return unit).
    { destruct (getAvailableUnits_lists _ _ Hunits) as [-> | [-> | (entry & He & ->)]].
      - contradiction.
      - unfold temperatureUnits in Hin. cbn [In] in Hin.
        destruct Hin as [<- | [<- | [<- | []]]]; reflexivity.
      - apply (registered_unit_facts entry unit He Hin). }
    rewrite Hn. apply In_includes. exact Hin.
  - intros a b v. unfold isValidUnit. rewrite Hunits. intros Ha Hb.
    destruct (normalizeUnit a) as [a' |] eqn:Hna; [| discriminate].
    destruct (normalizeUnit b) as [b' |] eqn:Hnb; [| discriminate].
    apply includes_In in Ha. apply includes_In in Hb.
    destruct (getAvailableUnits_lists _ _ Hunits) as [-> | [-> | (entry & He & ->)]].
    + contradiction.
    + eexists. apply (convertUnit_temperature a b a' b' v); assumption.
    + destruct (convertUnit_same_table entry a b a' b' v He Ha Hb Hna Hnb)
        as (fa & fb & _ & _ & _ & _ & Hab).
      eexists. exact Hab.
Qed.

Lemma isValidUnit_convertible_witness :
  isValidUnit "gpm" " Flow Rate " = true
  /\ exists w : R, convertUnit "gpm" "L/min" (Fin 2) = Return (Fin w).
Proof.
  destruct (isValidUnit_convertible " Flow Rate " (keys flowFactors)) as [Hvalid Hconv].
  - vm_compute. reflexivity.
  - split.
    + apply Hvalid. cbn. tauto.
    + apply Hconv; apply Hvalid; cbn; tauto.
Defined.

(* ================================================================== *)
(** * Further properties of the fluid properties *)
(* ================================================================== *)

(** ** Density *)

(** X14: for a fluid with a positive reference density the density
    [getDensityAtTemp] returns falls strictly with the temperature, by
    [0.00065 * DensityAt15C] per kelvin, and it is positive exactly below
    [zero_density_temperature] (about 1826.6 K): above it the function
    returns a negative density. *)
Theorem getDensityAtTemp_decreasing
  (fluidData : gmap string fluid) (name : string) (entry : fluid) (rho15 : R) :
  fluidData !! name = Some entry ->
  DensityAt15C entry = Some (Fin rho15) ->
  0 < rho15 ->
  forall Ta Tb : R,
  exists rho_a rho_b : R,
    getDensityAtTemp fluidData name (Fin Ta) = Fin rho_a
    /\ getDensityAtTemp fluidData name (Fin Tb) = Fin rho_b
    /\ rho_b - rho_a = - (0.00065 * rho15) * (Tb - Ta)
    /\ (Ta < Tb -> rho_b < rho_a)
    /\ (0 < rho_a <-> Ta < zero_density_temperature).
Proof.
  intros Hlook Hrho Hpos Ta Tb.
  assert (Hnz : rho15 <> 0) by lra.
  exists (rho15 * (1 - 0.00065 * (Ta - 288.15))),
         (rho15 * (1 - 0.00065 * (Tb - 288.15))).
  rewrite !(getDensityAtTemp_finite _ _ _ _ _ Hlook Hrho Hnz).
  unfold zero_density_temperature.
  split; [reflexivity | split; [reflexivity | split; [ring | split]]].
  - intros Hab. nra.
  - split; intros H.
    + assert (0 < 1 - 0.00065 * (Ta - 288.15)) by nra. lra.
    + apply Rmult_lt_0_compat; [exact Hpos | lra].
Qed.

Lemma getDensityAtTemp_decreasing_witness :
  exists rho_a rho_b : R,
    getDensityAtTemp sample_fluids "HLP 46" (Fin 300) = Fin rho_a
    /\ getDensityAtTemp sample_fluids "HLP 46" (Fin 350) = Fin rho_b
    /\ rho_b - rho_a = - (0.00065 * 875) * (350 - 300)
    /\ (300 < 350 -> rho_b < rho_a)
    /\ (0 < rho_a <-> 300 < zero_density_temperature).
Proof.
  apply (getDensityAtTemp_decreasing sample_fluids "HLP 46" hydraulic_oil 875).
  - reflexivity.
  - reflexivity.
  - lra.
Defined.

(** ** Kinematic viscosity *)












(** ** Dynamic viscosity *)



(** ** Missing data *)

Lemma xdiv_NaN_r (a : xreal) : xdiv a XNaN = XNaN.
Proof. destruct a; reflexivity. Qed.

Lemma xadd_NaN_l (a : xreal) : xadd XNaN a = XNaN.
Proof. destruct a; reflexivity. Qed.

(** X18: the three getters answer [NaN] and never throw when the data
    are missing: all three for a fluid that is not in the table, and for
    a temperature that is not finite whatever the fluid is;
    [getKinViscAtTemp] and [getDynViscAtTemp] also for a fluid whose
    reference points are missing or fewer than two, even when its
    density is known. *)
Theorem getters_missing_data
  (fluidData : gmap string fluid) (name : string) (tK : xreal) :
  (fluidData !! name = None \/ xfinite tK = false ->
   getDensityAtTemp fluidData name tK = XNaN
   /\ getKinViscAtTemp fluidData name tK = XNaN
   /\ getDynViscAtTemp fluidData name tK = XNaN)
  /\ (forall entry : fluid,
        fluidData !! name = Some entry ->
        (KinematicViscosityLimits entry = None
         \/ exists points, KinematicViscosityLimits entry = Some points
                           /\ (length points < 2)%nat) ->
        getKinViscAtTemp fluidData name tK = XNaN
        /\ getDynViscAtTemp fluidData name tK = XNaN).
Proof.
  assert (Hdyn : getKinViscAtTemp fluidData name tK = XNaN ->
                 getDynViscAtTemp fluidData name tK = XNaN).
  { intros Hk. unfold getDynViscAtTemp. rewrite Hk. reflexivity. }
  split.
  - intros Hmiss.
    assert (Hk : getKinViscAtTemp fluidData name tK = XNaN).
    { unfold getKinViscAtTemp. cbn [Number_isFinite xreal_number].
      destruct Hmiss as [Hnone | Hinf].
      - rewrite Hnone. destruct (negb (xfinite tK)); reflexivity.
      - rewrite Hinf. reflexivity. }
    split; [| split; [exact Hk | exact (Hdyn Hk)]].
    unfold getDensityAtTemp. cbn [Number_isFinite xreal_number].
    destruct Hmiss as [Hnone | Hinf].
    + rewrite Hnone. destruct (negb (xfinite tK)); reflexivity.
    + rewrite Hinf. reflexivity.
  - intros entry Hlook Hpoints.
    assert (Hk : getKinViscAtTemp fluidData name tK = XNaN).
    { unfold getKinViscAtTemp. destruct (negb (Number_isFinite tK)); [reflexivity |].
      rewrite Hlook. cbn [mbind option_bind].
      destruct Hpoints as [-> | (points & -> & Hlen)]; [reflexivity |].
      destruct points as [| p1 [| p2 points]]; [reflexivity | reflexivity |].
      cbn [length] in Hlen. lia. }
    split; [exact Hk | exact (Hdyn Hk)].
Qed.

Lemma getters_missing_data_witness :
  (getDensityAtTemp incomplete_fluids "Water" (Fin 300) = XNaN
   /\ getKinViscAtTemp incomplete_fluids "Water" (Fin 300) = XNaN
   /\ getDynViscAtTemp incomplete_fluids "Water" (Fin 300) = XNaN)
  /\ (getKinViscAtTemp incomplete_fluids "Density only" (Fin 300) = XNaN
      /\ getDynViscAtTemp incomplete_fluids "Density only" (Fin 300) = XNaN).
Proof.
  split.
  - apply (getters_missing_data incomplete_fluids "Water" (Fin 300)).
    left. reflexivity.
  - apply (getters_missing_data incomplete_fluids "Density only" (Fin 300))
      with (entry := density_only_oil).
    + reflexivity.
    + left. reflexivity.
Defined.

(** X19: the code has no guard for two reference points at the same
    temperature.  With both reference temperatures equal and above 1 K,
    [getKinViscAtTemp] divides by zero and returns [NaN] at every
    temperature above 1 K, whatever the two viscosities are. *)
Theorem getKinViscAtTemp_identical_temperatures
  (fluidData : gmap string fluid) (name : string) (entry : fluid)
  (T0 V1 V2 T : R) (rest : list viscosityLimit) :
  fluidData !! name = Some entry ->
  KinematicViscosityLimits entry
    = Some (ViscosityLimit (Fin T0) (Fin V1) :: ViscosityLimit (Fin T0) (Fin V2) :: rest) ->
  1 < T0 -> 0.2 < V1 -> 0.2 < V2 -> 1 < T ->
  getKinViscAtTemp fluidData name (Fin T) = XNaN
  /\ getDynViscAtTemp fluidData name (Fin T) = XNaN.
Proof.
  intros Hlook Hkv HT0 HV1 HV2 HT.
  assert (Hk : getKinViscAtTemp fluidData name (Fin T) = XNaN).
  { unfold getKinViscAtTemp.
    cbn [Number_isFinite xreal_number xfinite negb].
    rewrite Hlook. cbn [mbind option_bind]. rewrite Hkv.
    cbn [temperature kinematicViscosity xfinite negb orb].
    rewrite !calculateWaltherTransform_Fin by assumption.
    rewrite !Math_log10_Fin by lra.
    pose proof (log10_pos T0 HT0) as Hl0. pose proof (log10_pos T HT) as Hl.
    set (l0 := ln T0 / ln 10) in *. set (l := ln T / ln 10) in *.
    cbn [sub xreal_number xsub].
    unfold div, xreal_number, xdiv.
    destruct (Req_dec_T (l0 - l0) 0) as [_ | Hne]; [| exfalso; apply Hne; ring].
    unfold inf_of_sign.
    destruct (Rlt_dec 0 (walther V2 - walther V1)) as [Hp | Hnp].
    - cbn [mul add sub xmul xsub xadd]. unfold inf_of_sign.
      destruct (Rlt_dec 0 l0) as [_ | H]; [| contradiction].
      destruct (Rlt_dec 0 l) as [_ | H]; [| contradiction].
      reflexivity.
    - destruct (Rlt_dec (walther V2 - walther V1) 0) as [Hn | Hnn].
      + cbn [mul add sub xmul xsub xadd]. unfold inf_of_sign.
        destruct (Rlt_dec 0 (- l0)) as [H | _]; [lra |].
        destruct (Rlt_dec (- l0) 0) as [_ | H]; [| lra].
        destruct (Rlt_dec 0 (- l)) as [H | _]; [lra |].
        destruct (Rlt_dec (- l) 0) as [_ | H]; [| lra].
        reflexivity.
      + reflexivity. }
  split; [exact Hk |].
  unfold getDynViscAtTemp. rewrite Hk. reflexivity.
Qed.

Lemma getKinViscAtTemp_identical_temperatures_witness :
  getKinViscAtTemp incomplete_fluids "Repeated" (Fin 333.15) = XNaN
  /\ getDynViscAtTemp incomplete_fluids "Repeated" (Fin 333.15) = XNaN.
Proof.
  apply (getKinViscAtTemp_identical_temperatures incomplete_fluids "Repeated"
           repeated_temperature_oil 313.15 46 6.8 333.15 []).
  - reflexivity.
  - reflexivity.
  - lra.
  - lra.
  - lra.
  - lra.
Defined.

(** ** The accuracy check *)





(* ================================================================== *)
(** * Properties of the calculators page *)
(* ================================================================== *)

Import Calculators.

(** ** Units no table registers *)

Lemma unregistered_no_table (unit : string) (entry : string * factor_table) :
  unregistered unit = true -> In entry unitTypeRegistry ->
  has_property unit (snd entry) = false.
Proof.
  unfold unregistered. intros Hu He.
  apply andb_prop in Hu as [Hu Hreg]. apply andb_prop in Hu as [_ Hproto].
  apply negb_true_iff in Hreg. apply negb_true_iff in Hproto.
  destruct (has_property unit (snd entry)) eqn:E; [| reflexivity].
  apply (has_property_own _ _ Hproto) in E.
  assert (Hin : In unit registered_units).
  { unfold registered_units. apply in_flat_map. exists entry. split; assumption. }
  apply In_includes in Hin. congruence.
Qed.

(** A conversion from or to an unregistered unit only succeeds when the
    two units are the same. *)
Lemma convertUnit_unregistered (a b a' b' : string) (v : R) :
  normalizeUnit a = Return a' -> normalizeUnit b = Return b' ->
  unregistered a' = true \/ unregistered b' = true ->
  convertUnit a b (Fin v)
  = if String.eqb a' b' then Return (Fin v) else Throw (unsupported_conversion a b).
Proof.
  intros Hna Hnb Hun. unfold convertUnit.
  cbn [Number_isFinite xreal_number xfinite negb]. rewrite Hna, Hnb. cbn [bind].
  destruct (String.eqb a' b'); [reflexivity |].
  assert (Htemp : includes ["C"; "F"; "K"]%string a'
                  && includes ["C"; "F"; "K"]%string b' = false).
  { destruct Hun as [Hu | Hu]; unfold unregistered in Hu;
      apply andb_prop in Hu as [Hu _]; apply andb_prop in Hu as [Hu _];
      apply negb_true_iff in Hu; rewrite Hu;
      [reflexivity | apply andb_false_r]. }
  rewrite Htemp.
  destruct (find _ unitTypeRegistry) as [[name table] |] eqn:E; [| reflexivity].
  exfalso. apply find_some in E as [He Hboth]. cbn [snd] in Hboth.
  apply andb_prop in Hboth as [Hfa Hfb].
  destruct Hun as [Hu | Hu];
    pose proof (unregistered_no_table _ _ Hu He) as Hno; cbn [snd] in Hno; congruence.
Qed.

Lemma normalizeUnit_not_letter (unit normalized : string) :
  normalizeUnit unit = Return normalized ->
  includes ["C"; "F"; "K"]%string normalized = false ->
  unit = normalized.
Proof.
  unfold normalizeUnit. destruct unit as [| c s]; [discriminate |].
  destruct (includes ["C"; "F"; "K"]%string (toUpperCase (String c s))) eqn:E.
  - intros Hret Hno. exfalso.
    assert (Heq : normalized = toUpperCase (String c s)) by congruence.
    rewrite Heq, E in Hno. discriminate.
  - intros [= <-] _. reflexivity.
Qed.

(** ** The flow calculator's conversions *)

(** The SI unit of velocities is in no factor table. *)
Lemma velocity_not_converted (value : xreal) (unit : string) :
  toSI value unit "velocity" = (if xfinite value then value else XNaN)
  /\ fromSI value unit "velocity" = (if xfinite value then value else XNaN).
Proof.
  unfold toSI, fromSI.
  change (si_unit "velocity") with (Some "m/s"%string).
  destruct value as [v | | |]; try (split; reflexivity).
  cbn [xfinite].
  destruct unit as [| c s]; [split; reflexivity |].
  destruct (normalizeUnit_nonempty c s) as (unit' & Hn).
  assert (Hsi : normalizeUnit "m/s" = Return "m/s"%string) by reflexivity.
  assert (Hun : unregistered "m/s" = true) by (vm_compute; reflexivity).
  split.
  - rewrite (convertUnit_unregistered _ _ _ _ v Hn Hsi (or_intror Hun)).
    destruct (String.eqb unit' "m/s"); reflexivity.
  - rewrite (convertUnit_unregistered _ _ _ _ v Hsi Hn (or_introl Hun)).
    destruct (String.eqb "m/s" unit'); reflexivity.
Qed.

(** The conversions of a quantity whose SI unit has the factor 1 in a
    registered table. *)
Lemma toSI_registered
  (type si : string) (entry : string * factor_table) (unit : string) :
  si_unit type = Some si ->
  In entry unitTypeRegistry ->
  In si (keys (snd entry)) -> get_factor (snd entry) si = Fin 1 ->
  In unit (keys (snd entry)) ->
  exists factor : R,
    get_factor (snd entry) unit = Fin factor /\ 0 < factor
    /\ forall v : R,
         toSI (Fin v) unit type = Fin (v * factor)
         /\ fromSI (Fin v) unit type = Fin (v / factor).
Proof.
  intros Hsi He Hs Hone Hu.
  destruct (registered_unit_facts entry unit He Hu) as (_ & Hnu & _).
  destruct (registered_unit_facts entry si He Hs) as (_ & Hns & _).
  destruct (registered_factor entry unit He Hu) as (_ & fu & Hfu & Hfu0).
  exists fu. split; [exact Hfu | split; [exact Hfu0 |]].
  intros v.
  destruct (convertUnit_same_table entry unit si unit si v He Hu Hs Hnu Hns)
    as (fu' & fs & Hfu' & Hfs & _ & _ & Hto).
  destruct (convertUnit_same_table entry si unit si unit v He Hs Hu Hns Hnu)
    as (fs' & fu'' & Hfs' & Hfu'' & _ & _ & Hfrom).
  assert (fs = 1) by congruence. assert (fs' = 1) by congruence.
  assert (fu' = fu) by congruence. assert (fu'' = fu) by congruence.
  subst fs fs' fu' fu''.
  split.
  - unfold toSI. rewrite Hsi, Hto. fin_eq. field.
  - unfold fromSI. rewrite Hsi, Hfrom. fin_eq. field. lra.
Qed.

(** X21: [toSI] and [fromSI] never convert a velocity.  The SI unit
    ["m/s"] they pass to [convertUnit] is in no factor table, so the
    conversion either finds the same unit or throws, and the [catch]
    block returns the value as it came: for every pair of unit names a
    finite value passes through both functions unchanged (a value that is
    not finite gives [NaN]). *)
Theorem toSI_velocity_unchanged (value : xreal) (oldUnit newUnit : string) :
  toSI value oldUnit "velocity" = (if xfinite value then value else XNaN)
  /\ fromSI value newUnit "velocity" = (if xfinite value then value else XNaN)
  /\ fromSI (toSI value oldUnit "velocity") newUnit "velocity"
     = (if xfinite value then value else XNaN).
Proof.
  destruct (velocity_not_converted value oldUnit) as [Hto _].
  destruct (velocity_not_converted value newUnit) as [_ Hfrom].
  split; [exact Hto | split; [exact Hfrom |]].
  rewrite Hto. destruct value as [v | | |]; cbn [xfinite].
  - exact Hfrom.
  - apply (velocity_not_converted XNaN newUnit).
  - apply (velocity_not_converted XNaN newUnit).
  - exact Hfrom.
Qed.

(** X22: for a quantity whose SI unit has the factor 1 in a registered
    table, [toSI] multiplies a value in a unit of that table by the
    unit's factor, and [fromSI] takes the result back to the original
    value, in exact arithmetic.  This holds for the lengths and the flows
    of the flow calculator. *)
Theorem toSI_fromSI_round_trip
  (type si : string) (entry : string * factor_table) (unit : string) (v : R) :
  si_unit type = Some si ->
  In entry unitTypeRegistry ->
  In si (keys (snd entry)) -> get_factor (snd entry) si = Fin 1 ->
  In unit (keys (snd entry)) ->
  exists factor : R,
    get_factor (snd entry) unit = Fin factor
    /\ toSI (Fin v) unit type = Fin (v * factor)
    /\ fromSI (Fin (v * factor)) unit type = Fin v.
Proof.
  intros Hsi He Hs Hone Hu.
  destruct (toSI_registered type si entry unit Hsi He Hs Hone Hu)
    as (factor & Hf & Hpos & Hconv).
  exists factor. split; [exact Hf | split].
  - apply Hconv.
  - destruct (Hconv (v * factor)) as [_ Hfrom]. rewrite Hfrom.
    fin_eq. field. lra.
Qed.

Lemma toSI_fromSI_round_trip_witness :
  exists factor : R,
    get_factor flowFactors "gpm" = Fin factor
    /\ toSI (Fin 10) "gpm" "flow" = Fin (10 * factor)
    /\ fromSI (Fin (10 * factor)) "gpm" "flow" = Fin 10.
Proof.
  apply (toSI_fromSI_round_trip "flow" "m^3/s" ("flow"%string, flowFactors) "gpm" 10).
  - reflexivity.
  - unfold unitTypeRegistry. cbn [In]. tauto.
  - cbn. tauto.
  - reflexivity.
  - cbn. tauto.
Defined.

(** ** The Reynolds number *)

Lemma convertUnit_to_unregistered (a b : string) (v : R) (w : xreal) :
  normalizeUnit b = Return b -> unregistered b = true ->
  convertUnit a b (Fin v) = Return w -> a = b.
Proof.
  intros Hnb Hun Hret.
  destruct a as [| c s]; [discriminate Hret |].
  destruct (normalizeUnit_nonempty c s) as (a' & Hna).
  rewrite (convertUnit_unregistered _ _ _ _ v Hna Hnb (or_intror Hun)) in Hret.
  destruct (String.eqb a' b) eqn:Heq; [| discriminate Hret].
  apply String.eqb_eq in Heq. subst a'.
  apply (normalizeUnit_not_letter _ _ Hna).
  unfold unregistered in Hun.
  apply andb_prop in Hun as [Hun _]. apply andb_prop in Hun as [Hun _].
  apply negb_true_iff in Hun. exact Hun.
Qed.

Lemma calculateReynolds_finite
  (rho V D mu : R) (densityUnit velocityUnit diameterUnit dynViscUnit : string) :
  mu <> 0 ->
  calculateReynolds (Fin rho) (Fin V) (Fin D) (Fin mu)
    densityUnit velocityUnit diameterUnit dynViscUnit
  = match bind (convertUnit densityUnit "kg/m^3" (Fin rho)) (fun rho_SI =>
          bind (convertUnit velocityUnit "m/s" (Fin V)) (fun V_SI =>
          bind (convertUnit diameterUnit "m" (Fin D)) (fun D_SI =>
          bind (convertUnit dynViscUnit "Pa·s" (Fin mu)) (fun mu_SI =>
          Return (xdiv (xmul (xmul rho_SI V_SI) D_SI) mu_SI))))) with
    | Return Re => Fixed0 Re
    | Throw _ => ErrorText
    end.
Proof.
  intros Hmu. unfold calculateReynolds.
  cbn [Number_isFinite xreal_number xfinite negb orb]. unfold is_zero.
  destruct (Req_dec_T mu 0) as [H | _]; [contradiction | reflexivity].
Qed.

(** X23: [calculateReynolds] with four real inputs and a non-zero
    viscosity shows a number only when the velocity unit is ["m/s"] and
    the viscosity unit is the string ["Pa·s"] it converts to.  That string
    is no key of the viscosity table (whose key is ["Pa*s"]), so for
    every registered unit of dynamic viscosity the result is ["Error"].
    With those two units, a registered density unit and a registered
    length unit the number is [rho V D / mu] in SI units. *)
Theorem calculateReynolds_units
  (rho V D mu : R) (densityUnit velocityUnit diameterUnit dynViscUnit : string) :
  mu <> 0 ->
  (forall Re : xreal,
      calculateReynolds (Fin rho) (Fin V) (Fin D) (Fin mu)
        densityUnit velocityUnit diameterUnit dynViscUnit = Fixed0 Re ->
      velocityUnit = "m/s"%string /\ dynViscUnit = "Pa·s"%string)
  /\ (In dynViscUnit (keys dynViscFactors) ->
      calculateReynolds (Fin rho) (Fin V) (Fin D) (Fin mu)
        densityUnit velocityUnit diameterUnit dynViscUnit = ErrorText)
  /\ (velocityUnit = "m/s"%string -> dynViscUnit = "Pa·s"%string ->
      In densityUnit (keys densityFactors) -> In diameterUnit (keys lengthFactors) ->
      exists f_rho f_D : R,
        get_factor densityFactors densityUnit = Fin f_rho
        /\ get_factor lengthFactors diameterUnit = Fin f_D
        /\ calculateReynolds (Fin rho) (Fin V) (Fin D) (Fin mu)
             densityUnit velocityUnit diameterUnit dynViscUnit
           = Fixed0 (Fin (rho * f_rho * V * (D * f_D) / mu))).
Proof.
  intros Hmu.
  assert (Hunits : forall Re : xreal,
             calculateReynolds (Fin rho) (Fin V) (Fin D) (Fin mu)
               densityUnit velocityUnit diameterUnit dynViscUnit = Fixed0 Re ->
             velocityUnit = "m/s"%string /\ dynViscUnit = "Pa·s"%string).
  { intros Re. rewrite (calculateReynolds_finite _ _ _ _ _ _ _ _ Hmu).
    destruct (convertUnit densityUnit "kg/m^3" (Fin rho)) as [rho_SI |] eqn:E1;
      cbn [bind]; [| discriminate].
    destruct (convertUnit velocityUnit "m/s" (Fin V)) as [V_SI |] eqn:E2;
      cbn [bind]; [| discriminate].
    destruct (convertUnit diameterUnit "m" (Fin D)) as [D_SI |] eqn:E3;
      cbn [bind]; [| discriminate].
    destruct (convertUnit dynViscUnit "Pa·s" (Fin mu)) as [mu_SI |] eqn:E4;
      cbn [bind]; [| discriminate].
    intros _. split.
    - apply (convertUnit_to_unregistered _ _ V V_SI); [reflexivity | | exact E2].
      vm_compute. reflexivity.
    - apply (convertUnit_to_unregistered _ _ mu mu_SI); [reflexivity | | exact E4].
      vm_compute. reflexivity. }
  split; [exact Hunits | split].
  - intros Hkey.
    destruct (calculateReynolds (Fin rho) (Fin V) (Fin D) (Fin mu)
                densityUnit velocityUnit diameterUnit dynViscUnit) as [| | Re |] eqn:E.
    + rewrite (calculateReynolds_finite _ _ _ _ _ _ _ _ Hmu) in E.
      destruct (bind _ _) in E; discriminate E.
    + rewrite (calculateReynolds_finite _ _ _ _ _ _ _ _ Hmu) in E.
      destruct (bind _ _) in E; discriminate E.
    + exfalso. destruct (Hunits Re eq_refl) as [_ Hpa]. subst dynViscUnit.
      unfold keys, dynViscFactors in Hkey. cbn [map fst In] in Hkey.
      destruct Hkey as [H | [H | [H | []]]]; discriminate H.
    + reflexivity.
  - intros -> -> Hrho HD.
    assert (Hdens : In ("density"%string, densityFactors) unitTypeRegistry)
      by (unfold unitTypeRegistry; cbn [In]; tauto).
    assert (Hlen : In ("length"%string, lengthFactors) unitTypeRegistry)
      by (unfold unitTypeRegistry; cbn [In]; tauto).
    destruct (registered_unit_facts _ densityUnit Hdens Hrho) as (_ & Hn1 & _).
    destruct (registered_unit_facts _ diameterUnit Hlen HD) as (_ & Hn3 & _).
    destruct (convertUnit_same_table _ densityUnit "kg/m^3" densityUnit "kg/m^3" rho
                Hdens Hrho) as (f_rho & one & Hf & Hone & _ & _ & E1);
      [cbn; tauto | exact Hn1 | reflexivity |].
    destruct (convertUnit_same_table _ diameterUnit "m" diameterUnit "m" D
                Hlen HD) as (f_D & one' & Hf' & Hone' & _ & _ & E3);
      [cbn; tauto | exact Hn3 | reflexivity |].
    cbn [snd] in *.
    assert (H1 : get_factor densityFactors "kg/m^3" = Fin 1) by reflexivity.
    assert (H1' : get_factor lengthFactors "m" = Fin 1) by reflexivity.
    assert (one = 1) by congruence. assert (one' = 1) by congruence. subst one one'.
    exists f_rho, f_D. split; [exact Hf | split; [exact Hf' |]].
    rewrite (calculateReynolds_finite _ _ _ _ _ _ _ _ Hmu), E1, E3.
    assert (E2 : convertUnit "m/s" "m/s" (Fin V) = Return (Fin V)) by reflexivity.
    assert (E4 : convertUnit "Pa·s" "Pa·s" (Fin mu) = Return (Fin mu)) by reflexivity.
    rewrite E2, E4. cbn [bind xmul].
    rewrite xdiv_finite by exact Hmu.
    f_equal. fin_eq. field. exact Hmu.
Qed.

Lemma calculateReynolds_units_witness :
  calculateReynolds (Fin 998) (Fin 2) (Fin 0.05) (Fin 0.001)
    "kg/m^3" "m/s" "m" "Pa*s" = ErrorText.
Proof.
  apply (calculateReynolds_units 998 2 0.05 0.001 "kg/m^3" "m/s" "m" "Pa*s").
  - lra.
  - cbn. tauto.
Defined.

(** ** The flow calculator *)

Lemma circle_area_Fin (x : R) :
  xmul FlowCalculator.Math_PI (FlowCalculator.Math_pow2 (xdiv (Fin x) (Fin 2)))
  = Fin (PI * (x / 2 * (x / 2))).
Proof.
  unfold FlowCalculator.Math_PI, FlowCalculator.Math_pow2.
  rewrite xdiv_finite by lra. reflexivity.
Qed.

Lemma circle_area_pos (x : R) : x <> 0 -> 0 < PI * (x / 2 * (x / 2)).
Proof.
  intros Hx. apply Rmult_lt_0_compat; [exact PI_RGT_0 |].
  assert (H : x / 2 <> 0) by lra. nra.
Qed.

Lemma diameter_of_area_Fin (a : R) :
  0 <= a ->
  xmul (Fin 2) (FlowCalculator.Math_sqrt (xdiv (Fin a) FlowCalculator.Math_PI))
  = Fin (2 * R_sqrt.sqrt (a / PI)).
Proof.
  intros Ha. pose proof PI_RGT_0 as Hpi. unfold FlowCalculator.Math_PI.
  rewrite xdiv_finite by lra. unfold FlowCalculator.Math_sqrt.
  assert (0 <= a / PI).
  { unfold Rdiv. apply Rmult_le_pos; [exact Ha |].
    apply Rlt_le, Rinv_0_lt_compat. exact Hpi. }
  destruct (Rlt_dec (a / PI) 0) as [H' | _]; [lra | reflexivity].
Qed.

Lemma diameter_of_circle_area (x : R) :
  2 * R_sqrt.sqrt (PI * (x / 2 * (x / 2)) / PI) = Rabs x.
Proof.
  pose proof PI_RGT_0 as Hpi.
  replace (PI * (x / 2 * (x / 2)) / PI) with (Rsqr (x / 2))
    by (unfold Rsqr; field; lra).
  rewrite sqrt_Rsqr_abs.
  replace (x / 2) with (x * / 2) by reflexivity.
  rewrite Rabs_mult, (Rabs_pos_eq (/ 2)) by lra. lra.
Qed.

(** X24: the three update functions of the flow calculator agree with
    each other on the numbers they compute (before rounding to four
    decimals).  For a positive diameter and a positive flow in registered
    units, [updateVelocity] computes a positive velocity [V]; from [V]
    and the flow [updateDiameter] computes the diameter again, and from
    the diameter and [V], [updateFlow] computes the flow again.  The
    velocity unit plays no role. *)
Theorem flow_calculator_consistent (D Q : R) (diameterUnit flowUnit velocityUnit : string) :
  In diameterUnit (keys lengthFactors) -> In flowUnit (keys flowFactors) ->
  0 < D -> 0 < Q ->
  exists V : R,
    FlowCalculator.updateVelocity (Fin D) (Fin Q) diameterUnit flowUnit velocityUnit
      = Some (Fin V)
    /\ 0 < V
    /\ FlowCalculator.updateDiameter (Fin V) (Fin Q) velocityUnit flowUnit diameterUnit
       = Some (Fin D)
    /\ FlowCalculator.updateFlow (Fin D) (Fin V) diameterUnit velocityUnit flowUnit
       = Some (Fin Q)
    /\ forall otherUnit : string,
         FlowCalculator.updateVelocity (Fin D) (Fin Q) diameterUnit flowUnit otherUnit
         = Some (Fin V).
Proof.
  intros Hdu Hfu HD HQ.
  destruct (toSI_registered "length" "m" ("length"%string, lengthFactors) diameterUnit)
    as (fd & _ & Hfd & Hlen);
    [reflexivity | unfold unitTypeRegistry; cbn [In]; tauto | cbn; tauto
    | reflexivity | exact Hdu |].
  destruct (toSI_registered "flow" "m^3/s" ("flow"%string, flowFactors) flowUnit)
    as (ff & _ & Hff & Hflow);
    [reflexivity | unfold unitTypeRegistry; cbn [In]; tauto | cbn; tauto
    | reflexivity | exact Hfu |].
  assert (HDm : 0 < D * fd) by (apply Rmult_lt_0_compat; assumption).
  assert (HQm : 0 < Q * ff) by (apply Rmult_lt_0_compat; assumption).
  pose proof (circle_area_pos (D * fd)) as Harea.
  assert (Ha : 0 < PI * (D * fd / 2 * (D * fd / 2))) by (apply Harea; lra).
  set (area := PI * (D * fd / 2 * (D * fd / 2))) in *.
  assert (HV : 0 < Q * ff / area).
  { unfold Rdiv. apply Rmult_lt_0_compat; [exact HQm |].
    apply Rinv_0_lt_compat. exact Ha. }
  assert (Hvel : forall unit : string,
             FlowCalculator.updateVelocity (Fin D) (Fin Q) diameterUnit flowUnit unit
             = Some (Fin (Q * ff / area))).
  { intros unit. unfold FlowCalculator.updateVelocity.
    cbn [Number_isFinite xreal_number xfinite andb lt]. rewrite xlt_Fin.
    destruct (Rlt_dec 0 D) as [_ | H]; [| contradiction].
    destruct (Hlen D) as [-> _]. destruct (Hflow Q) as [-> _].
    cbn [mul div xreal_number]. rewrite circle_area_Fin. fold area.
    rewrite xdiv_finite by lra.
    destruct (velocity_not_converted (Fin (Q * ff / area)) unit) as [_ ->].
    reflexivity. }
  exists (Q * ff / area).
  split; [apply Hvel | split; [exact HV | split; [| split; [| exact Hvel]]]].
  - unfold FlowCalculator.updateDiameter.
    cbn [Number_isFinite xreal_number xfinite andb lt]. rewrite xlt_Fin.
    destruct (Rlt_dec 0 (Q * ff / area)) as [_ | H]; [| contradiction].
    destruct (velocity_not_converted (Fin (Q * ff / area)) velocityUnit) as [-> _].
    cbn [xfinite]. destruct (Hflow Q) as [-> _].
    cbn [mul div xreal_number]. rewrite xdiv_finite by lra.
    replace (Q * ff / (Q * ff / area)) with area by (field; lra).
    rewrite diameter_of_area_Fin by lra.
    unfold area. rewrite diameter_of_circle_area.
    rewrite Rabs_pos_eq by lra.
    destruct (Hlen (D * fd)) as [_ ->]. fin_eq. field. lra.
  - unfold FlowCalculator.updateFlow.
    cbn [Number_isFinite xreal_number xfinite andb lt]. rewrite xlt_Fin.
    destruct (Rlt_dec 0 D) as [_ | H]; [| contradiction].
    destruct (Hlen D) as [-> _].
    destruct (velocity_not_converted (Fin (Q * ff / area)) velocityUnit) as [-> _].
    cbn [xfinite mul div xreal_number]. rewrite circle_area_Fin. fold area.
    cbn [xmul]. destruct (Hflow (area * (Q * ff / area))) as [_ ->].
    fin_eq. field. lra.
Qed.

Lemma flow_calculator_consistent_witness :
  exists V : R,
    FlowCalculator.updateVelocity (Fin 50) (Fin 20) "mm" "L/min" "m/s" = Some (Fin V)
    /\ 0 < V
    /\ FlowCalculator.updateDiameter (Fin V) (Fin 20) "m/s" "L/min" "mm" = Some (Fin 50)
    /\ FlowCalculator.updateFlow (Fin 50) (Fin V) "mm" "m/s" "L/min" = Some (Fin 20)
    /\ forall otherUnit : string,
         FlowCalculator.updateVelocity (Fin 50) (Fin 20) "mm" "L/min" otherUnit
         = Some (Fin V).
Proof.
  apply (flow_calculator_consistent 50 20 "mm" "L/min" "m/s").
  - cbn. tauto.
  - cbn. tauto.
  - lra.
  - lra.
Defined.

(** ** The circle area calculator *)

(** The conversions of the circle area calculator from and to the SI
    unit of a registered table. *)
Lemma convertUnit_SI
  (entry : string * factor_table) (si unit : string) :
  In entry unitTypeRegistry ->
  In si (keys (snd entry)) -> get_factor (snd entry) si = Fin 1 ->
  In unit (keys (snd entry)) ->
  exists factor : R,
    get_factor (snd entry) unit = Fin factor /\ 0 < factor
    /\ forall v : R,
         convertUnit unit si (Fin v) = Return (Fin (v * factor))
         /\ convertUnit si unit (Fin v) = Return (Fin (v / factor)).
Proof.
  intros He Hs Hone Hu.
  destruct (registered_unit_facts entry unit He Hu) as (_ & Hnu & _).
  destruct (registered_unit_facts entry si He Hs) as (_ & Hns & _).
  destruct (registered_factor entry unit He Hu) as (_ & fu & Hfu & Hfu0).
  exists fu. split; [exact Hfu | split; [exact Hfu0 |]].
  intros v.
  destruct (convertUnit_same_table entry unit si unit si v He Hu Hs Hnu Hns)
    as (fu' & fs & Hfu' & Hfs & _ & _ & Hto).
  destruct (convertUnit_same_table entry si unit si unit v He Hs Hu Hns Hnu)
    as (fs' & fu'' & Hfs' & Hfu'' & _ & _ & Hfrom).
  assert (fs = 1) by congruence. assert (fs' = 1) by congruence.
  assert (fu' = fu) by congruence. assert (fu'' = fu) by congruence.
  subst fs fs' fu' fu''.
  split.
  - rewrite Hto. fin_eq. field.
  - rewrite Hfrom. fin_eq. field. lra.
Qed.

Lemma updateArea_registered (D fd fa : R) (diameterUnit areaUnit : string) :
  In diameterUnit (keys lengthFactors) -> In areaUnit (keys areaFactors) ->
  get_factor lengthFactors diameterUnit = Fin fd ->
  get_factor areaFactors areaUnit = Fin fa ->
  CircleAreaCalculator.updateArea (Fin D) diameterUnit areaUnit
  = Some (Fin (PI * (D * fd / 2 * (D * fd / 2)) / fa)).
Proof.
  intros Hdu Hau Hfd Hfa.
  destruct (convertUnit_SI ("length"%string, lengthFactors) "m" diameterUnit)
    as (fd' & Hfd' & _ & Hlen);
    [unfold unitTypeRegistry; cbn [In]; tauto | cbn; tauto | reflexivity | exact Hdu |].
  destruct (convertUnit_SI ("area"%string, areaFactors) "m^2" areaUnit)
    as (fa' & Hfa' & _ & Harea);
    [unfold unitTypeRegistry; cbn [In]; tauto | cbn; tauto | reflexivity | exact Hau |].
  cbn [snd] in *.
  assert (fd' = fd) by congruence. assert (fa' = fa) by congruence. subst fd' fa'.
  unfold CircleAreaCalculator.updateArea.
  cbn [Number_isFinite xreal_number xfinite negb].
  destruct (Hlen D) as [-> _]. cbn [bind mul div xreal_number].
  rewrite circle_area_Fin.
  destruct (Harea (PI * (D * fd / 2 * (D * fd / 2)))) as [_ ->]. reflexivity.
Qed.

(** X25: in registered units the two update functions of the circle
    area calculator invert each other on the numbers they compute
    (before rounding to six decimals): the area [updateArea] computes
    from a diameter [D] is not negative, and from it [updateDiameter]
    computes [|D|], so a negative diameter comes back positive. *)
Theorem circle_area_round_trip (D : R) (diameterUnit areaUnit : string) :
  In diameterUnit (keys lengthFactors) -> In areaUnit (keys areaFactors) ->
  exists A : R,
    CircleAreaCalculator.updateArea (Fin D) diameterUnit areaUnit = Some (Fin A)
    /\ 0 <= A
    /\ CircleAreaCalculator.updateDiameter (Fin A) areaUnit diameterUnit
       = Some (Fin (Rabs D)).
Proof.
  intros Hdu Hau.
  destruct (convertUnit_SI ("length"%string, lengthFactors) "m" diameterUnit)
    as (fd & Hfd & Hfd0 & Hlen);
    [unfold unitTypeRegistry; cbn [In]; tauto | cbn; tauto | reflexivity | exact Hdu |].
  destruct (convertUnit_SI ("area"%string, areaFactors) "m^2" areaUnit)
    as (fa & Hfa & Hfa0 & Harea);
    [unfold unitTypeRegistry; cbn [In]; tauto | cbn; tauto | reflexivity | exact Hau |].
  cbn [snd] in *.
  pose proof PI_RGT_0 as Hpi.
  assert (Hsq : 0 <= D * fd / 2 * (D * fd / 2)) by nra.
  assert (Ha : 0 <= PI * (D * fd / 2 * (D * fd / 2)))
    by (apply Rmult_le_pos; [lra | exact Hsq]).
  set (area := PI * (D * fd / 2 * (D * fd / 2))) in *.
  exists (area / fa). split; [| split].
  - exact (updateArea_registered D fd fa _ _ Hdu Hau Hfd Hfa).
  - unfold Rdiv. apply Rmult_le_pos; [exact Ha |].
    apply Rlt_le, Rinv_0_lt_compat. exact Hfa0.
  - unfold CircleAreaCalculator.updateDiameter.
    cbn [Number_isFinite xreal_number xfinite negb].
    destruct (Harea (area / fa)) as [-> _]. cbn [bind mul div xreal_number].
    replace (area / fa * fa) with area by (field; lra).
    rewrite diameter_of_area_Fin by exact Ha.
    unfold area. rewrite diameter_of_circle_area.
    destruct (Hlen (Rabs (D * fd))) as [_ ->].
    cbn [CircleAreaCalculator.written]. fin_eq.
    rewrite Rabs_mult, (Rabs_pos_eq fd) by lra. field. lra.
Qed.

Lemma circle_area_round_trip_witness :
  exists A : R,
    CircleAreaCalculator.updateArea (Fin (- 3)) "in" "cm^2" = Some (Fin A)
    /\ 0 <= A
    /\ CircleAreaCalculator.updateDiameter (Fin A) "cm^2" "in" = Some (Fin (Rabs (- 3))).
Proof.
  apply (circle_area_round_trip (- 3) "in" "cm^2").
  - cbn. tauto.
  - cbn. tauto.
Defined.

(** X26: with the diameter in metres, centimetres, millimetres or
    inches and the area in the square of the same unit, [updateArea]
    computes [pi (D / 2)^2].  With feet and square feet it does not: the
    factor 0.092903 of ["ft^2"] is not the square of the factor 0.3048 of
    ["ft"], and the area comes out larger by the ratio of the two. *)
Theorem updateArea_matching_units (D : R) :
  CircleAreaCalculator.updateArea (Fin D) "m" "m^2" = Some (Fin (PI * (D / 2 * (D / 2))))
  /\ CircleAreaCalculator.updateArea (Fin D) "cm" "cm^2"
     = Some (Fin (PI * (D / 2 * (D / 2))))
  /\ CircleAreaCalculator.updateArea (Fin D) "mm" "mm^2"
     = Some (Fin (PI * (D / 2 * (D / 2))))
  /\ CircleAreaCalculator.updateArea (Fin D) "in" "in^2"
     = Some (Fin (PI * (D / 2 * (D / 2))))
  /\ CircleAreaCalculator.updateArea (Fin D) "ft" "ft^2"
     = Some (Fin (PI * (D / 2 * (D / 2)) * (0.09290304 / 0.092903)))
  /\ (D <> 0 ->
      CircleAreaCalculator.updateArea (Fin D) "ft" "ft^2"
      <> Some (Fin (PI * (D / 2 * (D / 2))))).
Proof.
  assert (Hft : CircleAreaCalculator.updateArea (Fin D) "ft" "ft^2"
                = Some (Fin (PI * (D / 2 * (D / 2)) * (0.09290304 / 0.092903)))).
  { rewrite (updateArea_registered D 0.3048 0.092903 "ft" "ft^2");
      [| cbn; tauto | cbn; tauto | reflexivity | reflexivity ].
    fin_eq. lra. }
  repeat split.
  - rewrite (updateArea_registered D 1 1 "m" "m^2");
      [| cbn; tauto | cbn; tauto | reflexivity | reflexivity ].
    fin_eq. lra.
  - rewrite (updateArea_registered D 0.01 0.0001 "cm" "cm^2");
      [| cbn; tauto | cbn; tauto | reflexivity | reflexivity ].
    fin_eq. lra.
  - rewrite (updateArea_registered D 0.001 1e-6 "mm" "mm^2");
      [| cbn; tauto | cbn; tauto | reflexivity | reflexivity ].
    fin_eq. lra.
  - rewrite (updateArea_registered D 0.0254 0.00064516 "in" "in^2");
      [| cbn; tauto | cbn; tauto | reflexivity | reflexivity ].
    fin_eq. lra.
  - exact Hft.
  - intros HD. rewrite Hft. intros Heq.
    assert (Hr : PI * (D / 2 * (D / 2)) * (0.09290304 / 0.092903)
                 = PI * (D / 2 * (D / 2))) by congruence.
    pose proof (circle_area_pos D HD) as Hpos.
    assert (Hratio : 0.09290304 / 0.092903 = 1).
    { apply (Rmult_eq_reg_l (PI * (D / 2 * (D / 2)))); [lra | lra]. }
    lra.
Qed.

Lemma updateArea_matching_units_witness :
  CircleAreaCalculator.updateArea (Fin 1) "ft" "ft^2"
  <> Some (Fin (PI * (1 / 2 * (1 / 2)))).
Proof.
  apply (updateArea_matching_units 1). lra.
Defined.

(* ================================================================== *)
(** * Properties of the porous-media page *)
(* ================================================================== *)

Import PorousMediaPage.

(** ** The main calculator *)


(** The temperature in kelvins that the page computes. *)
Lemma convertUnit_to_kelvin (tempUnit ta : string) (v : R) :
  normalizeUnit tempUnit = Return ta -> In ta temperatureUnits ->
  convertUnit tempUnit "K" (Fin v) = Return (Fin (kelvin_of ta v)).
Proof.
  intros Hn Hta.
  rewrite (convertUnit_temperature tempUnit "K" ta "K" v Hn);
    [| reflexivity | exact Hta | cbn; tauto].
  unfold temperatureUnits in Hta. cbn [In] in Hta.
  destruct Hta as [<- | [<- | [<- | []]]];
    unfold kelvin_of, of_kelvin; eval_string_tests; reflexivity.
Qed.



Lemma kelvin_in_no_table (entry : string * factor_table) :
  In entry unitTypeRegistry -> has_property "K" (snd entry) = false.
Proof.
  unfold unitTypeRegistry. cbn [In].
  intros H.
  repeat (destruct H as [<- | H]; [reflexivity |]).
  contradiction.
Qed.

(** X28: the edges of [calculateAll].  With at least three points and a
    temperature input that is not finite (an empty field parses to
    [NaN]) it throws nothing and reports the coefficients of [fitCurve]
    together with [NaN] for the viscosity, the density, [d] and [f],
    whatever the fluid, the unit and the length are.  With a finite
    temperature and a non-empty unit that does not normalise to C, F or K
    it throws "Unsupported conversion from ... to K" and reports nothing. *)
Theorem calculateAll_temperature_edges
  (fluidData : gmap string fluid) (x y : list xreal) (oilType : string)
  (tempInput : xreal) (tempUnit : string) (L : xreal) :
  (3 <= length x)%nat ->
  (xfinite tempInput = false ->
   calculateAll fluidData x y oilType tempInput tempUnit L
   = Return (Some (Report (CurveFitting.A (PorousMedia.fitCurve x y))
                          (CurveFitting.B (PorousMedia.fitCurve x y))
                          XNaN XNaN XNaN XNaN)))
  /\ (forall unit : string,
        xfinite tempInput = true ->
        normalizeUnit tempUnit = Return unit -> ~ In unit temperatureUnits ->
        calculateAll fluidData x y oilType tempInput tempUnit L
        = Throw (unsupported_conversion tempUnit "K")).
Proof.
  intros Hlen.
  assert (Hb : (length x <? 3)%nat = false) by (apply Nat.ltb_ge; exact Hlen).
  split.
  - intros Hinf. unfold calculateAll. rewrite Hb.
    unfold convertUnit. cbn [Number_isFinite xreal_number]. rewrite Hinf.
    cbn [negb bind]. change (@NaN xreal xreal_number) with XNaN.
    assert (Hd : getDensityAtTemp fluidData oilType XNaN = XNaN) by reflexivity.
    assert (Hm : getDynViscAtTemp fluidData oilType XNaN = XNaN) by reflexivity.
    rewrite Hd, Hm.
    cbn [PorousMedia.calcDarcyForchheimer PorousMedia.d PorousMedia.f
         mul div xreal_number].
    rewrite xmul_NaN_l, !xdiv_NaN_r. reflexivity.
  - intros unit Hfin Hn Hnot. unfold calculateAll. rewrite Hb.
    destruct tempInput as [v | | |]; try discriminate Hfin.
    unfold convertUnit. cbn [Number_isFinite xreal_number xfinite negb].
    rewrite Hn. cbn [bind].
    change (normalizeUnit "K") with (Return "K"%string). cbn [bind].
    destruct (String.eqb unit "K") eqn:Heq.
    { apply String.eqb_eq in Heq. subst unit.
      exfalso. apply Hnot. cbn. tauto. }
    destruct (includes ["C"; "F"; "K"]%string unit) eqn:Hinc.
    { apply includes_In in Hinc. contradiction. }
    cbn [andb].
    destruct (find _ unitTypeRegistry) as [[name table] |] eqn:E; [| reflexivity].
    exfalso. apply find_some in E as [He Hboth]. cbn [snd] in Hboth.
    apply andb_prop in Hboth as [_ Hk].
    pose proof (kelvin_in_no_table _ He) as Hno. cbn [snd] in Hno. congruence.
Qed.

Lemma calculateAll_temperature_edges_witness :
  calculateAll sample_fluids [Fin 1; Fin 2; Fin 3] [Fin 3; Fin 8; Fin 15]
    "HLP 46" XNaN "C" (Fin 0.1)
  = Return (Some (Report (Fin 2) (Fin 1) XNaN XNaN XNaN XNaN))
  /\ calculateAll sample_fluids [Fin 1; Fin 2; Fin 3] [Fin 3; Fin 8; Fin 15]
       "HLP 46" (Fin 60) "degC" (Fin 0.1)
     = Throw (unsupported_conversion "degC" "K").
Proof.
  destruct (calculateAll_temperature_edges sample_fluids
              [Fin 1; Fin 2; Fin 3] [Fin 3; Fin 8; Fin 15] "HLP 46" XNaN "C" (Fin 0.1))
    as [Hnan _]; [simpl; lia |].
  destruct (calculateAll_temperature_edges sample_fluids
              [Fin 1; Fin 2; Fin 3] [Fin 3; Fin 8; Fin 15] "HLP 46" (Fin 60) "degC"
              (Fin 0.1))
    as [_ Hthrow]; [simpl; lia |].
  split.
  - rewrite (Hnan eq_refl).
    pose proof (fitCurve_Fin [(1, 3); (2, 8); (3, 15)]) as Hfit.
    cbv zeta in Hfit. cbn [map fst snd] in Hfit. rewrite Hfit.
    cbn [Rsum fold_right fst snd CurveFitting.A CurveFitting.B].
    rewrite !xdiv_finite by lra.
    do 3 f_equal; fin_eq; field.
  - apply (Hthrow "degC"); [reflexivity | reflexivity |].
    cbn. intros [H | [H | [H | []]]]; discriminate H.
Defined.

(** ** The flow-rate table *)

Lemma Rsum_map (g : R * R -> R) (h : R * R -> R * R) (samples : list (R * R)) :
  Rsum g (map h samples) = Rsum (fun p => g (h p)) samples.
Proof.
  induction samples as [| p samples IH]; [reflexivity |].
  cbn [map]. rewrite !Rsum_cons, IH. reflexivity.
Qed.

Lemma Rsum_scale (k : R) (g h : R * R -> R) (samples : list (R * R)) :
  (forall p, h p = k * g p) -> Rsum h samples = k * Rsum g samples.
Proof.
  intros Hh. induction samples as [| p samples IH].
  - simpl. ring.
  - rewrite !Rsum_cons, IH, Hh. ring.
Qed.

(** The columns [readFlowTableData] returns for rows of real numbers. *)
Lemma readFlowTableData_real (area : R) (rows : list (R * R)) :
  area <> 0 ->
  readFlowTableData (Fin area) (map (fun r => (Fin (fst r), Fin (snd r))) rows)
  = (map (fun p => Fin (fst p)) (map (fun r => (fst r / area, snd r)) rows),
     map (fun p => Fin (snd p)) (map (fun r => (fst r / area, snd r)) rows)).
Proof.
  intros Ha. unfold readFlowTableData.
  assert (Hfilter :
    filter (fun r : xreal * xreal => negb (isNaN (fst r)) && negb (isNaN (snd r)))
           (map (fun r : R * R => (Fin (fst r), Fin (snd r))) rows)
    = map (fun r : R * R => (Fin (fst r), Fin (snd r))) rows).
  { induction rows as [| r rows IH]; [reflexivity |].
    cbn [map]. rewrite filter_cons. cbn [fst snd isNaN negb andb].
    rewrite IH. reflexivity. }
  rewrite Hfilter, !map_map. cbn [fst snd]. f_equal.
  apply map_ext. intros r. apply xdiv_finite. exact Ha.
Qed.

(** The fit on velocities against the fit on raw flow rates. *)
Lemma fitCurve_velocities (area : R) (rows : list (R * R)) :
  0 < area ->
  (exists u v, In u rows /\ In v rows
               /\ fst u <> 0 /\ fst v <> 0 /\ fst u <> fst v) ->
  exists A B : R,
    PorousMedia.fitCurve
      (map (fun p => Fin (fst p)) rows) (map (fun p => Fin (snd p)) rows)
    = Coefficients (Fin A) (Fin B)
    /\ PorousMedia.fitCurve
         (map (fun p => Fin (fst p)) (map (fun r => (fst r / area, snd r)) rows))
         (map (fun p => Fin (snd p)) (map (fun r => (fst r / area, snd r)) rows))
       = Coefficients (Fin (area * A)) (Fin (area * area * B)).
Proof.
  intros Ha (u & v & Hu & Hv & Hu0 & Hv0 & Huv).
  pose proof (determinant_positive rows u v Hu Hv Hu0 Hv0 Huv) as Hdet.
  rewrite !fitCurve_Fin. cbv zeta.
  rewrite !Rsum_map. cbn [fst snd].
  rewrite (Rsum_scale (/ (area * area)) (fun p => fst p * fst p)
             (fun p => fst p / area * (fst p / area)))
    by (intros p; field; lra).
  rewrite (Rsum_scale (/ (area * area * area)) (fun p => fst p * fst p * fst p)
             (fun p => fst p / area * (fst p / area) * (fst p / area)))
    by (intros p; field; lra).
  rewrite (Rsum_scale (/ (area * area * area * area))
             (fun p => fst p * fst p * fst p * fst p)
             (fun p => fst p / area * (fst p / area) * (fst p / area) * (fst p / area)))
    by (intros p; field; lra).
  rewrite (Rsum_scale (/ area) (fun p => fst p * snd p)
             (fun p => fst p / area * snd p))
    by (intros p; field; lra).
  rewrite (Rsum_scale (/ (area * area)) (fun p => fst p * fst p * snd p)
             (fun p => fst p / area * (fst p / area) * snd p))
    by (intros p; field; lra).
  set (S2 := Rsum (fun p => fst p * fst p) rows) in *.
  set (S3 := Rsum (fun p => fst p * fst p * fst p) rows) in *.
  set (S4 := Rsum (fun p => fst p * fst p * fst p * fst p) rows) in *.
  set (Sxy := Rsum (fun p => fst p * snd p) rows).
  set (S2y := Rsum (fun p => fst p * fst p * snd p) rows).
  assert (Hd : S2 * S4 - S3 * S3 <> 0) by lra.
  assert (Hd' : / (area * area) * S2 * (/ (area * area * area * area) * S4)
                - / (area * area * area) * S3 * (/ (area * area * area) * S3) <> 0).
  { replace (/ (area * area) * S2 * (/ (area * area * area * area) * S4)
             - / (area * area * area) * S3 * (/ (area * area * area) * S3))
      with ((S2 * S4 - S3 * S3) * / (area * area * area * area * area * area))
      by (field; lra).
    apply Rmult_integral_contrapositive_currified; [exact Hd |].
    apply Rinv_neq_0_compat.
    repeat (apply Rmult_integral_contrapositive_currified; [| lra]). lra. }
  rewrite !xdiv_finite by assumption.
  eexists. eexists. split; [reflexivity |].
  fin_eq; field; split; lra.
Qed.

(** X29: dividing the flow rates by a positive area, as
    [readFlowTableData] does, rescales the fit.  If [fitCurve] on the raw
    flow rates returns [A] and [B], then on the two columns
    [readFlowTableData] returns it gives [area * A] and [area^2 * B], for
    real rows with two distinct non-zero flow rates; no row is dropped. *)
Theorem readFlowTableData_rescales_fit (area : R) (rows : list (R * R)) :
  0 < area ->
  (exists u v, In u rows /\ In v rows
               /\ fst u <> 0 /\ fst v <> 0 /\ fst u <> fst v) ->
  exists A B : R,
    PorousMedia.fitCurve
      (map (fun p => Fin (fst p)) rows) (map (fun p => Fin (snd p)) rows)
    = Coefficients (Fin A) (Fin B)
    /\ let xy := readFlowTableData (Fin area)
                   (map (fun r => (Fin (fst r), Fin (snd r))) rows) in
       length (fst xy) = length rows
       /\ PorousMedia.fitCurve (fst xy) (snd xy)
          = Coefficients (Fin (area * A)) (Fin (area * area * B)).
Proof.
  intros Ha Hx.
  destruct (fitCurve_velocities area rows Ha Hx) as (A & B & Hraw & Hvel).
  exists A, B. split; [exact Hraw |].
  cbv zeta. rewrite (readFlowTableData_real area rows) by lra. cbn [fst snd].
  split; [rewrite !length_map; reflexivity | exact Hvel].
Qed.

Lemma readFlowTableData_rescales_fit_witness :
  exists A B : R,
    PorousMedia.fitCurve
      (map (fun p => Fin (fst p)) noisy_samples) (map (fun p => Fin (snd p)) noisy_samples)
    = Coefficients (Fin A) (Fin B)
    /\ let xy := readFlowTableData (Fin 0.5)
                   (map (fun r => (Fin (fst r), Fin (snd r))) noisy_samples) in
       length (fst xy) = length noisy_samples
       /\ PorousMedia.fitCurve (fst xy) (snd xy)
          = Coefficients (Fin (0.5 * A)) (Fin (0.5 * 0.5 * B)).
Proof.
  apply (readFlowTableData_rescales_fit 0.5 noisy_samples).
  - lra.
  - exists (1, 2), (2, 7). simpl. repeat split; auto; lra.
Defined.

(** ** The calculator on flow data *)

(** X30: [calculateFromFlow] end to end.  Given a positive area, at
    least three real rows with two distinct non-zero flow rates, a
    temperature in C, F or K, a non-zero length and two non-zero
    overrides for density and viscosity, it reports [area * A] and
    [area^2 * B] for the coefficients [A] and [B] of the raw flow rates,
    the two overrides, and [d] and [f] computed from these; the fluid
    table and the temperature play no role.  With overrides that are
    empty or zero it is [calculateAll] on the two columns of
    [readFlowTableData]. *)
Theorem calculateFromFlow_report
  (fluidData : gmap string fluid) (area : R) (rows : list (R * R))
  (oilType : string) (tempInput : R) (tempUnit ta : string) (L rho mu : R) :
  0 < area ->
  (3 <= length rows)%nat ->
  (exists u v, In u rows /\ In v rows
               /\ fst u <> 0 /\ fst v <> 0 /\ fst u <> fst v) ->
  normalizeUnit tempUnit = Return ta -> In ta temperatureUnits ->
  L <> 0 -> rho <> 0 -> mu <> 0 ->
  let table := map (fun r => (Fin (fst r), Fin (snd r))) rows in
  (exists A B : R,
     PorousMedia.fitCurve
       (map (fun p => Fin (fst p)) rows) (map (fun p => Fin (snd p)) rows)
     = Coefficients (Fin A) (Fin B)
     /\ calculateFromFlow fluidData (Fin area) table oilType (Fin tempInput) tempUnit
          (Fin L) (Fin rho) (Fin mu)
        = Return (Some (Report (Fin (area * A)) (Fin (area * area * B))
                               (Fin mu) (Fin rho)
                               (Fin (area * A / (mu * L)))
                               (Fin (2 * (area * area * B) / (rho * L))))))
  /\ (forall densityInput viscosityInput : xreal,
        truthy densityInput = false -> truthy viscosityInput = false ->
        calculateFromFlow fluidData (Fin area) table oilType (Fin tempInput) tempUnit
          (Fin L) densityInput viscosityInput
        = calculateAll fluidData (fst (readFlowTableData (Fin area) table))
            (snd (readFlowTableData (Fin area) table)) oilType (Fin tempInput)
            tempUnit (Fin L)).
Proof.
  intros Ha Hlen Hx Hn Hta HL Hrho Hmu table.
  assert (Hnz : area <> 0) by lra.
  assert (Hle : le_zero (Fin area) = false).
  { unfold le_zero. destruct (Rle_dec area 0) as [H | _]; [lra | reflexivity]. }
  split.
  - destruct (fitCurve_velocities area rows Ha Hx) as (A & B & Hraw & Hvel).
    exists A, B. split; [exact Hraw |].
    unfold calculateFromFlow, table.
    rewrite (truthy_nonzero _ Hnz), Hle. cbn [negb orb].
    rewrite (readFlowTableData_real area rows) by exact Hnz. cbn [fst snd].
    assert (Hb : Nat.ltb (length (map (fun p : R * R => Fin (fst p))
                                    (map (fun r : R * R => (fst r / area, snd r)) rows)))
                         3 = false).
    { apply Nat.ltb_ge. rewrite !length_map. exact Hlen. }
    rewrite Hb, Hvel, (convertUnit_to_kelvin _ _ _ Hn Hta). cbn [bind].
    rewrite (truthy_nonzero _ Hrho), (truthy_nonzero _ Hmu).
    cbn [CurveFitting.A CurveFitting.B PorousMedia.calcDarcyForchheimer
         PorousMedia.d PorousMedia.f mul of_nat xreal_number xmul INR].
    assert (HmuL : mu * L <> 0)
      by (apply Rmult_integral_contrapositive_currified; assumption).
    assert (HrhoL : rho * L <> 0)
      by (apply Rmult_integral_contrapositive_currified; assumption).
    cbn [div xreal_number]. rewrite !xdiv_finite by assumption.
    reflexivity.
  - intros densityInput viscosityInput Hd Hv.
    unfold calculateFromFlow, calculateAll.
    rewrite (truthy_nonzero _ Hnz), Hle, Hd, Hv. reflexivity.
Qed.

Lemma calculateFromFlow_report_witness :
  exists A B : R,
    calculateFromFlow sample_fluids (Fin 0.5)
      (map (fun r => (Fin (fst r), Fin (snd r))) noisy_samples)
      "HLP 46" (Fin 40) "C" (Fin 0.1) (Fin 870) (Fin 0.03)
    = Return (Some (Report (Fin (0.5 * A)) (Fin (0.5 * 0.5 * B))
                           (Fin 0.03) (Fin 870)
                           (Fin (0.5 * A / (0.03 * 0.1)))
                           (Fin (2 * (0.5 * 0.5 * B) / (870 * 0.1))))).
Proof.
  destruct (calculateFromFlow_report sample_fluids 0.5 noisy_samples "HLP 46"
              40 "C" "C" 0.1 870 0.03) as [(A & B & _ & Hreport) _].
  - lra.
  - simpl. lia.
  - exists (1, 2), (2, 7). simpl. repeat split; auto; lra.
  - reflexivity.
  - cbn. tauto.
  - lra.
  - lra.
  - lra.
  - exists A, B. exact Hreport.
Defined.
